(** * The benchmark driver of [benchmark.py]

    A shallow embedding of the request dispatcher
    ([benchmark_service_threaded]), the resource sampler
    ([ResourceMonitor]), the comparison reporter
    ([run_comparison_benchmark]), the command line ([main]) and the
    rate-driven dispatcher ([benchmark_service]).

    Conventions.
    - Python floats are idealised as exact rationals ([Q]); equalities
      between computed numbers are stated with [==].
    - Python ints are [Z]; list lengths are converted with [Z.of_nat].
    - A call that may raise returns a [result]; code with console, network
      and file effects runs in the trace monad [M], which records every
      effect in order and stops at the first uncaught exception.
    - The outside world (HTTP replies, clock readings, the process table,
      the file system) is an explicit [Env] of oracles.
    - Console output is recorded line by line; the layout of numbers and
      the decorative symbols of the messages are left out.
    - A body parsed by [response.json()] is an arbitrary JSON value; what
      the driver does with an ill-shaped one is part of the model.
    - A monitor's thread is seen from the main thread: its ticks are a
      schedule the world decides, and so is how far it has got when
      [join(timeout=2.0)] returns.  The list [stop_monitoring] returns is
      taken as it stands at that moment. *)

From Stdlib Require Import List String Ascii ZArith QArith Bool Lia.
From Stdlib Require Import DecimalString DecimalZ DecimalPos FinFun Lqa.
Import ListNotations.

Open Scope Z_scope.
Open Scope Q_scope.

(** ** Exceptions and fallible results *)

(** Every class below derives from Python's [Exception]. *)
Inductive exn : Type :=
| StatisticsError
| ValueError
| TypeError
| AttributeError
| IndexError
| OSError
| NoSuchProcess
| AccessDenied
| HTTPStatusError
| ConnectError
| TimeoutException.

Inductive result (A : Type) : Type :=
| Ok (a : A)
| Raise (e : exn).

Arguments Ok {A} a.
Arguments Raise {A} e.

Definition rbind {A B} (r : result A) (f : A -> result B) : result B :=
  match r with
  | Ok a => f a
  | Raise e => Raise e
  end.

Declare Scope result_scope.
Delimit Scope result_scope with result.
Notation "x <- r ;; k" := (rbind r (fun x => k))
  (at level 61, r at next level, right associativity) : result_scope.

(** ** JSON values

    What [json.loads] builds and [json.dump] writes: [None], booleans,
    numbers (ints and floats alike), strings, lists, and dicts as their
    entries in insertion order, one per key. *)

#[local] Set Warnings "-register-all".

Inductive Json : Type :=
| JNull
| JBool (b : bool)
| JNum (q : Q)
| JStr (s : string)
| JList (items : list Json)
| JObj (fields : list (string * Json)).

(** ** Builtins and the [statistics] module, as the driver uses them *)

Module Py.

Definition Qltb (x y : Q) : bool := negb (Qle_bool y x).

Definition len {A} (l : list A) : Z := Z.of_nat (List.length l).

(** Truthiness of a list: [if latencies]. *)
Definition truthy {A} (l : list A) : bool :=
  match l with [] => false | _ :: _ => true end.

Fixpoint sum (l : list Q) : Q :=
  match l with
  | [] => 0
  | x :: l' => x + sum l'
  end.

(** [max(l)]: the first maximal element; [ValueError] on an empty list. *)
Definition max (l : list Q) : result Q :=
  match l with
  | [] => Raise ValueError
  | x :: l' => Ok (fold_left (fun m y => if Qltb m y then y else m) l' x)
  end.

Definition min (l : list Q) : result Q :=
  match l with
  | [] => Raise ValueError
  | x :: l' => Ok (fold_left (fun m y => if Qltb y m then y else m) l' x)
  end.

(** [l[i]] for a non-negative index. *)
Definition getitem {A} (l : list A) (i : nat) : result A :=
  match nth_error l i with
  | Some x => Ok x
  | None => Raise IndexError
  end.

Fixpoint insert_sorted (x : Q) (l : list Q) : list Q :=
  match l with
  | [] => [x]
  | y :: l' => if Qltb x y then x :: l else y :: insert_sorted x l'
  end.

(** [sorted(l)]: a stable ascending sort. *)
Definition sorted (l : list Q) : list Q :=
  fold_left (fun acc x => insert_sorted x acc) l [].

(** [range(lo, hi)]. *)
Definition range (lo hi : Z) : list Z :=
  map (fun k => lo + Z.of_nat k)%Z (seq 0 (Z.to_nat (hi - lo))).

(** [str(n)]. *)
Definition str (n : Z) : string := NilZero.string_of_int (Z.to_int n).

(** [needle in haystack] on strings. *)
Fixpoint contains (haystack needle : string) : bool :=
  if prefix needle haystack then true
  else match haystack with
       | EmptyString => false
       | String _ rest => contains rest needle
       end.

End Py.

Module Statistics.

Import Py.

(** How [statistics] reads one value of a parsed body: a JSON number is a
    number, [True] and [False] count as 1 and 0, and anything else is a
    [TypeError]. *)
Definition number (x : Json) : result Q :=
  match x with
  | JNum q => Ok q
  | JBool b => Ok (if b then 1 else 0)
  | _ => Raise TypeError
  end.

Fixpoint numbers (data : list Json) : result (list Q) :=
  match data with
  | [] => Ok []
  | x :: rest =>
      (q <- number x ;;
       qs <- numbers rest ;;
       Ok (q :: qs))%result
  end.

(** [statistics.mean]. *)
Definition mean (data : list Q) : result Q :=
  match data with
  | [] => Raise StatisticsError
  | _ => Ok (sum data / inject_Z (len data))
  end.

(** [statistics.median]: the middle value, or the mean of the two middle
    values for an even count. *)
Definition median (data : list Q) : result Q :=
  let data := sorted data in
  let n := List.length data in
  match n with
  | O => Raise StatisticsError
  | _ =>
      if Nat.odd n then Ok (nth (n / 2) data 0)
      else
        let i := (n / 2)%nat in
        Ok ((nth (i - 1) data 0 + nth i data 0) / 2)
  end.

(** One cut point of [statistics.quantiles(data, n=n)] in its default
    (exclusive) method: [data] is sorted, [ld] its length, [i] ranges over
    [1 .. n-1].  The clamp keeps [1 <= j <= ld-1], so both indices are in
    range.  The interpolation is taken exactly; the float the library
    computes may differ from it in the last place. *)
Definition cut_point (data : list Q) (ld n i : Z) : Q :=
  let m := (ld + 1)%Z in
  let j := (i * m / n)%Z in
  let j := if (j <? 1)%Z then 1%Z
           else if (j >? ld - 1)%Z then (ld - 1)%Z else j in
  let delta := (i * m - j * n)%Z in
  (nth (Z.to_nat (j - 1)) data 0 * inject_Z (n - delta)
   + nth (Z.to_nat j) data 0 * inject_Z delta) / inject_Z n.

(** [statistics.quantiles(data, n=n)]. *)
Definition quantiles (data : list Q) (n : Z) : result (list Q) :=
  if (n <? 1)%Z then Raise StatisticsError
  else
    let data := sorted data in
    let ld := len data in
    if (ld <? 2)%Z then Raise StatisticsError
    else Ok (map (cut_point data ld n) (range 1 n)).

End Statistics.

(** ** Dictionaries

    A Python [dict] keeps its keys in insertion order: an association list
    with one entry per key. *)

Module Dict.

Definition t (V : Type) : Type := list (string * V).

Fixpoint get {V} (d : t V) (key : string) : option V :=
  match d with
  | [] => None
  | (k, v) :: d' => if String.eqb k key then Some v else get d' key
  end.

Definition keys {V} (d : t V) : list string := map fst d.

(** [if key not in d: d[key] = []] followed by [d[key].append(x)]. *)
Fixpoint append_to {V} (key : string) (x : V) (d : t (list V))
    : t (list V) :=
  match d with
  | [] => [(key, [x])]
  | (k, v) :: d' =>
      if String.eqb k key then (k, v ++ [x]) :: d'
      else (k, v) :: append_to key x d'
  end.

End Dict.

(** Field lookup in a JSON object. *)
Definition field (key : string) (j : Json) : option Json :=
  match j with
  | JObj fields => Dict.get fields key
  | _ => None
  end.

(** ** The outside world *)

(** The body of a response as [response.json()] hands it over: any JSON
    value.  Nothing makes the server answer with an object, or with an
    object of the expected shape. *)
Definition ResponseBody : Type := Json.

(** What an HTTP call does: the server answers with a status code and a
    body ([None] when the body is not valid JSON), or the client call itself
    raises (connection failure, timeout). *)
Inductive HttpReply : Type :=
| Responded (status : Z) (json : option ResponseBody)
| Failed (e : exn).

(** One attempt as the world decides it: the two clock readings taken
    around the call, and the reply. *)
Record Attempt : Type := {
  request_start : Q;
  reply : HttpReply;
  received_at : Q
}.

(** What [psutil.process_iter] yields for one process.  [psutil] fills a
    field it could not read with [None]. *)
Record ProcInfo : Type := {
  info_name : option string;
  info_cpu_percent : option Q;
  info_memory_info : option Z;       (* rss, in bytes *)
  info_num_threads : option Z
}.

Inductive ProcEntry : Type :=
| Inspect (info : ProcInfo)
| Inaccessible (e : exn).      (* reading the entry raises [e] *)

(** One iteration of the sampling loop as the sampler's thread sees it:
    the value of [self.monitoring] read by the [while] test, and what
    enumerating the process table gives. *)
Record Tick : Type := {
  monitoring_flag : bool;
  process_iter : result (list ProcEntry)
}.

Record Env : Type := {
  env_get : string -> HttpReply;            (* GET url *)
  env_post : string -> Z -> Attempt;        (* POST url, by attempt index *)
  env_dispatch_start : string -> Q;         (* [time.time()] when a dispatch starts *)
  env_dispatch_end : string -> Q;           (* ... and when [gather] has returned *)
  env_ticks : list string -> list Tick;     (* the schedule seen by a monitor's thread *)
  env_joined : list string -> nat;          (* ticks that thread has completed when
                                               [join(timeout=2.0)] returns *)
  env_timestamp : Q;                        (* [time.time()] when the artifact is built *)
  env_open : string -> option exn;          (* does [open(path, "w")] raise? *)
  env_dump : option exn                     (* does [json.dump] raise? *)
}.

(** ** Effects *)

Inductive Line : Type :=
| Text (s : string)
| RequestLine (session_num : Z) (latency : Q)
| ErrorLine (session_num : Z) (e : exn)
| Completed (service : string) (successful total : Z)
| Row (label : string) (rust python : Q) (improvement : option Q).

Inductive Event : Type :=
| Print (line : Line)
| HttpGet (url : string)
| HttpPost (url : string) (topic : string)
| ThreadStart (process_names : list string)
| ThreadJoin (process_names : list string)
| FileOpen (path : string)                  (* opened for writing: now empty *)
| FilePartial (path : string) (doc : Json)  (* [json.dump] raised part-way *)
| FileDump (path : string) (doc : Json).    (* the whole text of [doc] written *)

(** How a computation ends.  [Hangs] is a wait that never finishes. *)
Inductive outcome (A : Type) : Type :=
| Returns (a : A)
| Raises (e : exn)
| Hangs.

Arguments Returns {A} a.
Arguments Raises {A} e.
Arguments Hangs {A}.

(** The trace monad: a computation extends the trace of effects performed
    so far and ends in an [outcome]. *)
Definition M (A : Type) : Type := list Event -> outcome A * list Event.

Definition ret {A} (a : A) : M A := fun t => (Returns a, t).

Definition bind {A B} (m : M A) (f : A -> M B) : M B :=
  fun t =>
    match m t with
    | (Returns a, t') => f a t'
    | (Raises e, t') => (Raises e, t')
    | (Hangs, t') => (Hangs, t')
    end.

Definition emit (e : Event) : M unit := fun t => (Returns tt, t ++ [e]).

Definition raise {A} (e : exn) : M A := fun t => (Raises e, t).

Definition hang {A} : M A := fun t => (Hangs, t).

Definition lift {A} (r : result A) : M A :=
  match r with
  | Ok a => ret a
  | Raise e => raise e
  end.

(** [try: m  except Exception as e: handler e]. *)
Definition try_except {A} (m : M A) (handler : exn -> M A) : M A :=
  fun t =>
    match m t with
    | (Raises e, t') => handler e t'
    | r => r
    end.

Declare Scope monad_scope.
Delimit Scope monad_scope with monad.
Notation "x <- m ;; k" := (bind m (fun x => k))
  (at level 61, m at next level, right associativity) : monad_scope.
Notation "m ;; k" := (bind m (fun _ => k))
  (at level 61, right associativity) : monad_scope.

Definition print (l : Line) : M unit := emit (Print l).

(** A run of consecutive [print] calls. *)
Fixpoint print_lines (lines : list Line) : M unit :=
  match lines with
  | [] => ret tt
  | l :: rest => (print l ;; print_lines rest)%monad
  end.

(** [c * n] on strings. *)
Definition times (c : string) (n : nat) : string :=
  String.concat "" (repeat c n).

(** Run a computation from the empty trace. *)
Definition run {A} (m : M A) : outcome A * list Event := m [].

(** ** ResourceMonitor *)

Record ResourceMetrics : Type := {
  cpu_percent : Q;
  memory_mb : Q;
  threads : Z
}.

Module ResourceMonitor.

Import Py.
Local Open Scope result_scope.

(** The fields of a [ResourceMonitor] object.  [monitor_thread] tells
    whether a thread object has been created. *)
Record t : Type := {
  process_names : list string;
  metrics : list ResourceMetrics;
  monitoring : bool;
  monitor_thread : bool
}.

Definition __init__ (process_names : list string) : t :=
  {| process_names := process_names;
     metrics := [];
     monitoring := false;
     monitor_thread := false |}.

(** The running totals of one tick. *)
Record Totals : Type := {
  total_cpu : Q;
  total_memory : Q;
  total_threads : Z;
  found_processes : Z
}.

Definition no_totals : Totals :=
  {| total_cpu := 0; total_memory := 0;
     total_threads := 0; found_processes := 0 |}.

(** [any(name in proc_name for name in self.process_names)]: the
    generator tests nothing when there are no names, and [name in None]
    is a [TypeError]. *)
Definition matches (process_names : list string)
    (proc_name : option string) : result bool :=
  match process_names with
  | [] => Ok false
  | _ :: _ =>
      match proc_name with
      | None => Raise TypeError
      | Some s => Ok (existsb (fun name => contains s name) process_names)
      end
  end.

(** [x or 0.0] and [x or 0]. *)
Definition or_zeroQ (x : option Q) : Q :=
  match x with
  | Some c => if Qeq_bool c 0 then 0 else c
  | None => 0
  end.

Definition or_zeroZ (x : option Z) : Z :=
  match x with
  | Some n => n
  | None => 0%Z
  end.

(** The body of the inner [try], for one process. *)
Definition inspect (process_names : list string) (entry : ProcEntry)
    (acc : Totals) : result Totals :=
  match entry with
  | Inaccessible e => Raise e
  | Inspect info =>
      hit <- matches process_names (info_name info) ;;
      if hit : bool then
        let cpu := or_zeroQ (info_cpu_percent info) in
        rss <- match info_memory_info info with
               | Some rss => Ok rss
               | None => Raise AttributeError
               end ;;
        let memory := inject_Z rss / inject_Z (1024 * 1024) in
        let threads := or_zeroZ (info_num_threads info) in
        Ok {| total_cpu := total_cpu acc + cpu;
              total_memory := total_memory acc + memory;
              total_threads := (total_threads acc + threads)%Z;
              found_processes := (found_processes acc + 1)%Z |}
      else Ok acc
  end.

(** The exceptions the inner [except] clause catches. *)
Definition per_process_error (e : exn) : bool :=
  match e with
  | NoSuchProcess | AccessDenied => true
  | _ => false
  end.

(** The [for proc in psutil.process_iter(...)] loop: a per-process error
    skips that process, any other exception leaves the loop. *)
Fixpoint scan (process_names : list string) (procs : list ProcEntry)
    (acc : Totals) : result Totals :=
  match procs with
  | [] => Ok acc
  | p :: rest =>
      match inspect process_names p acc with
      | Ok acc' => scan process_names rest acc'
      | Raise e =>
          if per_process_error e then scan process_names rest acc
          else Raise e
      end
  end.

(** The body of the outer [try], up to the append: the metrics list
    after one tick. *)
Definition sample (process_names : list string) (tick : Tick)
    (metrics : list ResourceMetrics) : result (list ResourceMetrics) :=
  procs <- process_iter tick ;;
  totals <- scan process_names procs no_totals ;;
  if (found_processes totals >? 0)%Z then
    Ok (metrics ++ [ {| cpu_percent := total_cpu totals;
                        memory_mb := total_memory totals;
                        threads := total_threads totals |} ])
  else Ok metrics.

(** How the loop stands when its schedule has been played. *)
Inductive LoopExit : Type :=
| FlagCleared              (* the [while] test read [False] *)
| Broke (e : exn)          (* the outer [except] ran [break] *)
| StillLooping.            (* the schedule ended with the loop alive *)

Record LoopRun : Type := {
  loop_exit : LoopExit;
  collected : list ResourceMetrics;
  ticks_run : nat
}.

(** [_monitor_loop], played against a schedule of ticks. *)
Fixpoint _monitor_loop (process_names : list string) (schedule : list Tick)
    (metrics : list ResourceMetrics) : LoopRun :=
  match schedule with
  | [] => {| loop_exit := StillLooping; collected := metrics; ticks_run := 0 |}
  | tick :: later =>
      if monitoring_flag tick then
        match sample process_names tick metrics with
        | Ok metrics' =>
            let r := _monitor_loop process_names later metrics' in
            {| loop_exit := loop_exit r;
               collected := collected r;
               ticks_run := S (ticks_run r) |}
        | Raise e =>
            {| loop_exit := Broke e; collected := metrics; ticks_run := 1 |}
        end
      else {| loop_exit := FlagCleared; collected := metrics; ticks_run := 0 |}
  end.

Local Open Scope monad_scope.

(** [start_monitoring]: the flag is set, [self.metrics] becomes a new empty
    list, and the thread that is started plays [_monitor_loop] on it.  The
    object is taken to have no thread alive: the driver starts each monitor
    once, right after building it. *)
Definition start_monitoring (self : t) : M t :=
  emit (ThreadStart (process_names self)) ;;
  ret {| process_names := process_names self;
         metrics := [];
         monitoring := true;
         monitor_thread := true |}.

(** The ticks a monitor's thread has completed when the join returns.
    [join(timeout=2.0)] gives up after two seconds, so the loop need not
    have ended by then. *)
Definition joined_ticks (env : Env) (process_names : list string)
    : list Tick :=
  firstn (env_joined env process_names) (env_ticks env process_names).

(** [stop_monitoring]: clears the flag, waits for the thread, if there is
    one, for at most two seconds, and returns [self.metrics]: what the
    thread has appended by then.  The value returned is that list as it
    stands when the call returns. *)
Definition stop_monitoring (env : Env) (self : t)
    : M (t * list ResourceMetrics) :=
  if monitor_thread self then
    emit (ThreadJoin (process_names self)) ;;
    let metrics :=
      collected (_monitor_loop (process_names self)
                               (joined_ticks env (process_names self)) []) in
    ret ({| process_names := process_names self;
            metrics := metrics;
            monitoring := false;
            monitor_thread := true |}, metrics)
  else
    ret ({| process_names := process_names self;
            metrics := metrics self;
            monitoring := false;
            monitor_thread := false |}, metrics self).

End ResourceMonitor.

(** ** The request dispatcher *)

(** The dict a successful [make_request] returns. *)
Record RequestResult : Type := {
  latency : Q;
  response : ResponseBody
}.

(** An element of what [asyncio.gather(..., return_exceptions=True)]
    returns: the task's value, or the exception it raised. *)
Inductive GatherResult (A : Type) : Type :=
| Value (a : A)
| Excepted (e : exn).

Arguments Value {A} a.
Arguments Excepted {A} e.

Record TaskStat : Type := {
  avg_ms : Q;
  p50_ms : Q;
  p95_ms : Q
}.

(** The dict [benchmark_service_threaded] returns. *)
Record BenchmarkResults : Type := {
  service_url : string;
  total_requests : Z;
  successful_requests : Z;
  errors : Z;
  error_rate : Q;
  total_time_seconds : Q;
  throughput_rps : Q;
  avg_latency_ms : Q;
  p50_latency_ms : Q;
  p95_latency_ms : Q;
  p99_latency_ms : Q;
  max_latency_ms : Q;
  min_latency_ms : Q;
  task_statistics : Dict.t TaskStat;
  raw_latencies : list Q
}.

Module Http.

(** [await client.post(...)] / [await client.get(...)]. *)
Definition send (r : HttpReply) : result (Z * option ResponseBody) :=
  match r with
  | Responded status json => Ok (status, json)
  | Failed e => Raise e
  end.

(** [response.raise_for_status()]: only a 2xx status passes. *)
Definition raise_for_status (status : Z) : result unit :=
  if ((200 <=? status) && (status <? 300))%Z then Ok tt
  else Raise HTTPStatusError.

(** [response.json()]: the parsed value, whatever its shape;
    [json.JSONDecodeError], a [ValueError], when the text is not JSON. *)
Definition json (body : option ResponseBody) : result ResponseBody :=
  match body with
  | Some data => Ok data
  | None => Raise ValueError
  end.

End Http.

Section Dispatcher.

Import Py.
Variable env : Env.

Local Open Scope monad_scope.

(** [make_request]: every exception of the attempt is caught and turned
    into [None].  The client's [timeout] acts through the world: an attempt
    that runs out of time is a [Failed TimeoutException] reply. *)
Definition make_request (url topic : string) (session_num : Z)
    : M (option RequestResult) :=
  let attempt := env_post env (url ++ "/research") session_num in
  try_except
    (emit (HttpPost (url ++ "/research")
                    (topic ++ " (request " ++ str session_num ++ ")")) ;;
     r <- lift (Http.send (reply attempt)) ;;
     lift (Http.raise_for_status (fst r)) ;;
     let latency := (received_at attempt - request_start attempt) * 1000 in
     data <- lift (Http.json (snd r)) ;;
     print (RequestLine session_num latency) ;;
     ret (Some {| latency := latency; response := data |}))
    (fun e =>
       print (ErrorLine session_num e) ;;
       ret None).

(** [asyncio.Semaphore(value)]. *)
Definition Semaphore (value : Z) : M Z :=
  if (value <? 0)%Z then raise ValueError else ret value.

(** [bounded_request]: the attempt runs once a permit is acquired.  The
    attempts are played one after the other, so all [value] permits are
    free at each acquire; with no permit at all the acquire waits for
    ever. *)
Definition bounded_request (semaphore : Z) (url topic : string)
    (session_num : Z) : M (option RequestResult) :=
  if (semaphore =? 0)%Z then hang
  else make_request url topic session_num.

(** [asyncio.gather] with [return_exceptions=True]: one result per
    task, in task order; a task's exception becomes its result. *)
Fixpoint gather {A} (tasks : list (M A)) : M (list (GatherResult A)) :=
  match tasks with
  | [] => ret []
  | task :: rest =>
      r <- (fun t => match task t with
                     | (Returns a, t') => (Returns (Value a), t')
                     | (Raises e, t') => (Returns (Excepted e), t')
                     | (Hangs, t') => (Hangs, t')
                     end) ;;
      rs <- gather rest ;;
      ret (r :: rs)
  end.

(** The three accumulators of the [for result in results] loop. *)
Record Tally : Type := {
  latencies : list Q;
  error_count : Z;
  responses : list ResponseBody
}.

Definition process_result (acc : Tally)
    (result : GatherResult (option RequestResult)) : Tally :=
  match result with
  | Excepted _ =>
      {| latencies := latencies acc;
         error_count := (error_count acc + 1)%Z;
         responses := responses acc |}
  | Value None =>
      {| latencies := latencies acc;
         error_count := (error_count acc + 1)%Z;
         responses := responses acc |}
  | Value (Some r) =>
      {| latencies := latencies acc ++ [latency r];
         error_count := error_count acc;
         responses := responses acc ++ [response r] |}
  end.

Definition process_results
    (results : list (GatherResult (option RequestResult))) : Tally :=
  fold_left process_result results
            {| latencies := []; error_count := 0; responses := [] |}.

(** [response.get("task_times", {}).items()]: only a dict has [get], and
    only a dict has [items]. *)
Definition task_items (response : ResponseBody)
    : result (list (string * Json)) :=
  match response with
  | JObj fields =>
      match Dict.get fields "task_times" with
      | None => Ok []
      | Some (JObj items) => Ok items
      | Some _ => Raise AttributeError
      end
  | _ => Raise AttributeError
  end.

(** The two nested [for] loops that fill [task_times], from the dict
    built so far. *)
Fixpoint collect_from (responses : list ResponseBody)
    (task_times : Dict.t (list Json)) : result (Dict.t (list Json)) :=
  match responses with
  | [] => Ok task_times
  | response :: rest =>
      (items <- task_items response ;;
       collect_from rest
         (fold_left (fun acc item => Dict.append_to (fst item) (snd item) acc)
                    items task_times))%result
  end.

Definition collect_task_times (responses : list ResponseBody)
    : result (Dict.t (list Json)) :=
  collect_from responses [].

Local Open Scope result_scope.

(** [statistics.quantiles(v, n=20)[18] if len(v) > 20 else max(v) if v else 0]. *)
Definition percentile95 (values : list Q) : result Q :=
  if (len values >? 20)%Z then
    q <- Statistics.quantiles values 20 ;; getitem q 18
  else if truthy values then max values
  else Ok 0.

(** [statistics.quantiles(v, n=100)[98] if len(v) > 100 else max(v) if v else 0]. *)
Definition percentile99 (values : list Q) : result Q :=
  if (len values >? 100)%Z then
    q <- Statistics.quantiles values 100 ;; getitem q 98
  else if truthy values then max values
  else Ok 0.

(** The loop that fills [task_stats].  [times] holds parsed JSON values;
    [statistics.mean], the first statistic taken, reads each of them as a
    number or raises [TypeError]. *)
Fixpoint task_stats (task_times : Dict.t (list Json))
    : result (Dict.t TaskStat) :=
  match task_times with
  | [] => Ok []
  | (task, times) :: rest =>
      times <- Statistics.numbers times ;;
      avg <- Statistics.mean times ;;
      p50 <- Statistics.median times ;;
      p95 <- percentile95 times ;;
      stats <- task_stats rest ;;
      Ok ((task, {| avg_ms := avg; p50_ms := p50; p95_ms := p95 |}) :: stats)
  end.

(** The statistics part of [benchmark_service_threaded]: everything after
    the second clock reading. *)
Definition summarize (url : string) (num_requests : Z) (tally : Tally)
    (total_time : Q) : result BenchmarkResults :=
  let latencies := latencies tally in
  let errors := error_count tally in
  task_times <- collect_task_times (responses tally) ;;
  task_stats <- task_stats task_times ;;
  avg <- (if truthy latencies then Statistics.mean latencies else Ok 0) ;;
  p50 <- (if truthy latencies then Statistics.median latencies else Ok 0) ;;
  p95 <- percentile95 latencies ;;
  p99 <- percentile99 latencies ;;
  hi <- (if truthy latencies then max latencies else Ok 0) ;;
  lo <- (if truthy latencies then min latencies else Ok 0) ;;
  Ok {| service_url := url;
        total_requests := num_requests;
        successful_requests := len latencies;
        errors := errors;
        error_rate := if (num_requests >? 0)%Z
                      then inject_Z errors / inject_Z num_requests else 0;
        total_time_seconds := total_time;
        throughput_rps := if Qltb 0 total_time
                          then inject_Z (len latencies) / total_time else 0;
        avg_latency_ms := avg;
        p50_latency_ms := p50;
        p95_latency_ms := p95;
        p99_latency_ms := p99;
        max_latency_ms := hi;
        min_latency_ms := lo;
        task_statistics := task_stats;
        raw_latencies := latencies |}.

Local Open Scope monad_scope.

Definition benchmark_service_threaded (url topic : string)
    (num_requests max_workers : Z) : M BenchmarkResults :=
  print (Text ("Starting threaded benchmark: " ++ str num_requests
               ++ " requests with " ++ str max_workers ++ " workers")) ;;
  let start_time := env_dispatch_start env url in
  semaphore <- Semaphore max_workers ;;
  let tasks := map (fun i => bounded_request semaphore url topic (i + 1)%Z)
                   (range 0 num_requests) in
  results <- gather tasks ;;
  let tally := process_results results in
  let total_time := env_dispatch_end env url - start_time in
  lift (summarize url num_requests tally total_time).

End Dispatcher.

(** ** The comparison reporter *)

(** [python / rust if rust > 0 else 0], the relative-improvement ratio. *)
Definition improvement (python rust : Q) : Q :=
  if Py.Qltb 0 rust then python / rust else 0.

(** The three latency ratios of the comparison table. *)
Record LatencyComparison : Type := {
  avg_improvement : Q;
  p50_improvement : Q;
  p95_improvement : Q
}.

Definition compare_latencies (rust_results python_results : BenchmarkResults)
    : LatencyComparison :=
  {| avg_improvement :=
       improvement (avg_latency_ms python_results) (avg_latency_ms rust_results);
     p50_improvement :=
       improvement (p50_latency_ms python_results) (p50_latency_ms rust_results);
     p95_improvement :=
       improvement (p95_latency_ms python_results) (p95_latency_ms rust_results) |}.

(** The values of the resource-usage block. *)
Record ResourceComparison : Type := {
  rust_avg_cpu : Q;
  rust_avg_memory : Q;
  rust_max_memory : Q;
  python_avg_cpu : Q;
  python_avg_memory : Q;
  python_max_memory : Q;
  cpu_improvement : Q;
  memory_improvement : Q
}.

Definition compare_resources
    (rust_resource_metrics python_resource_metrics : list ResourceMetrics)
    : result ResourceComparison :=
  (rust_avg_cpu <- Statistics.mean (map cpu_percent rust_resource_metrics) ;;
   rust_avg_memory <- Statistics.mean (map memory_mb rust_resource_metrics) ;;
   rust_max_memory <- Py.max (map memory_mb rust_resource_metrics) ;;
   python_avg_cpu <- Statistics.mean (map cpu_percent python_resource_metrics) ;;
   python_avg_memory <- Statistics.mean (map memory_mb python_resource_metrics) ;;
   python_max_memory <- Py.max (map memory_mb python_resource_metrics) ;;
   Ok {| rust_avg_cpu := rust_avg_cpu;
         rust_avg_memory := rust_avg_memory;
         rust_max_memory := rust_max_memory;
         python_avg_cpu := python_avg_cpu;
         python_avg_memory := python_avg_memory;
         python_max_memory := python_max_memory;
         cpu_improvement := improvement python_avg_cpu rust_avg_cpu;
         memory_improvement := improvement python_avg_memory rust_avg_memory |})%result.

(** *** The persisted document *)

Definition JInt (n : Z) : Json := JNum (inject_Z n).

Definition task_stat_json (s : TaskStat) : Json :=
  JObj [("avg_ms", JNum (avg_ms s));
        ("p50_ms", JNum (p50_ms s));
        ("p95_ms", JNum (p95_ms s))]%string.

(** A results dict, key by key. *)
Definition results_json (r : BenchmarkResults) : Json :=
  JObj [("service_url", JStr (service_url r));
        ("total_requests", JInt (total_requests r));
        ("successful_requests", JInt (successful_requests r));
        ("errors", JInt (errors r));
        ("error_rate", JNum (error_rate r));
        ("total_time_seconds", JNum (total_time_seconds r));
        ("throughput_rps", JNum (throughput_rps r));
        ("avg_latency_ms", JNum (avg_latency_ms r));
        ("p50_latency_ms", JNum (p50_latency_ms r));
        ("p95_latency_ms", JNum (p95_latency_ms r));
        ("p99_latency_ms", JNum (p99_latency_ms r));
        ("max_latency_ms", JNum (max_latency_ms r));
        ("min_latency_ms", JNum (min_latency_ms r));
        ("task_statistics",
         JObj (map (fun kv => (fst kv, task_stat_json (snd kv)))
                   (task_statistics r)));
        ("raw_latencies", JList (map JNum (raw_latencies r)))]%string.

Definition metrics_json (ms : list ResourceMetrics) : Json :=
  if Py.truthy ms then
    JList (map (fun m => JObj [("cpu_percent", JNum (cpu_percent m));
                               ("memory_mb", JNum (memory_mb m));
                               ("threads", JInt (threads m))]%string) ms)
  else JList [].

(** The [results] dict built before saving. *)
Definition artifact (timestamp : Q) (topic : string)
    (num_requests max_workers : Z) (monitor_resources : bool)
    (rust_results python_results : BenchmarkResults)
    (rust_resource_metrics python_resource_metrics : list ResourceMetrics)
    : Json :=
  JObj [("timestamp", JNum timestamp);
        ("benchmark_config",
         JObj [("topic", JStr topic);
               ("num_requests", JInt num_requests);
               ("max_workers", JInt max_workers);
               ("monitor_resources", JBool monitor_resources)]);
        ("rust_results", results_json rust_results);
        ("python_results", results_json python_results);
        ("rust_resource_metrics", metrics_json rust_resource_metrics);
        ("python_resource_metrics", metrics_json python_resource_metrics)]%string.

(** [sorted(set(a) | set(b))] on task names. *)
Fixpoint insert_name (x : string) (l : list string) : list string :=
  match l with
  | [] => [x]
  | y :: l' => if String.ltb x y then x :: l else y :: insert_name x l'
  end.

Definition sorted_union (a b : list string) : list string :=
  fold_left (fun acc x => insert_name x acc) (nodup string_dec (a ++ b)) [].

Section Reporter.

Import Py.
Variable env : Env.

Local Open Scope monad_scope.

(** One preflight probe: [True] when the service answered with a success
    status, [False] when the [except] branch ran. *)
Definition health_check (service url : string) : M bool :=
  try_except
    (emit (HttpGet (url ++ "/health")) ;;
     r <- lift (Http.send (env_get env (url ++ "/health"))) ;;
     lift (Http.raise_for_status (fst r)) ;;
     print (Text (service ++ " service is running")) ;;
     ret true)
    (fun e =>
       print (Text (service ++ " service not available")) ;;
       ret false).

Definition start_if_any (monitor : option ResourceMonitor.t)
    : M (option ResourceMonitor.t) :=
  match monitor with
  | Some m => m' <- ResourceMonitor.start_monitoring m ;; ret (Some m')
  | None => ret None
  end.

Definition stop_if_any (monitor : option ResourceMonitor.t)
    : M (list ResourceMetrics) :=
  match monitor with
  | Some m => r <- ResourceMonitor.stop_monitoring env m ;; ret (snd r)
  | None => ret []
  end.

(** The latency, throughput and reliability rows of the table. *)
Definition print_results (rust_results python_results : BenchmarkResults)
    : M unit :=
  let c := compare_latencies rust_results python_results in
  print_lines [Text (times "=" 60); Text "BENCHMARK RESULTS";
               Text (times "=" 60);
               Text "Metric Rust Python Improvement";
               Text (times "-" 70)] ;;
  print (Row "Avg Latency (ms)" (avg_latency_ms rust_results)
             (avg_latency_ms python_results) (Some (avg_improvement c))) ;;
  print (Row "P50 Latency (ms)" (p50_latency_ms rust_results)
             (p50_latency_ms python_results) (Some (p50_improvement c))) ;;
  print (Row "P95 Latency (ms)" (p95_latency_ms rust_results)
             (p95_latency_ms python_results) (Some (p95_improvement c))) ;;
  print (Row "Max Latency (ms)" (max_latency_ms rust_results)
             (max_latency_ms python_results) None) ;;
  print (Row "Min Latency (ms)" (min_latency_ms rust_results)
             (min_latency_ms python_results) None) ;;
  print (Row "Total Time (s)" (total_time_seconds rust_results)
             (total_time_seconds python_results) None) ;;
  print (Row "Throughput (req/s)" (throughput_rps rust_results)
             (throughput_rps python_results) None) ;;
  print (Row "Successful Requests"
             (inject_Z (successful_requests rust_results))
             (inject_Z (successful_requests python_results)) None) ;;
  print (Row "Error Rate (%)" (error_rate rust_results * 100)
             (error_rate python_results * 100) None).

(** The resource-usage block. *)
Definition print_resources (monitor_resources : bool)
    (rust_resource_metrics python_resource_metrics : list ResourceMetrics)
    : M unit :=
  if monitor_resources && truthy rust_resource_metrics
     && truthy python_resource_metrics then
    c <- lift (compare_resources rust_resource_metrics
                                 python_resource_metrics) ;;
    print_lines [Text "Resource Usage:"; Text (times "-" 50)] ;;
    print (Row "Avg CPU (%)" (rust_avg_cpu c) (python_avg_cpu c)
               (Some (cpu_improvement c))) ;;
    print (Row "Avg Memory (MB)" (rust_avg_memory c) (python_avg_memory c)
               (Some (memory_improvement c))) ;;
    print (Row "Max Memory (MB)" (rust_max_memory c) (python_max_memory c)
               None)
  else if monitor_resources then
    print_lines
      [Text "Resource monitoring was enabled but no metrics collected.";
       Text "Make sure the services are running and process names are correct."]
  else ret tt.

(** [d.get(task, {}).get('avg_ms', 0)]. *)
Definition task_avg (d : Dict.t TaskStat) (task : string) : Q :=
  match Dict.get d task with
  | Some s => avg_ms s
  | None => 0
  end.

Fixpoint print_tasks (tasks : list string)
    (rust_results python_results : BenchmarkResults) : M unit :=
  match tasks with
  | [] => ret tt
  | task :: rest =>
      let rust_avg := task_avg (task_statistics rust_results) task in
      let python_avg := task_avg (task_statistics python_results) task in
      (if Qltb 0 rust_avg && Qltb 0 python_avg then
         print (Row task rust_avg python_avg (Some (python_avg / rust_avg)))
       else ret tt) ;;
      print_tasks rest rust_results python_results
  end.

(** [with open("benchmark_results.json", "w") as f: json.dump(results, f)].
    Opening for writing empties the file; [json.dump] writes the text
    piece by piece, so a dump that raises leaves a part of it behind. *)
Definition save (doc : Json) : M unit :=
  let path := "benchmark_results.json"%string in
  match env_open env path with
  | Some e => raise e
  | None =>
      emit (FileOpen path) ;;
      match env_dump env with
      | Some e => emit (FilePartial path doc) ;; raise e
      | None => emit (FileDump path doc)
      end
  end.

(** The lines printed before the preflight. *)
Definition banner (topic : string) (num_requests max_workers : Z)
    (monitor_resources : bool) : list Line :=
  [Text (times "=" 60);
   Text "AI Workflow Benchmark: Rust graph-flow vs Python LangGraph";
   Text (times "=" 60);
   Text ("Topic: " ++ topic);
   Text ("Total Requests: " ++ str num_requests);
   Text ("Max Concurrent Workers: " ++ str max_workers);
   Text ("Resource Monitoring: "
         ++ if monitor_resources then "Enabled" else "Disabled");
   Text ""].

(** The lines printed once the results are saved. *)
Definition closing_lines : list Line :=
  [Text "Detailed results saved to benchmark_results.json";
   Text "Benchmark completed!";
   Text "Next steps:";
   Text "  1. Review the detailed results in benchmark_results.json";
   Text "  2. Run with different request counts: --num-requests N";
   Text "  3. Adjust concurrency: --max-workers N";
   Text "  4. Test different topics for varied workloads"].

(** [run_comparison_benchmark].  Every path returns [None]. *)
Definition run_comparison_benchmark (rust_url python_url topic : string)
    (num_requests max_workers : Z) (monitor_resources : bool) : M unit :=
  print_lines (banner topic num_requests max_workers monitor_resources) ;;
  rust_up <- health_check "Rust" rust_url ;;
  if negb rust_up then ret tt else
  python_up <- health_check "Python" python_url ;;
  if negb python_up then ret tt else
  print (Text "Starting benchmarks...") ;;
  let rust_monitor :=
    if monitor_resources
    then Some (ResourceMonitor.__init__ ["rust-graphflow"; "target/release"]%string)
    else None in
  let python_monitor :=
    if monitor_resources
    then Some (ResourceMonitor.__init__ ["python"; "uvicorn"; "main.py"]%string)
    else None in
  print (Text "Testing Python service...") ;;
  python_monitor <- start_if_any python_monitor ;;
  python_results <- benchmark_service_threaded env python_url topic
                                               num_requests max_workers ;;
  python_resource_metrics <- stop_if_any python_monitor ;;
  print (Completed "Python" (successful_requests python_results)
                   (total_requests python_results)) ;;
  print (Text "Testing Rust service...") ;;
  rust_monitor <- start_if_any rust_monitor ;;
  rust_results <- benchmark_service_threaded env rust_url topic
                                             num_requests max_workers ;;
  rust_resource_metrics <- stop_if_any rust_monitor ;;
  print (Completed "Rust" (successful_requests rust_results)
                   (total_requests rust_results)) ;;
  print_results rust_results python_results ;;
  print_resources monitor_resources rust_resource_metrics
                  python_resource_metrics ;;
  print_lines [Text "Task Performance Breakdown:"; Text (times "-" 50)] ;;
  print_tasks (sorted_union (Dict.keys (task_statistics rust_results))
                            (Dict.keys (task_statistics python_results)))
              rust_results python_results ;;
  let results :=
    artifact (env_timestamp env) topic num_requests max_workers
             monitor_resources rust_results python_results
             rust_resource_metrics python_resource_metrics in
  save results ;;
  print_lines closing_lines.

End Reporter.

(** * Specification vocabulary *)

(** ** Traces *)

(** [ensures m Q]: from any trace, [m] ends in some outcome [o] after adding
    the events [added], and [Q o added] holds. *)
Definition ensures {A} (m : M A) (Q : outcome A -> list Event -> Prop) : Prop :=
  forall t, exists o added, m t = (o, t ++ added) /\ Q o added.

(** Kinds of events: what a preflight may do, what a dispatch may do, and
    what touches the results file. *)
Definition preflight_event (ev : Event) : bool :=
  match ev with
  | Print _ | HttpGet _ => true
  | _ => false
  end.

Definition dispatch_event (ev : Event) : bool :=
  match ev with
  | Print _ | HttpPost _ _ => true
  | _ => false
  end.

Definition file_event (ev : Event) : bool :=
  match ev with
  | FileOpen _ | FilePartial _ _ | FileDump _ _ => true
  | _ => false
  end.

(** The documents written to disk, in full, along a trace. *)
Definition dumped (trace : list Event) : list Json :=
  flat_map (fun ev => match ev with
                      | FileDump _ doc => [doc]
                      | _ => []
                      end) trace.

(** What the results file holds after a trace. *)
Inductive FileState : Type :=
| Untouched
| Emptied
| PartOf (doc : Json)
| Holds (doc : Json).

Definition file_after (trace : list Event) : FileState :=
  fold_left (fun state ev => match ev with
                             | FileOpen _ => Emptied
                             | FilePartial _ doc => PartOf doc
                             | FileDump _ doc => Holds doc
                             | _ => state
                             end) trace Untouched.

(** How a computation ends that hands a [result] on. *)
Definition ending {A} (r : result A) : outcome A :=
  match r with
  | Ok a => Returns a
  | Raise e => Raises e
  end.

(** ** Dispatches *)

(** What the returned dict holds, field by field. *)
Definition summary_of (url : string) (num_requests : Z) (tally : Tally)
    (total_time : Q) (r : BenchmarkResults) : Prop :=
  let l := latencies tally in
  service_url r = url
  /\ total_requests r = num_requests
  /\ successful_requests r = Py.len l
  /\ errors r = error_count tally
  /\ error_rate r = (if (num_requests >? 0)%Z
                     then inject_Z (error_count tally) / inject_Z num_requests
                     else 0)
  /\ total_time_seconds r = total_time
  /\ throughput_rps r = (if Py.Qltb 0 total_time
                         then inject_Z (Py.len l) / total_time else 0)
  /\ (if Py.truthy l then Statistics.mean l else Ok 0) = Ok (avg_latency_ms r)
  /\ (if Py.truthy l then Statistics.median l else Ok 0) = Ok (p50_latency_ms r)
  /\ percentile95 l = Ok (p95_latency_ms r)
  /\ percentile99 l = Ok (p99_latency_ms r)
  /\ (if Py.truthy l then Py.max l else Ok 0) = Ok (max_latency_ms r)
  /\ (if Py.truthy l then Py.min l else Ok 0) = Ok (min_latency_ms r)
  /\ (task_times <- collect_task_times (responses tally) ;;
      task_stats task_times)%result = Ok (task_statistics r)
  /\ raw_latencies r = l.

(** Every latency statistic of a results dict is 0. *)
Definition zero_statistics (r : BenchmarkResults) : Prop :=
  avg_latency_ms r = 0 /\ p50_latency_ms r = 0
  /\ p95_latency_ms r = 0 /\ p99_latency_ms r = 0
  /\ min_latency_ms r = 0 /\ max_latency_ms r = 0.

(** The wall time of the dispatch to [url]. *)
Definition wall_time (env : Env) (url : string) : Q :=
  env_dispatch_end env url - env_dispatch_start env url.

(** *** Attempts *)

(** What an attempt hands to [make_request]'s caller when the world answers
    with [a]: a result for a success status with a JSON body, nothing
    otherwise. *)
Definition succeeded (a : Attempt) : option RequestResult :=
  match reply a with
  | Responded status (Some data) =>
      if ((200 <=? status) && (status <? 300))%Z
      then Some {| latency := (received_at a - request_start a) * 1000;
                   response := data |}
      else None
  | _ => None
  end.

(** The attempt the world holds for request [session_num] to [url]. *)
Definition attempt_of (env : Env) (url : string) (session_num : Z) : Attempt :=
  env_post env (url ++ "/research") session_num.

(** The topic sent with request [session_num]. *)
Definition payload (topic : string) (session_num : Z) : string :=
  topic ++ " (request " ++ Py.str session_num ++ ")".

(** The request numbers of a dispatch of [N] requests: [1 .. N]. *)
Definition sessions (N : Z) : list Z :=
  map (fun i => (i + 1)%Z) (Py.range 0 N).

(** The results of the successful attempts of a dispatch, in request
    order, and the numbers of the failed ones. *)
Definition successes (env : Env) (url : string) (N : Z) : list RequestResult :=
  flat_map (fun s => match succeeded (attempt_of env url s) with
                     | Some r => [r]
                     | None => []
                     end) (sessions N).

Definition failures (env : Env) (url : string) (N : Z) : list Z :=
  filter (fun s => match succeeded (attempt_of env url s) with
                   | Some _ => false
                   | None => true
                   end) (sessions N).

(** The POST requests of a trace: URL and topic, in order. *)
Definition posts (trace : list Event) : list (string * string) :=
  flat_map (fun ev => match ev with
                      | HttpPost url topic => [(url, topic)]
                      | _ => []
                      end) trace.

(** The first line a dispatch prints. *)
Definition starting_line (num_requests max_workers : Z) : Event :=
  Print (Text ("Starting threaded benchmark: " ++ Py.str num_requests
               ++ " requests with " ++ Py.str max_workers ++ " workers")).

(** *** Bodies *)

(** A value [statistics] takes for a number. *)
Definition numeric (value : Json) : bool :=
  match Statistics.number value with
  | Ok _ => true
  | Raise _ => false
  end.

(** A body that has phase times to give: an object whose [task_times], if
    it has one, is an object again. *)
Definition shaped (body : ResponseBody) : bool :=
  match task_items body with
  | Ok _ => true
  | Raise _ => false
  end.

(** A body the statistics can digest: shaped, and every phase time in it
    a number. *)
Definition well_formed (body : ResponseBody) : bool :=
  match task_items body with
  | Ok items => forallb (fun item => numeric (snd item)) items
  | Raise _ => false
  end.

(** Every list of a [task_times] dict holds numbers only. *)
Definition all_numeric (task_times : Dict.t (list Json)) : bool :=
  forallb (fun kv => forallb numeric (snd kv)) task_times.

(** The bodies that a dispatch of [N] requests to [url] takes in, in
    request order; whether all of them are shaped, and whether all of them
    are well formed. *)
Definition bodies (env : Env) (url : string) (N : Z) : list ResponseBody :=
  map response (successes env url N).

Definition all_shaped (env : Env) (url : string) (N : Z) : bool :=
  forallb shaped (bodies env url N).

Definition well_served (env : Env) (url : string) (N : Z) : bool :=
  forallb well_formed (bodies env url N).

(** *** Endings *)

(** The tally of a dispatch whose [N] attempts have all been played, and
    the statistics taken from it. *)
Definition dispatch_tally (env : Env) (url : string) (N : Z) : Tally :=
  process_results
    (map (fun s => Value (succeeded (attempt_of env url s))) (sessions N)).

Definition dispatch_ending (env : Env) (url : string) (N : Z)
    : result BenchmarkResults :=
  summarize url N (dispatch_tally env url N) (wall_time env url).

(** How a dispatch ends: a semaphore cannot be built with a negative
    value, without a permit the first attempt waits for ever, and
    otherwise the statistics decide. *)
Definition dispatch_outcome (env : Env) (url : string) (N max_workers : Z)
    : outcome BenchmarkResults :=
  if (max_workers <? 0)%Z then Raises ValueError
  else if ((max_workers =? 0) && (0 <? N))%Z then Hangs
  else ending (dispatch_ending env url N).

(** The postcondition of a dispatch: it ends as [dispatch_outcome] says,
    only prints and POSTs happen, and with at least one permit every
    request is posted, in order. *)
Definition dispatched (env : Env) (url topic : string) (N max_workers : Z)
    (o : outcome BenchmarkResults) (added : list Event) : Prop :=
  o = dispatch_outcome env url N max_workers
  /\ Forall (fun ev => dispatch_event ev = true) added
  /\ ((0 < max_workers)%Z ->
      posts added
      = map (fun s => ((url ++ "/research")%string, payload topic s))
            (sessions N)).

(** A results dict that a dispatch of [N] requests to [url] returned. *)
Definition dispatch_result (env : Env) (url : string) (N : Z)
    (r : BenchmarkResults) : Prop :=
  exists results,
    List.length results = Z.to_nat N
    /\ summary_of url N (process_results results) (wall_time env url) r.

(** ** Sampling *)

(** Does the process's name contain one of the configured substrings? *)
Definition name_matches (names : list string) (p : ProcEntry) : bool :=
  match p with
  | Inspect info =>
      match info_name info with
      | Some s => existsb (fun name => Py.contains s name) names
      | None => false
      end
  | Inaccessible _ => false
  end.

(** The processes of a table that match. *)
Definition matching (names : list string) (procs : list ProcEntry)
    : list ProcEntry :=
  filter (name_matches names) procs.

(** ** Comparisons *)

(** Did the preflight probe of [url] get a success status? *)
Definition healthy (env : Env) (url : string) : bool :=
  match env_get env (url ++ "/health") with
  | Responded status _ => ((200 <=? status) && (status <? 300))%Z
  | Failed _ => false
  end.

Definition results_path : string := "benchmark_results.json".

(** The first exception that saving runs into, if any. *)
Definition write_error (env : Env) : option exn :=
  match env_open env results_path with
  | Some e => Some e
  | None => env_dump env
  end.

(** The process names each monitor is built with. *)
Definition rust_names : list string :=
  ["rust-graphflow"; "target/release"]%string.

Definition python_names : list string :=
  ["python"; "uvicorn"; "main.py"]%string.

(** What a monitor over [names] hands back when it was started and then
    stopped, and [[]] when monitoring is disabled. *)
Definition sampled (env : Env) (monitor_resources : bool)
    (names : list string) : list ResourceMetrics :=
  if monitor_resources then
    ResourceMonitor.collected
      (ResourceMonitor._monitor_loop names
         (ResourceMonitor.joined_ticks env names) [])
  else [].

(** How saving [doc] and the two closing prints end, by what the file
    system does. *)
Definition saved (env : Env) (doc : Json)
    (o : outcome unit) (added : list Event) : Prop :=
  match env_open env results_path with
  | Some e => o = Raises e /\ added = []
  | None =>
      match env_dump env with
      | Some e =>
          o = Raises e
          /\ added = [FileOpen results_path; FilePartial results_path doc]
      | None =>
          o = Returns tt
          /\ added = [FileOpen results_path; FileDump results_path doc]
                     ++ map Print closing_lines
      end
  end.

(** *** Kinds of activity in a trace *)

(** The URLs probed by GET, in order. *)
Definition gets (trace : list Event) : list string :=
  flat_map (fun ev => match ev with
                      | HttpGet url => [url]
                      | _ => []
                      end) trace.

Definition thread_event (ev : Event) : bool :=
  match ev with
  | ThreadStart _ | ThreadJoin _ => true
  | _ => false
  end.

(** Load on a service: a POST, or a monitor thread starting or ending. *)
Definition load_event (ev : Event) : bool :=
  match ev with
  | HttpPost _ _ | ThreadStart _ | ThreadJoin _ => true
  | _ => false
  end.

Definition is_print (ev : Event) : bool :=
  match ev with
  | Print _ => true
  | _ => false
  end.

(** [l] when [b] holds, nothing otherwise. *)
Definition guard {A} (b : bool) (l : list A) : list A :=
  if b then l else [].


(** The comparison table, line by line. *)
Definition comparison_table (rust_results python_results : BenchmarkResults)
    : list Line :=
  let c := compare_latencies rust_results python_results in
  [Text (times "=" 60); Text "BENCHMARK RESULTS"; Text (times "=" 60);
   Text "Metric Rust Python Improvement"; Text (times "-" 70);
   Row "Avg Latency (ms)" (avg_latency_ms rust_results)
       (avg_latency_ms python_results) (Some (avg_improvement c));
   Row "P50 Latency (ms)" (p50_latency_ms rust_results)
       (p50_latency_ms python_results) (Some (p50_improvement c));
   Row "P95 Latency (ms)" (p95_latency_ms rust_results)
       (p95_latency_ms python_results) (Some (p95_improvement c));
   Row "Max Latency (ms)" (max_latency_ms rust_results)
       (max_latency_ms python_results) None;
   Row "Min Latency (ms)" (min_latency_ms rust_results)
       (min_latency_ms python_results) None;
   Row "Total Time (s)" (total_time_seconds rust_results)
       (total_time_seconds python_results) None;
   Row "Throughput (req/s)" (throughput_rps rust_results)
       (throughput_rps python_results) None;
   Row "Successful Requests" (inject_Z (successful_requests rust_results))
       (inject_Z (successful_requests python_results)) None;
   Row "Error Rate (%)" (error_rate rust_results * 100)
       (error_rate python_results * 100) None]%string.

(** The load put on one service: its monitor thread is started, when
    monitoring is on, and its requests are dispatched. *)
Definition loaded (monitor_resources : bool) (names : list string)
    (dispatch : list Event) : list Event :=
  guard monitor_resources [ThreadStart names] ++ dispatch.

(** How a comparison that passed its preflight goes on, service by
    service.  A dispatch that does not return ends the run on the spot,
    its monitor thread never joined.  When both dispatches have returned,
    the table is printed and the run ends as saving the document ends; no
    file is touched before. *)
Definition reported (env : Env) (rust_url python_url topic : string)
    (N max_workers : Z) (monitor_resources : bool)
    (o : outcome unit) (added : list Event) : Prop :=
  exists preflight python_load,
    Forall (fun ev => preflight_event ev = true) preflight
    /\ dispatched env python_url topic N max_workers
                  (dispatch_outcome env python_url N max_workers) python_load
    /\ match dispatch_outcome env python_url N max_workers with
       | Raises e =>
           o = Raises e
           /\ added = preflight
                      ++ loaded monitor_resources python_names python_load
       | Hangs =>
           o = Hangs
           /\ added = preflight
                      ++ loaded monitor_resources python_names python_load
       | Returns python_results =>
           exists between rust_load,
             Forall (fun ev => is_print ev = true) between
             /\ dispatched env rust_url topic N max_workers
                           (dispatch_outcome env rust_url N max_workers)
                           rust_load
             /\ let so_far :=
                  preflight
                  ++ loaded monitor_resources python_names python_load
                  ++ guard monitor_resources [ThreadJoin python_names]
                  ++ between
                  ++ loaded monitor_resources rust_names rust_load in
                match dispatch_outcome env rust_url N max_workers with
                | Raises e => o = Raises e /\ added = so_far
                | Hangs => o = Hangs /\ added = so_far
                | Returns rust_results =>
                    exists line rest tail,
                      Forall (fun ev => is_print ev = true) rest
                      /\ added
                         = so_far
                           ++ guard monitor_resources [ThreadJoin rust_names]
                           ++ [Print line]
                           ++ map Print (comparison_table rust_results
                                                          python_results)
                           ++ rest
                           ++ tail
                      /\ saved env
                               (artifact (env_timestamp env) topic N
                                         max_workers monitor_resources
                                         rust_results python_results
                                         (sampled env monitor_resources
                                                  rust_names)
                                         (sampled env monitor_resources
                                                  python_names))
                               o tail
                end
       end.

(** The dispatch of [N] requests to [url] returns [r]. *)
Definition returns (env : Env) (url topic : string) (N max_workers : Z)
    (r : BenchmarkResults) : Prop :=
  fst (run (benchmark_service_threaded env url topic N max_workers))
  = Returns r.

(** The document a comparison saves. *)
Definition document (env : Env) (topic : string) (N max_workers : Z)
    (monitor_resources : bool) (rust_results python_results : BenchmarkResults)
    : Json :=
  artifact (env_timestamp env) topic N max_workers monitor_resources
           rust_results python_results
           (sampled env monitor_resources rust_names)
           (sampled env monitor_resources python_names).

(** ** Documents *)

(** The keys of a JSON object, and those among them that hold a list. *)
Definition object_keys (j : Json) : list string :=
  match j with
  | JObj fields => Dict.keys fields
  | _ => []
  end.

Definition list_fields (j : Json) : list string :=
  match j with
  | JObj fields =>
      Dict.keys (filter (fun kv => match snd kv with
                                   | JList _ => true
                                   | _ => false
                                   end) fields)
  | _ => []
  end.

(** One resource sample as it is written. *)
Definition sample_json (m : ResourceMetrics) : Json :=
  JObj [("cpu_percent", JNum (cpu_percent m));
        ("memory_mb", JNum (memory_mb m));
        ("threads", JInt (threads m))]%string.

(** ** Ratios and percentiles *)


(** The percentile as the specification words it: the element of the
    ascending-sorted values at index [ceil(num/den * N) - 1]. *)
Definition nearest_rank (num den : Z) (values : list Q) : Q :=
  let N := Py.len values in
  nth (Z.to_nat ((num * N + den - 1) / den - 1)) (Py.sorted values) 0.

(** The [i]-th of [n] cut points by linear interpolation between the two
    neighbours of rank [i * (N + 1) / n]. *)
Definition interpolated (n i : Z) (values : list Q) : Q :=
  let data := Py.sorted values in
  let j := (i * (Py.len values + 1) / n)%Z in
  let delta := ((i * (Py.len values + 1)) mod n)%Z in
  (nth (Z.to_nat (j - 1)) data 0 * inject_Z (n - delta)
   + nth (Z.to_nat j) data 0 * inject_Z delta) / inject_Z n.

(** The values [1, 2, ..., n]. *)
Definition upto (n : nat) : list Q :=
  map (fun k => inject_Z (Z.of_nat k)) (seq 1 n).

(** ** Concrete worlds *)

Module Worlds.

Open Scope string_scope.

Definition body : ResponseBody :=
  JObj [("topic", JStr "artificial intelligence in healthcare");
        ("task_times", JObj [("research", JNum 40); ("summarize", JNum 10)]);
        ("total_time_ms", JNum 50)].

(** A request that takes 100 ms and succeeds. *)
Definition served : Attempt :=
  {| request_start := 5; reply := Responded 200 (Some body);
     received_at := 51 # 10 |}.

Definition refused : Attempt :=
  {| request_start := 5; reply := Failed ConnectError; received_at := 5 |}.

Definition python_proc : ProcEntry :=
  Inspect {| info_name := Some "python3.11";
             info_cpu_percent := Some 12;
             info_memory_info := Some (64 * 1024 * 1024)%Z;
             info_num_threads := Some 4%Z |}.

Definition rust_proc : ProcEntry :=
  Inspect {| info_name := Some "rust-graphflow";
             info_cpu_percent := Some 3;
             info_memory_info := Some (8 * 1024 * 1024)%Z;
             info_num_threads := Some 9%Z |}.

Definition shell_proc : ProcEntry :=
  Inspect {| info_name := Some "bash";
             info_cpu_percent := Some 1;
             info_memory_info := Some (2 * 1024 * 1024)%Z;
             info_num_threads := Some 1%Z |}.

Definition tick (procs : list ProcEntry) : Tick :=
  {| monitoring_flag := true; process_iter := Ok procs |}.

Definition last_tick : Tick :=
  {| monitoring_flag := false; process_iter := Ok [] |}.

Definition broken_tick : Tick :=
  {| monitoring_flag := true; process_iter := Raise OSError |}.

(** Both services healthy, every request served, the disk writable. *)
Definition healthy : Env :=
  {| env_get := fun _ => Responded 200 None;
     env_post := fun _ _ => served;
     env_dispatch_start := fun _ => 5;
     env_dispatch_end := fun _ => 7;
     env_ticks := fun _ => [tick [shell_proc; python_proc; rust_proc];
                            tick [shell_proc];
                            tick [python_proc; rust_proc]; last_tick];
     env_joined := fun _ => 4%nat;
     env_timestamp := 1000;
     env_open := fun _ => None;
     env_dump := None |}.

(** As [healthy], but the Python service's probe fails to connect. *)
Definition python_down : Env :=
  {| env_get := fun url =>
       if String.eqb url "http://localhost:3001/health"
       then Failed ConnectError else Responded 200 None;
     env_post := env_post healthy;
     env_dispatch_start := env_dispatch_start healthy;
     env_dispatch_end := env_dispatch_end healthy;
     env_ticks := env_ticks healthy;
     env_joined := env_joined healthy;
     env_timestamp := env_timestamp healthy;
     env_open := env_open healthy;
     env_dump := env_dump healthy |}.

(** As [healthy], but the results file cannot be opened for writing. *)
Definition disk_full : Env :=
  {| env_get := env_get healthy;
     env_post := env_post healthy;
     env_dispatch_start := env_dispatch_start healthy;
     env_dispatch_end := env_dispatch_end healthy;
     env_ticks := env_ticks healthy;
     env_joined := env_joined healthy;
     env_timestamp := env_timestamp healthy;
     env_open := fun _ => Some OSError;
     env_dump := None |}.

(** As [healthy], but every request is refused. *)
Definition all_refused : Env :=
  {| env_get := env_get healthy;
     env_post := fun _ _ => refused;
     env_dispatch_start := env_dispatch_start healthy;
     env_dispatch_end := env_dispatch_end healthy;
     env_ticks := env_ticks healthy;
     env_joined := env_joined healthy;
     env_timestamp := env_timestamp healthy;
     env_open := env_open healthy;
     env_dump := env_dump healthy |}.

Definition rust_url := "http://localhost:3000".
Definition python_url := "http://localhost:3001".
Definition topic := "artificial intelligence in healthcare".

(** The run the command line starts with small arguments. *)
Definition compare (env : Env) : outcome unit * list Event :=
  run (run_comparison_benchmark env rust_url python_url topic 2 5 true).

End Worlds.

(** * The command line *)

Module Cli.

(** The namespace [parser.parse_args()] hands to [main]: one field per
    flag. *)
Record Namespace : Type := {
  rust_url : string;
  python_url : string;
  topic : string;
  num_requests : Z;
  max_workers : Z;
  no_resource_monitoring : bool
}.

(** The values of the flags that are not given. *)
Definition defaults : Namespace :=
  {| rust_url := "http://localhost:3000";
     python_url := "http://localhost:3001";
     topic := "artificial intelligence in healthcare";
     num_requests := 10;
     max_workers := 5;
     no_resource_monitoring := false |}.

(** [main], from the parsed arguments on. *)
Definition main (env : Env) (args : Namespace) : M unit :=
  run_comparison_benchmark env (rust_url args) (python_url args) (topic args)
                           (num_requests args) (max_workers args)
                           (negb (no_resource_monitoring args)).

End Cli.

(** * The rate-driven dispatcher *)

Module RateBenchmark.

(** One turn of the [while] loop as the world decides it: the clock read by
    the loop test, the attempt, and the clock read after it for [elapsed]. *)
Record Round : Type := {
  test_clock : Q;
  attempt : Attempt;
  after_clock : Q
}.

(** The clock read for [start_time] and the rounds to come. *)
Record World : Type := {
  start_time : Q;
  rounds : list Round
}.

(** What the function does to the outside: the events of the driver, and
    [asyncio.sleep]. *)
Inductive Effect : Type :=
| Did (ev : Event)
| Slept (seconds : Q).

(** The local variables the loop updates, and the effects so far. *)
Record State : Type := {
  latencies : list Q;
  error_count : Z;
  responses : list ResponseBody;
  request_count : Z;
  effects : list Effect
}.

Definition did (ev : Event) (st : State) : State :=
  {| latencies := latencies st;
     error_count := error_count st;
     responses := responses st;
     request_count := request_count st;
     effects := effects st ++ [Did ev] |}.

(** The [except] branch: one more error, and a line. *)
Definition failed (e : exn) (st : State) : State :=
  did (Print (ErrorLine (request_count st + 1) e))
      {| latencies := latencies st;
         error_count := (error_count st + 1)%Z;
         responses := responses st;
         request_count := request_count st;
         effects := effects st |}.

(** The [try] statement of one round.  The latency is appended as soon as
    the status has passed, before the body is parsed. *)
Definition request (url topic : string) (a : Attempt) (st : State) : State :=
  let st := did (HttpPost (url ++ "/research") topic) st in
  match Http.send (reply a) with
  | Raise e => failed e st
  | Ok (status, body) =>
      match Http.raise_for_status status with
      | Raise e => failed e st
      | Ok _ =>
          let latency := (received_at a - request_start a) * 1000 in
          let st := {| latencies := latencies st ++ [latency];
                       error_count := error_count st;
                       responses := responses st;
                       request_count := request_count st;
                       effects := effects st |} in
          match Http.json body with
          | Raise e => failed e st
          | Ok data =>
              did (Print (RequestLine (request_count st + 1) latency))
                  {| latencies := latencies st;
                     error_count := error_count st;
                     responses := responses st ++ [data];
                     request_count := request_count st;
                     effects := effects st |}
          end
      end
  end.

(** [max(0, (1.0 / requests_per_second) - elapsed)], or [None] for the
    [ZeroDivisionError] of [1.0 / 0]. *)
Definition sleep_time (requests_per_second : Z) (elapsed : Q) : option Q :=
  if (requests_per_second =? 0)%Z then None
  else
    let wait := 1 / inject_Z requests_per_second - elapsed in
    Some (if Py.Qltb 0 wait then wait else 0).

(** How the loop stands when the rounds have been played. *)
Inductive LoopEnd : Type :=
| TimeUp                 (* the loop test failed *)
| DividedByZero          (* the body raised [ZeroDivisionError] *)
| OutOfRounds.           (* the rounds ended with the loop alive *)

(** The [while time.time() - start_time < duration] loop. *)
Fixpoint loop (url topic : string) (requests_per_second duration : Z)
    (start : Q) (rs : list Round) (st : State) : LoopEnd * State :=
  match rs with
  | [] => (OutOfRounds, st)
  | r :: later =>
      if Py.Qltb (test_clock r - start) (inject_Z duration) then
        let request_start := request_start (attempt r) in
        let st := request url topic (attempt r) st in
        let st := {| latencies := latencies st;
                     error_count := error_count st;
                     responses := responses st;
                     request_count := (request_count st + 1)%Z;
                     effects := effects st |} in
        let elapsed := after_clock r - request_start in
        match sleep_time requests_per_second elapsed with
        | None => (DividedByZero, st)
        | Some seconds =>
            loop url topic requests_per_second duration start later
                 {| latencies := latencies st;
                    error_count := error_count st;
                    responses := responses st;
                    request_count := request_count st;
                    effects := effects st ++ [Slept seconds] |}
        end
      else (TimeUp, st)
  end.

(** The dict [benchmark_service] returns. *)
Record Results : Type := {
  service_url : string;
  total_requests : Z;
  successful_requests : Z;
  errors : Z;
  error_rate : Q;
  avg_latency_ms : Q;
  p50_latency_ms : Q;
  p95_latency_ms : Q;
  p99_latency_ms : Q;
  task_statistics : Dict.t TaskStat;
  raw_latencies : list Q
}.

(** Everything after the loop. *)
Definition summarize (url : string) (st : State) : result Results :=
  (let latencies := latencies st in
   let errors := error_count st in
   let request_count := request_count st in
   task_times <- collect_task_times (responses st) ;;
   task_stats <- task_stats task_times ;;
   avg <- (if Py.truthy latencies then Statistics.mean latencies else Ok 0) ;;
   p50 <- (if Py.truthy latencies then Statistics.median latencies else Ok 0) ;;
   p95 <- percentile95 latencies ;;
   p99 <- percentile99 latencies ;;
   Ok {| service_url := url;
         total_requests := request_count;
         successful_requests := Py.len latencies;
         errors := errors;
         error_rate := if (request_count >? 0)%Z
                       then inject_Z errors / inject_Z request_count else 0;
         avg_latency_ms := avg;
         p50_latency_ms := p50;
         p95_latency_ms := p95;
         p99_latency_ms := p99;
         task_statistics := task_stats;
         raw_latencies := latencies |})%result.

(** How a call ends. *)
Inductive Exit : Type :=
| Returned (r : Results)
| ZeroDivisionError
| Raised (e : exn)
| Unfinished.

Definition benchmark_service (world : World) (url topic : string)
    (requests_per_second duration : Z) : Exit * list Effect :=
  let st :=
    {| latencies := []; error_count := 0; responses := [];
       request_count := 0;
       effects :=
         [Did (Print (Text ("Starting benchmark for " ++ url)));
          Did (Print (Text ("Target: " ++ Py.str requests_per_second
                            ++ " req/s for " ++ Py.str duration
                            ++ " seconds")))] |} in
  match loop url topic requests_per_second duration (start_time world)
             (rounds world) st with
  | (TimeUp, st) =>
      match summarize url st with
      | Ok r => (Returned r, effects st)
      | Raise e => (Raised e, effects st)
      end
  | (DividedByZero, st) => (ZeroDivisionError, effects st)
  | (OutOfRounds, st) => (Unfinished, effects st)
  end.

End RateBenchmark.

(** * Further vocabulary *)

(** ** More concrete worlds *)

Module Scenarios.

Open Scope string_scope.

(** A success status with a body that is not JSON. *)
Definition garbled : Attempt :=
  {| request_start := 5; reply := Responded 200 None; received_at := 6 |}.

(** A server error. *)
Definition rejected : Attempt :=
  {| request_start := 5; reply := Responded 500 (Some Worlds.body);
     received_at := 6 |}.

(** A request served in 250 ms that reports one more phase. *)
Definition slow : Attempt :=
  {| request_start := 8;
     reply := Responded 201
                (Some (JObj [("task_times",
                              JObj [("research", JNum 90);
                                    ("report", JNum 30)])]));
     received_at := 33 # 4 |}.

(** As [Worlds.healthy], but request 2 is refused, request 3 is slow,
    request 4 gets a garbled body and request 5 a server error. *)
Definition mixed : Env :=
  {| env_get := env_get Worlds.healthy;
     env_post := fun _ s =>
       if (s =? 2)%Z then Worlds.refused
       else if (s =? 3)%Z then slow
       else if (s =? 4)%Z then garbled
       else if (s =? 5)%Z then rejected
       else Worlds.served;
     env_dispatch_start := env_dispatch_start Worlds.healthy;
     env_dispatch_end := env_dispatch_end Worlds.healthy;
     env_ticks := env_ticks Worlds.healthy;
     env_joined := env_joined Worlds.healthy;
     env_timestamp := env_timestamp Worlds.healthy;
     env_open := env_open Worlds.healthy;
     env_dump := env_dump Worlds.healthy |}.


(** A success status with a body whose [task_times] holds a string where
    a number is due. *)
Definition mistimed : Attempt :=
  {| request_start := 5;
     reply := Responded 200
                (Some (JObj [("task_times", JObj [("research", JStr "fast")])]));
     received_at := 6 |}.

(** As [Worlds.healthy], but request 2 is answered with [reply]. *)
Definition second_gets (a : Attempt) : Env :=
  {| env_get := env_get Worlds.healthy;
     env_post := fun _ s => if (s =? 2)%Z then a else Worlds.served;
     env_dispatch_start := env_dispatch_start Worlds.healthy;
     env_dispatch_end := env_dispatch_end Worlds.healthy;
     env_ticks := env_ticks Worlds.healthy;
     env_joined := env_joined Worlds.healthy;
     env_timestamp := env_timestamp Worlds.healthy;
     env_open := env_open Worlds.healthy;
     env_dump := env_dump Worlds.healthy |}.


(** As [Worlds.healthy], but each join gives up when the thread has
    completed one tick. *)
Definition slow_ticks : Env :=
  {| env_get := env_get Worlds.healthy;
     env_post := env_post Worlds.healthy;
     env_dispatch_start := env_dispatch_start Worlds.healthy;
     env_dispatch_end := env_dispatch_end Worlds.healthy;
     env_ticks := env_ticks Worlds.healthy;
     env_joined := fun _ => 1%nat;
     env_timestamp := env_timestamp Worlds.healthy;
     env_open := env_open Worlds.healthy;
     env_dump := env_dump Worlds.healthy |}.

(** As [Worlds.healthy], but the disk fills up while the document is
    written. *)
Definition dump_fails : Env :=
  {| env_get := env_get Worlds.healthy;
     env_post := env_post Worlds.healthy;
     env_dispatch_start := env_dispatch_start Worlds.healthy;
     env_dispatch_end := env_dispatch_end Worlds.healthy;
     env_ticks := env_ticks Worlds.healthy;
     env_joined := env_joined Worlds.healthy;
     env_timestamp := env_timestamp Worlds.healthy;
     env_open := env_open Worlds.healthy;
     env_dump := Some OSError |}.

End Scenarios.

(** ** Phases and bounds *)

(** The entries of a body's [task_times], none when it has none to give. *)
Definition entries (response : ResponseBody) : list (string * Json) :=
  match task_items response with
  | Ok items => items
  | Raise _ => []
  end.

(** What a list of responses reports for [task], in order, and the
    numbers among these values. *)
Definition reports (task : string) (responses : list ResponseBody)
    : list Json :=
  flat_map (fun response =>
              map snd (filter (fun item => String.eqb (fst item) task)
                              (entries response)))
           responses.

Definition durations (task : string) (responses : list ResponseBody) : list Q :=
  flat_map (fun value => match Statistics.number value with
                         | Ok q => [q]
                         | Raise _ => []
                         end)
           (reports task responses).

(** Every value of [l] lies between [lo] and [hi]. *)
Definition bounded (lo hi : Q) (l : list Q) : Prop :=
  forall x, In x l -> lo <= x <= hi.

(** What a lookup finds once more durations have been filed. *)
Definition filed {V} (found : option (list V)) (more : list V)
    : option (list V) :=
  match found, more with
  | None, [] => None
  | None, _ :: _ => Some more
  | Some v, _ => Some (v ++ more)
  end.

(** ** What the sampler reads off one process *)

Definition cpu_of (p : ProcEntry) : Q :=
  match p with
  | Inspect info => ResourceMonitor.or_zeroQ (info_cpu_percent info)
  | Inaccessible _ => 0
  end.

Definition memory_of (p : ProcEntry) : Q :=
  match p with
  | Inspect info =>
      match info_memory_info info with
      | Some rss => inject_Z rss / inject_Z (1024 * 1024)
      | None => 0
      end
  | Inaccessible _ => 0
  end.

Definition threads_of (p : ProcEntry) : Z :=
  match p with
  | Inspect info => ResourceMonitor.or_zeroZ (info_num_threads info)
  | Inaccessible _ => 0%Z
  end.

Definition sumZ (l : list Z) : Z := fold_right Z.add 0%Z l.

(** An entry that vanished or may not be read: the inner [except] skips it. *)
Definition skipped (p : ProcEntry) : bool :=
  match p with
  | Inaccessible e => ResourceMonitor.per_process_error e
  | Inspect _ => false
  end.

(** An entry the tick can work with: skipped, or listed with its name and
    its memory. *)
Definition readable (p : ProcEntry) : bool :=
  match p with
  | Inaccessible e => ResourceMonitor.per_process_error e
  | Inspect info =>
      match info_name info, info_memory_info info with
      | Some _, Some _ => true
      | _, _ => false
      end
  end.

(** A tick during which the service is there to be measured: the flag is
    set, the table can be read, and some process matches. *)
Definition steady (names : list string) (tick : Tick) : Prop :=
  monitoring_flag tick = true
  /\ exists procs,
       process_iter tick = Ok procs
       /\ Forall (fun p => readable p = true) procs
       /\ matching names procs <> [].

(** The row of the task breakdown for [task]. *)
Definition task_row (rust_results python_results : BenchmarkResults)
    (task : string) : Event :=
  Print (Row task
             (task_avg (task_statistics rust_results) task)
             (task_avg (task_statistics python_results) task)
             (Some (task_avg (task_statistics python_results) task
                    / task_avg (task_statistics rust_results) task))).

(** ** Rounds of the rate-driven dispatcher *)

(** The rounds whose loop test passes, up to the first that fails. *)
Fixpoint played (start : Q) (duration : Z) (rs : list RateBenchmark.Round)
    : list RateBenchmark.Round :=
  match rs with
  | [] => []
  | r :: later =>
      if Py.Qltb (RateBenchmark.test_clock r - start) (inject_Z duration)
      then r :: played start duration later
      else []
  end.

(** The reply came with a success status. *)
Definition accepted (a : Attempt) : bool :=
  match reply a with
  | Responded status _ => ((200 <=? status) && (status <? 300))%Z
  | Failed _ => false
  end.

(** The attempt gave no parsed response. *)
Definition unparsed (a : Attempt) : bool :=
  match succeeded a with
  | Some _ => false
  | None => true
  end.

(** A success status with a body that is not JSON. *)
Definition garbled (a : Attempt) : bool := accepted a && unparsed a.

Definition latency_of (a : Attempt) : Q :=
  (received_at a - request_start a) * 1000.



(** The POSTs among the effects of the rate-driven dispatcher. *)
Definition rate_posts (effects : list RateBenchmark.Effect)
    : list (string * string) :=
  flat_map (fun eff => match eff with
                       | RateBenchmark.Did (HttpPost url topic) => [(url, topic)]
                       | _ => []
                       end) effects.

(** The sleeps among the effects of the rate-driven dispatcher. *)
Definition sleeps (effects : list RateBenchmark.Effect) : list Q :=
  flat_map (fun eff => match eff with
                       | RateBenchmark.Slept seconds => [seconds]
                       | _ => []
                       end) effects.

(** The loop test fails at round [r]: the time is up. *)
Definition time_is_up (start : Q) (duration : Z) (r : RateBenchmark.Round)
    : Prop :=
  inject_Z duration <= RateBenchmark.test_clock r - start.

Module RateScenarios.

Definition round (at_ : Q) (r : HttpReply) (took : Q) : RateBenchmark.Round :=
  {| RateBenchmark.test_clock := at_;
     RateBenchmark.attempt :=
       {| request_start := at_; reply := r; received_at := at_ + took |};
     RateBenchmark.after_clock := at_ + took |}.

(** Three requests half a second apart, the second with a body that is not
    JSON and the third refused; then the clock has reached two seconds. *)
Definition busy : RateBenchmark.World :=
  {| RateBenchmark.start_time := 0;
     RateBenchmark.rounds :=
       [round 0 (Responded 200 (Some Worlds.body)) (1 # 10);
        round (1 # 2) (Responded 200 None) (1 # 10);
        round 1 (Failed ConnectError) 0;
        round 2 (Responded 200 (Some Worlds.body)) (1 # 10)] |}.


End RateScenarios.

(** * Properties *)

(** ** Facts about the builtins and [statistics] *)

Section StatisticsFacts.

Import Py.

Lemma Qltb_true x y : Qltb x y = true <-> x < y.
Proof.
  unfold Qltb. rewrite negb_true_iff.
  split; intro H.
  - apply Qnot_le_lt. intro Hle. apply Qle_bool_iff in Hle. congruence.
  - destruct (Qle_bool y x) eqn:E; auto.
    apply Qle_bool_iff in E. exfalso. exact (Qlt_not_le _ _ H E).
Qed.

Lemma Qltb_false x y : Qltb x y = false <-> y <= x.
Proof.
  unfold Qltb. rewrite negb_false_iff. apply Qle_bool_iff.
Qed.

Lemma truthy_nonempty {A} (l : list A) : truthy l = true <-> l <> [].
Proof. destruct l; simpl; split; congruence. Qed.

Lemma length_insert_sorted x l :
  List.length (insert_sorted x l) = S (List.length l).
Proof.
  induction l as [|y l IH]; simpl; auto.
  destruct (Qltb x y); simpl; auto.
Qed.

Lemma length_sorted_from l acc :
  List.length (fold_left (fun acc x => insert_sorted x acc) l acc)
  = (List.length l + List.length acc)%nat.
Proof.
  revert acc. induction l as [|x l IH]; intro acc; simpl; auto.
  rewrite IH, length_insert_sorted. lia.
Qed.

Lemma length_sorted l : List.length (sorted l) = List.length l.
Proof. unfold sorted. rewrite length_sorted_from. simpl. lia. Qed.

Lemma length_range lo hi : List.length (range lo hi) = Z.to_nat (hi - lo).
Proof. unfold range. now rewrite length_map, length_seq. Qed.

Lemma nth_error_range lo hi k :
  (k < Z.to_nat (hi - lo))%nat ->
  nth_error (range lo hi) k = Some (lo + Z.of_nat k)%Z.
Proof.
  intro H. unfold range.
  rewrite nth_error_map, nth_error_seq.
  destruct (Nat.ltb_spec k (Z.to_nat (hi - lo))); [reflexivity | lia].
Qed.

Lemma mean_ok data :
  data <> [] -> Statistics.mean data = Ok (sum data / inject_Z (len data)).
Proof. destruct data; [congruence | reflexivity]. Qed.

Lemma median_ok data : data <> [] -> exists q, Statistics.median data = Ok q.
Proof.
  intro H. unfold Statistics.median.
  rewrite length_sorted.
  destruct data as [|x data]; [congruence|]. simpl List.length.
  destruct (Nat.odd _); eauto.
Qed.

Lemma max_ok data : data <> [] -> exists q, max data = Ok q.
Proof. destruct data; [congruence | simpl; eauto]. Qed.

Lemma min_ok data : data <> [] -> exists q, min data = Ok q.
Proof. destruct data; [congruence | simpl; eauto]. Qed.

(** Entry [i-1] of the cut points, when there are enough data. *)
Lemma quantiles_getitem data n i :
  (2 <= len data)%Z -> (1 <= i < n)%Z ->
  (q <- Statistics.quantiles data n ;; getitem q (Z.to_nat (i - 1)))%result
  = Ok (Statistics.cut_point (sorted data) (len data) n i).
Proof.
  intros Hld Hi. unfold Statistics.quantiles.
  destruct (Z.ltb_spec n 1); [lia|].
  assert (Hlen : len (sorted data) = len data)
    by (unfold len; now rewrite length_sorted).
  rewrite Hlen.
  destruct (Z.ltb_spec (len data) 2); [lia|].
  simpl rbind. unfold getitem.
  rewrite nth_error_map.
  rewrite nth_error_range by lia.
  cbn [option_map]. do 2 f_equal. lia.
Qed.

End StatisticsFacts.

(** ** Reasoning about traces *)

Section TraceLogic.

Context {A B : Type}.

Lemma ensures_ret (a : A) (Q : outcome A -> list Event -> Prop) :
  Q (Returns a) [] -> ensures (ret a) Q.
Proof.
  intros H t. exists (Returns a), []. now rewrite app_nil_r.
Qed.

Lemma ensures_weaken (m : M A) (Q Q' : outcome A -> list Event -> Prop) :
  ensures m Q -> (forall o added, Q o added -> Q' o added) -> ensures m Q'.
Proof.
  intros H HQ t. destruct (H t) as (o & added & E & HQo).
  exists o, added. auto.
Qed.

Lemma ensures_bind (m : M A) (f : A -> M B)
    (Q1 : outcome A -> list Event -> Prop)
    (Q : outcome B -> list Event -> Prop) :
  ensures m Q1 ->
  (forall a added1, Q1 (Returns a) added1 ->
     ensures (f a) (fun o added2 => Q o (added1 ++ added2))) ->
  (forall e added, Q1 (Raises e) added -> Q (Raises e) added) ->
  (forall added, Q1 Hangs added -> Q Hangs added) ->
  ensures (bind m f) Q.
Proof.
  intros Hm Hf He Hh t. unfold bind.
  destruct (Hm t) as (o & added1 & E & HQ1). rewrite E.
  destruct o as [a|e|].
  - destruct (Hf a added1 HQ1 (t ++ added1)) as (o2 & added2 & E2 & HQ2).
    exists o2, (added1 ++ added2). now rewrite app_assoc.
  - exists (Raises e), added1. auto.
  - exists Hangs, added1. auto.
Qed.

End TraceLogic.

Lemma ensures_emit (ev : Event) (Q : outcome unit -> list Event -> Prop) :
  Q (Returns tt) [ev] -> ensures (emit ev) Q.
Proof. intros H t. exists (Returns tt), [ev]. auto. Qed.

(** ** Facts about the dispatcher *)

Section DispatcherFacts.

Import Py.
Variable env : Env.

Lemma process_result_len acc result :
  (len (latencies (process_result acc result))
   + error_count (process_result acc result)
   = len (latencies acc) + error_count acc + 1)%Z.
Proof.
  unfold len.
  destruct result as [[r|]|e]; simpl; rewrite ?length_app; simpl; lia.
Qed.

(** Each result is tallied exactly once: as one more latency, or as one
    more error. *)
Lemma process_result_exclusive acc result :
  (latencies (process_result acc result) = latencies acc
   /\ error_count (process_result acc result) = (error_count acc + 1)%Z)
  \/ (exists x, latencies (process_result acc result) = latencies acc ++ [x]
      /\ error_count (process_result acc result) = error_count acc).
Proof.
  destruct result as [[r|]|e]; simpl; eauto.
Qed.

Lemma process_results_from results acc :
  let tally := fold_left process_result results acc in
  (len (latencies tally) + error_count tally
   = len (latencies acc) + error_count acc + len results)%Z.
Proof.
  revert acc. induction results as [|r results IH]; intro acc; simpl.
  - unfold len; simpl; lia.
  - specialize (IH (process_result acc r)). simpl in IH.
    rewrite IH, process_result_len. unfold len; simpl List.length. lia.
Qed.

(** Latencies and responses are filed together. *)
Lemma process_results_paired results :
  List.length (responses (process_results results))
  = List.length (latencies (process_results results)).
Proof.
  unfold process_results.
  assert (G : forall acc,
            List.length (responses acc) = List.length (latencies acc) ->
            List.length (responses (fold_left process_result results acc))
            = List.length (latencies (fold_left process_result results acc))).
  { induction results as [|r results IH]; intros acc H; simpl; [exact H|].
    apply IH. destruct r as [[x|]|e]; simpl; rewrite ?length_app; simpl; lia. }
  apply G. reflexivity.
Qed.

Lemma process_results_len results :
  (len (latencies (process_results results))
   + error_count (process_results results) = len results)%Z.
Proof.
  unfold process_results.
  pose proof (process_results_from results
                {| latencies := []; error_count := 0; responses := [] |}) as H.
  simpl in H. rewrite H. unfold len; simpl; lia.
Qed.

End DispatcherFacts.

Section SummaryFacts.

Import Py.

Lemma append_to_nonempty {V} key (x : V) d :
  Forall (fun kv => snd kv <> []) d ->
  Forall (fun kv : string * list V => snd kv <> []) (Dict.append_to key x d).
Proof.
  induction 1 as [|[k v] d Hv Hd IH]; simpl.
  - repeat constructor. simpl. congruence.
  - destruct (String.eqb k key); constructor; auto.
    simpl. intro Hnil. apply app_eq_nil in Hnil. destruct Hnil; discriminate.
Qed.

Lemma fold_append_nonempty {V} (items : list (string * V)) : forall acc,
  Forall (fun kv => snd kv <> []) acc ->
  Forall (fun kv : string * list V => snd kv <> [])
         (fold_left (fun acc item => Dict.append_to (fst item) (snd item) acc)
                    items acc).
Proof.
  induction items as [|item items IH]; intros acc Hacc; simpl; auto.
  apply IH. now apply append_to_nonempty.
Qed.

(** [number] knows one exception only. *)
Lemma number_raises value e : Statistics.number value = Raise e -> e = TypeError.
Proof. destruct value; simpl; congruence. Qed.

Lemma numbers_numeric values :
  forallb numeric values = true ->
  exists qs, Statistics.numbers values = Ok qs
             /\ List.length qs = List.length values.
Proof.
  induction values as [|v values IH]; simpl; intro H.
  - exists []. auto.
  - apply andb_true_iff in H. destruct H as (Hv & Hvs).
    unfold numeric in Hv.
    destruct (Statistics.number v) as [q|]; [|discriminate]. simpl.
    destruct (IH Hvs) as (qs & -> & Hlen). simpl.
    exists (q :: qs). simpl. auto.
Qed.

Lemma numbers_not_numeric values :
  forallb numeric values = false -> Statistics.numbers values = Raise TypeError.
Proof.
  induction values as [|v values IH]; simpl; intro H; [discriminate|].
  unfold numeric in H at 1.
  destruct (Statistics.number v) as [q|e] eqn:Ev; simpl.
  - simpl in H. now rewrite (IH H).
  - now rewrite (number_raises _ _ Ev).
Qed.

Lemma forallb_snoc {A} (f : A -> bool) l x :
  forallb f (l ++ [x]) = f x && forallb f l.
Proof. rewrite forallb_app. simpl. rewrite andb_true_r. apply andb_comm. Qed.

(** Filing one more value keeps a dict numeric exactly when the value is a
    number. *)
Lemma all_numeric_append_to key x d :
  all_numeric (Dict.append_to key x d) = numeric x && all_numeric d.
Proof.
  unfold all_numeric.
  induction d as [|[k v] d IH]; simpl.
  - now rewrite !andb_true_r.
  - destruct (String.eqb k key); simpl.
    + rewrite forallb_snoc. now rewrite andb_assoc.
    + rewrite IH.
      destruct (numeric x), (forallb numeric v); reflexivity.
Qed.

Lemma all_numeric_fold items : forall acc,
  all_numeric (fold_left (fun acc item => Dict.append_to (fst item) (snd item) acc)
                         items acc)
  = forallb (fun item => numeric (snd item)) items && all_numeric acc.
Proof.
  induction items as [|item items IH]; intro acc; simpl; [reflexivity|].
  rewrite IH, all_numeric_append_to.
  destruct (numeric (snd item)), (forallb _ items); reflexivity.
Qed.

(** [task_items] knows one exception only. *)
Lemma task_items_raises response e :
  task_items response = Raise e -> e = AttributeError.
Proof.
  destruct response as [| | | | |fields]; simpl; try congruence.
  destruct (Dict.get fields "task_times") as [[| | | | |items]|];
    congruence.
Qed.

(** Collecting from shaped bodies gives a dict, of non-empty lists, that
    is numeric exactly when the bodies are well formed. *)
Lemma collect_from_shaped responses : forall acc,
  forallb shaped responses = true ->
  exists task_times,
    collect_from responses acc = Ok task_times
    /\ all_numeric task_times = forallb well_formed responses && all_numeric acc
    /\ (Forall (fun kv => snd kv <> []) acc ->
        Forall (fun kv => snd kv <> []) task_times).
Proof.
  induction responses as [|r responses IH]; intros acc H; simpl.
  - exists acc. auto.
  - simpl in H. apply andb_true_iff in H. destruct H as (Hr & Hrs).
    unfold shaped in Hr.
    assert (Hw : exists items,
               task_items r = Ok items
               /\ well_formed r
                  = forallb (fun item => numeric (snd item)) items).
    { unfold well_formed.
      destruct (task_items r) as [items|]; [eauto | discriminate]. }
    destruct Hw as (items & Er & Hw). rewrite Er, Hw. simpl.
    destruct (IH (fold_left (fun acc item =>
                               Dict.append_to (fst item) (snd item) acc)
                            items acc) Hrs)
      as (task_times & -> & Hnum & Hne).
    exists task_times. split; [reflexivity|]. split.
    + rewrite Hnum, all_numeric_fold.
      destruct (forallb _ items), (forallb well_formed responses); reflexivity.
    + intro Hacc. apply Hne. now apply fold_append_nonempty.
Qed.

Lemma collect_from_unshaped responses : forall acc,
  forallb shaped responses = false ->
  collect_from responses acc = Raise AttributeError.
Proof.
  induction responses as [|r responses IH]; intros acc H; simpl;
    [discriminate|].
  simpl in H. unfold shaped in H at 1.
  destruct (task_items r) as [items|e] eqn:Er; simpl.
  - apply IH. exact H.
  - now rewrite (task_items_raises _ _ Er).
Qed.

Lemma percentile95_ok values : exists q, percentile95 values = Ok q.
Proof.
  unfold percentile95.
  destruct (Z.gtb_spec (len values) 20).
  - change 18%nat with (Z.to_nat (19 - 1)).
    rewrite quantiles_getitem by lia. eauto.
  - destruct values; simpl; eauto.
Qed.

Lemma percentile99_ok values : exists q, percentile99 values = Ok q.
Proof.
  unfold percentile99.
  destruct (Z.gtb_spec (len values) 100).
  - change 98%nat with (Z.to_nat (99 - 1)).
    rewrite quantiles_getitem by lia. eauto.
  - destruct values; simpl; eauto.
Qed.

(** The phase statistics of a dict of non-empty lists: defined when every
    value is a number, a [TypeError] otherwise. *)
Lemma task_stats_ok d :
  Forall (fun kv => snd kv <> []) d ->
  all_numeric d = true -> exists s, task_stats d = Ok s.
Proof.
  induction 1 as [|[task times] d Hne _ IH]; simpl; intro Hnum; eauto.
  apply andb_true_iff in Hnum. destruct Hnum as (Ht & Hd).
  simpl in Hne, Ht.
  destruct (numbers_numeric times Ht) as (qs & -> & Hlen). simpl.
  assert (Hqs : qs <> []).
  { destruct qs; [|congruence]. destruct times; [congruence | discriminate]. }
  rewrite mean_ok by assumption. simpl.
  destruct (median_ok qs Hqs) as (p50 & ->). simpl.
  destruct (percentile95_ok qs) as (p95 & ->). simpl.
  destruct (IH Hd) as (s & ->). simpl. eauto.
Qed.

Lemma task_stats_not_numeric d :
  Forall (fun kv => snd kv <> []) d ->
  all_numeric d = false -> task_stats d = Raise TypeError.
Proof.
  induction 1 as [|[task times] d Hne _ IH]; simpl; intro Hnum;
    [discriminate|].
  simpl in Hne.
  destruct (forallb numeric times) eqn:Ht.
  - simpl in Hnum.
    destruct (numbers_numeric times Ht) as (qs & -> & Hlen). simpl.
    assert (Hqs : qs <> []).
    { destruct qs; [|congruence]. destruct times; [congruence | discriminate]. }
    rewrite mean_ok by assumption. simpl.
    destruct (median_ok qs Hqs) as (p50 & ->). simpl.
    destruct (percentile95_ok qs) as (p95 & ->). simpl.
    now rewrite (IH Hnum).
  - now rewrite (numbers_not_numeric times Ht).
Qed.

(** The guarded statistics never raise. *)
Lemma guarded_ok (f : list Q -> result Q) values :
  (forall l, l <> [] -> exists q, f l = Ok q) ->
  exists q, (if truthy values then f values else Ok 0) = Ok q.
Proof.
  intro H. destruct values as [|x values]; simpl; eauto.
  apply H. congruence.
Qed.

Lemma summarize_fields url num_requests tally total_time r :
  summarize url num_requests tally total_time = Ok r ->
  summary_of url num_requests tally total_time r.
Proof.
  unfold summarize, summary_of. intro H.
  repeat match type of H with
         | rbind ?x _ = Ok _ =>
             let E := fresh "E" in
             destruct x eqn:E; simpl in H; [|discriminate]
         end.
  inversion H; subst; clear H. simpl.
  repeat split; auto.
Qed.

(** The latency statistics are defined whatever the latencies are. *)
Lemma latency_statistics_ok (k : Q -> Q -> Q -> Q -> Q -> Q -> result BenchmarkResults)
    latencies :
  (forall avg p50 p95 p99 hi lo, exists r, k avg p50 p95 p99 hi lo = Ok r) ->
  exists r,
    (avg <- (if truthy latencies then Statistics.mean latencies else Ok 0) ;;
     p50 <- (if truthy latencies then Statistics.median latencies else Ok 0) ;;
     p95 <- percentile95 latencies ;;
     p99 <- percentile99 latencies ;;
     hi <- (if truthy latencies then max latencies else Ok 0) ;;
     lo <- (if truthy latencies then min latencies else Ok 0) ;;
     k avg p50 p95 p99 hi lo)%result = Ok r.
Proof.
  intro Hk.
  destruct (guarded_ok Statistics.mean latencies) as (avg & ->).
  { intros l Hl. rewrite mean_ok by assumption. eauto. }
  simpl.
  destruct (guarded_ok Statistics.median latencies median_ok) as (p50 & ->).
  simpl.
  destruct (percentile95_ok latencies) as (p95 & ->). simpl.
  destruct (percentile99_ok latencies) as (p99 & ->). simpl.
  destruct (guarded_ok max latencies max_ok) as (hi & ->). simpl.
  destruct (guarded_ok min latencies min_ok) as (lo & ->). simpl.
  apply Hk.
Qed.

(** The statistics are defined for every tally of well-formed bodies. *)
Lemma summarize_ok url num_requests tally total_time :
  forallb well_formed (responses tally) = true ->
  exists r, summarize url num_requests tally total_time = Ok r.
Proof.
  intro Hwf. unfold summarize, collect_task_times.
  assert (Hsh : forallb shaped (responses tally) = true).
  { rewrite forallb_forall in *. intros body Hin. specialize (Hwf body Hin).
    unfold well_formed in Hwf. unfold shaped.
    destruct (task_items body); [reflexivity | discriminate]. }
  destruct (collect_from_shaped (responses tally) [] Hsh)
    as (task_times & -> & Hnum & Hne). simpl.
  rewrite Hwf in Hnum. simpl in Hnum.
  destruct (task_stats_ok task_times (Hne (Forall_nil _)) Hnum) as (s & ->).
  simpl.
  apply latency_statistics_ok. eauto.
Qed.

(** A body without phase times to give makes them raise [AttributeError];
    a phase time that is not a number, [TypeError]. *)
Lemma summarize_unshaped url num_requests tally total_time :
  forallb shaped (responses tally) = false ->
  summarize url num_requests tally total_time = Raise AttributeError.
Proof.
  intro H. unfold summarize, collect_task_times.
  now rewrite (collect_from_unshaped _ _ H).
Qed.

Lemma summarize_not_numeric url num_requests tally total_time :
  forallb shaped (responses tally) = true ->
  forallb well_formed (responses tally) = false ->
  summarize url num_requests tally total_time = Raise TypeError.
Proof.
  intros Hsh Hwf. unfold summarize, collect_task_times.
  destruct (collect_from_shaped (responses tally) [] Hsh)
    as (task_times & -> & Hnum & Hne). simpl.
  rewrite Hwf in Hnum. simpl in Hnum.
  now rewrite (task_stats_not_numeric task_times (Hne (Forall_nil _)) Hnum).
Qed.

(** A returned dict tells that every body taken in was well formed. *)
Lemma summarize_well_formed url num_requests tally total_time r :
  summarize url num_requests tally total_time = Ok r ->
  forallb well_formed (responses tally) = true.
Proof.
  intro H.
  destruct (forallb shaped (responses tally)) eqn:Hsh.
  - destruct (forallb well_formed (responses tally)) eqn:Hwf; [reflexivity|].
    rewrite (summarize_not_numeric _ _ _ _ Hsh Hwf) in H. discriminate.
  - rewrite (summarize_unshaped _ _ _ _ Hsh) in H. discriminate.
Qed.

End SummaryFacts.

(** ** The dispatcher, attempt by attempt *)

Section AttemptFacts.

Variable env : Env.

Lemma posts_app t1 t2 : posts (t1 ++ t2) = posts t1 ++ posts t2.
Proof. unfold posts. apply flat_map_app. Qed.

(** One attempt: a POST, a line, and the result the world decides. *)
Lemma make_request_exact url topic session_num t :
  exists line,
    make_request env url topic session_num t
    = (Returns (succeeded (attempt_of env url session_num)),
       t ++ [HttpPost (url ++ "/research") (payload topic session_num);
             Print line]).
Proof.
  unfold make_request, succeeded, attempt_of, payload.
  unfold try_except, bind, print, emit, lift, ret, raise.
  destruct (reply (env_post env (url ++ "/research") session_num))
    as [status json|e]; simpl.
  - unfold Http.raise_for_status.
    destruct ((200 <=? status) && (status <? 300))%Z; simpl.
    + destruct json as [data|]; simpl; rewrite <- ?app_assoc; simpl app;
        eexists; reflexivity.
    + destruct json; rewrite <- ?app_assoc; simpl app; eexists; reflexivity.
  - rewrite <- ?app_assoc; simpl app. eexists; reflexivity.
Qed.

Lemma gather_requests_exact url topic semaphore ss : forall t,
  semaphore <> 0%Z ->
  exists added,
    gather (map (fun s => bounded_request env semaphore url topic s) ss) t
    = (Returns (map (fun s => Value (succeeded (attempt_of env url s))) ss),
       t ++ added)
    /\ posts added = map (fun s => ((url ++ "/research")%string, payload topic s)) ss
    /\ Forall (fun ev => dispatch_event ev = true) added.
Proof.
  intros t Hsem. revert t.
  induction ss as [|s ss IH]; intro t; simpl.
  - exists []. unfold ret. rewrite app_nil_r. auto.
  - unfold bind at 1. unfold bounded_request at 1.
    destruct (Z.eqb_spec semaphore 0); [contradiction|].
    destruct (make_request_exact url topic s t) as (line & ->).
    unfold bind at 1.
    destruct (IH (t ++ [HttpPost (url ++ "/research") (payload topic s);
                        Print line])) as (added & -> & Hposts & Hdisp).
    unfold ret. eexists. rewrite <- app_assoc. split; [reflexivity|].
    split.
    + rewrite posts_app. simpl. now rewrite Hposts.
    + apply Forall_app. split; [repeat constructor | exact Hdisp].
Qed.

Lemma process_results_values (outcomes : list (option RequestResult)) acc :
  let picked := flat_map (fun o => match o with
                                   | Some r => [r]
                                   | None => []
                                   end) outcomes in
  let missed := filter (fun o => match o with
                                 | Some _ => false
                                 | None => true
                                 end) outcomes in
  let tally := fold_left process_result (map Value outcomes) acc in
  latencies tally = latencies acc ++ map latency picked
  /\ responses tally = responses acc ++ map response picked
  /\ error_count tally = (error_count acc + Py.len missed)%Z.
Proof.
  revert acc. unfold Py.len. cbv zeta.
  induction outcomes as [|[r|] outcomes IH]; intro acc;
    cbn [fold_left map flat_map filter app].
  - rewrite !app_nil_r. simpl. repeat split; lia.
  - destruct (IH (process_result acc (Value (Some r)))) as (Hl & Hr & He).
    rewrite Hl, Hr, He. simpl. rewrite <- !app_assoc. auto.
  - destruct (IH (process_result acc (Value None))) as (Hl & Hr & He).
    rewrite Hl, Hr, He. simpl. repeat split; auto. lia.
Qed.

(** The tally of a dispatch whose attempts all came back as values. *)
Lemma process_results_sessions url ss :
  let tally :=
    process_results (map (fun s => Value (succeeded (attempt_of env url s))) ss) in
  latencies tally
  = map latency (flat_map (fun s => match succeeded (attempt_of env url s) with
                                    | Some r => [r]
                                    | None => []
                                    end) ss)
  /\ responses tally
     = map response (flat_map (fun s => match succeeded (attempt_of env url s) with
                                        | Some r => [r]
                                        | None => []
                                        end) ss)
  /\ error_count tally
     = Py.len (filter (fun s => match succeeded (attempt_of env url s) with
                                | Some _ => false
                                | None => true
                                end) ss).
Proof.
  unfold process_results.
  rewrite <- (map_map (fun s => succeeded (attempt_of env url s)) Value).
  destruct (process_results_values
              (map (fun s => succeeded (attempt_of env url s)) ss)
              {| latencies := []; error_count := 0; responses := [] |})
    as (Hl & Hr & He).
  cbv zeta. rewrite Hl, Hr, He. simpl.
  rewrite flat_map_concat_map, map_map, <- flat_map_concat_map.
  assert (Hf : forall l,
    List.length (filter (fun o : option RequestResult =>
                           match o with Some _ => false | None => true end)
                        (map (fun s => succeeded (attempt_of env url s)) l))
    = List.length (filter (fun s => match succeeded (attempt_of env url s) with
                                    | Some _ => false
                                    | None => true
                                    end) l)).
  { induction l as [|x l IHl]; simpl; auto.
    destruct (succeeded (attempt_of env url x)); simpl; auto. }
  unfold Py.len. rewrite Hf. auto.
Qed.

End AttemptFacts.

Section SessionFacts.

Lemma range_empty lo hi : (hi <= lo)%Z -> Py.range lo hi = [].
Proof.
  intro H. unfold Py.range.
  replace (Z.to_nat (hi - lo)) with 0%nat by lia. reflexivity.
Qed.

Lemma sessions_length N : List.length (sessions N) = Z.to_nat N.
Proof.
  unfold sessions. rewrite length_map, length_range. f_equal. lia.
Qed.

Lemma sessions_NoDup N : NoDup (sessions N).
Proof.
  unfold sessions, Py.range. rewrite map_map.
  apply Injective_map_NoDup; [|apply seq_NoDup].
  intros a b H. lia.
Qed.

Lemma sessions_bounds N s : In s (sessions N) <-> (1 <= s <= N)%Z.
Proof.
  unfold sessions, Py.range. rewrite map_map, in_map_iff.
  split.
  - intros (k & <- & Hk). apply in_seq in Hk. lia.
  - intro H. exists (Z.to_nat (s - 1)). split; [lia|].
    apply in_seq. lia.
Qed.

Lemma to_int_nonnil n :
  Z.to_int n <> Decimal.Pos Decimal.Nil /\ Z.to_int n <> Decimal.Neg Decimal.Nil.
Proof.
  destruct n as [|p|p]; simpl; split; try discriminate;
    intro H; inversion H as [Hp]; exact (Unsigned.to_uint_nonnil p Hp).
Qed.

(** [str] never prints two integers alike. *)
Lemma str_inj a b : Py.str a = Py.str b -> a = b.
Proof.
  unfold Py.str. intro H.
  apply to_int_inj.
  destruct (to_int_nonnil a) as (Ha1 & Ha2).
  destruct (to_int_nonnil b) as (Hb1 & Hb2).
  pose proof (NilZero.isi (Z.to_int a) Ha1 Ha2) as Ia.
  pose proof (NilZero.isi (Z.to_int b) Hb1 Hb2) as Ib.
  rewrite H in Ia. rewrite Ia in Ib. now inversion Ib.
Qed.

Lemma append_inj_l (p a b : string) : (p ++ a = p ++ b)%string -> a = b.
Proof.
  induction p as [|c p IH]; simpl; intro H; [assumption|].
  inversion H. auto.
Qed.

Lemma append_char_inj (a b : string) (c : ascii) :
  (a ++ String c EmptyString = b ++ String c EmptyString)%string -> a = b.
Proof.
  revert b. induction a as [|x a IH]; intros [|y b] H; simpl in H.
  - reflexivity.
  - inversion H as [[Hc Hb]]. destruct b; discriminate.
  - inversion H as [[Hc Ha]]. destruct a; discriminate.
  - inversion H as [[Hc Hab]]. f_equal. auto.
Qed.

Lemma payload_inj topic a b : payload topic a = payload topic b -> a = b.
Proof.
  unfold payload. intro H.
  apply append_inj_l in H. apply append_inj_l in H.
  apply append_char_inj in H. now apply str_inj.
Qed.

End SessionFacts.

Section DispatchFacts.

Import Py.
Variable env : Env.

Lemma lift_ending {A} (r : result A) t : lift r t = (ending r, t).
Proof. destruct r; reflexivity. Qed.

(** What the tally of a dispatch holds. *)
Lemma dispatch_tally_fields url N :
  latencies (dispatch_tally env url N) = map latency (successes env url N)
  /\ responses (dispatch_tally env url N) = bodies env url N
  /\ error_count (dispatch_tally env url N) = len (failures env url N).
Proof. apply process_results_sessions. Qed.

Lemma dispatch_tally_len url N :
  (len (latencies (dispatch_tally env url N))
   + error_count (dispatch_tally env url N) = Z.max 0 N)%Z.
Proof.
  unfold dispatch_tally. rewrite process_results_len.
  unfold len. rewrite length_map, sessions_length. lia.
Qed.

(** A dispatch, event by event. *)
Lemma benchmark_exact url topic N max_workers t :
  exists added,
    benchmark_service_threaded env url topic N max_workers t
    = (dispatch_outcome env url N max_workers,
       t ++ starting_line N max_workers :: added)
    /\ Forall (fun ev => dispatch_event ev = true) added
    /\ ((0 < max_workers)%Z ->
        posts added
        = map (fun s => ((url ++ "/research")%string, payload topic s))
              (sessions N)).
Proof.
  unfold benchmark_service_threaded, dispatch_outcome, print, emit, Semaphore.
  unfold bind at 1. unfold bind at 1.
  destruct (Z.ltb_spec max_workers 0) as [Hneg|Hpos].
  - exists []. split; [reflexivity|]. split; [constructor | lia].
  - unfold ret at 1. unfold bind at 1.
    rewrite <- (map_map (fun i => (i + 1)%Z)
                        (fun s => bounded_request env max_workers url topic s)).
    fold (sessions N). fold (wall_time env url).
    destruct (Z.eqb_spec max_workers 0) as [->|Hw]; simpl andb.
    + destruct (Z.ltb_spec 0 N) as [HN|HN].
      * pose proof (sessions_length N) as Hlen.
        destruct (sessions N) as [|s rest]; [simpl in Hlen; lia|].
        exists []. split; [reflexivity|]. split; [constructor | lia].
      * assert (Hs : sessions N = []).
        { unfold sessions. now rewrite (range_empty 0 N) by lia. }
        unfold dispatch_ending, dispatch_tally. rewrite Hs.
        cbn [map gather]. unfold ret. rewrite lift_ending.
        exists []. split; [reflexivity|]. split; [constructor | lia].
    + destruct (gather_requests_exact env url topic max_workers (sessions N)
                  (t ++ [Print (Text ("Starting threaded benchmark: "
                                      ++ str N ++ " requests with "
                                      ++ str max_workers ++ " workers"))]) Hw)
        as (added & E & Hposts & Hdisp).
      rewrite E, lift_ending.
      exists added. rewrite <- app_assoc.
      split; [reflexivity|]. split; [exact Hdisp | intros _; exact Hposts].
Qed.

Lemma benchmark_ensures url topic num_requests max_workers :
  ensures (benchmark_service_threaded env url topic num_requests max_workers)
          (dispatched env url topic num_requests max_workers).
Proof.
  intro t.
  destruct (benchmark_exact url topic num_requests max_workers t)
    as (added & E & Hdisp & Hposts).
  eexists; eexists. split; [exact E|].
  split; [reflexivity|]. split; [constructor; [reflexivity | exact Hdisp]|].
  exact Hposts.
Qed.

(** How a dispatch can have ended when it returned. *)
Lemma returned_ending url N max_workers r :
  dispatch_outcome env url N max_workers = Returns r ->
  dispatch_ending env url N = Ok r.
Proof.
  unfold dispatch_outcome.
  destruct (max_workers <? 0)%Z; [discriminate|].
  destruct ((max_workers =? 0) && (0 <? N))%Z; [discriminate|].
  destruct (dispatch_ending env url N); simpl; congruence.
Qed.

(** Whenever a dispatch returns, its dict summarises the tally of its
    attempts, and every body it took in was well formed. *)
Lemma benchmark_returns url topic num_requests max_workers t r t' :
  benchmark_service_threaded env url topic num_requests max_workers t
  = (Returns r, t') ->
  summary_of url num_requests (dispatch_tally env url num_requests)
             (wall_time env url) r
  /\ well_served env url num_requests = true.
Proof.
  intro E.
  destruct (benchmark_exact url topic num_requests max_workers t)
    as (added & E' & _).
  rewrite E in E'. injection E' as Ho _. symmetry in Ho.
  apply returned_ending in Ho. unfold dispatch_ending in Ho.
  split; [now apply summarize_fields|].
  apply summarize_well_formed in Ho.
  destruct (dispatch_tally_fields url num_requests) as (_ & Hr & _).
  unfold well_served. now rewrite <- Hr.
Qed.

(** With a permit, a dispatch returns exactly when it is well served. *)
Lemma well_served_outcome url N max_workers :
  (0 < max_workers)%Z ->
  if well_served env url N
  then exists r, dispatch_outcome env url N max_workers = Returns r
  else dispatch_outcome env url N max_workers
       = Raises (if all_shaped env url N then TypeError else AttributeError).
Proof.
  intro Hw. unfold dispatch_outcome, dispatch_ending.
  destruct (Z.ltb_spec max_workers 0); [lia|].
  destruct (Z.eqb_spec max_workers 0); [lia|]. simpl andb.
  destruct (dispatch_tally_fields url N) as (_ & Hr & _).
  unfold well_served, all_shaped. rewrite <- Hr.
  destruct (forallb well_formed _) eqn:Hwf.
  - destruct (summarize_ok url N (dispatch_tally env url N)
                           (wall_time env url) Hwf) as (r & ->).
    simpl. eauto.
  - destruct (forallb shaped _) eqn:Hsh.
    + now rewrite (summarize_not_numeric _ _ _ _ Hsh Hwf).
    + now rewrite (summarize_unshaped _ _ _ _ Hsh).
Qed.

(** A results dict the dispatch returned is a dispatch result. *)
Lemma returned_dispatch_result url N max_workers r :
  dispatch_outcome env url N max_workers = Returns r ->
  dispatch_result env url N r.
Proof.
  intro H. apply returned_ending in H. unfold dispatch_ending in H.
  apply summarize_fields in H.
  eexists. split; [|exact H].
  rewrite length_map. apply sessions_length.
Qed.

End DispatchFacts.

(** ** The dispatcher's claims *)



(** A phase time that is a string makes the statistics raise [TypeError]. *)
Example phase_time_that_is_no_number :
  exists t',
    benchmark_service_threaded (Scenarios.second_gets Scenarios.mistimed)
                               Worlds.rust_url Worlds.topic 3 5 []
    = (Raises TypeError, t').
Proof. eexists. vm_compute. reflexivity. Qed.

(** C3.  Whenever a dispatch returns a dict without a successful latency,
    every latency statistic in it is the default 0.  This is a value, not an
    exception: summarising a tally without latencies succeeds, and a
    dispatch with at least one permit in which no attempt succeeds
    returns. *)
Theorem no_success_gives_zero_statistics
    (env : Env) (url topic : string) (N max_workers : Z) (t : list Event) :
  (forall r t',
     benchmark_service_threaded env url topic N max_workers t = (Returns r, t') ->
     successful_requests r = 0%Z -> zero_statistics r)
  /\ (forall results total_time,
        latencies (process_results results) = [] ->
        exists r,
          summarize url N (process_results results) total_time = Ok r
          /\ zero_statistics r)
  /\ ((0 < max_workers)%Z -> successes env url N = [] ->
      exists r t',
        benchmark_service_threaded env url topic N max_workers t
        = (Returns r, t')
        /\ zero_statistics r).
Proof.
  assert (Hzero : forall tally total_time r,
            summary_of url N tally total_time r ->
            latencies tally = [] -> zero_statistics r).
  { intros tally total_time r Hs Hnil.
    destruct Hs as (_ & _ & _ & _ & _ & _ & _ & Havg & Hp50 & Hp95 & Hp99
                    & Hmax & Hmin & _ & _).
    rewrite Hnil in *.
    unfold percentile95, percentile99 in *. simpl in *.
    unfold zero_statistics. repeat split; congruence. }
  split; [|split].
  - intros r t' E Hnone.
    destruct (benchmark_returns _ _ _ _ _ _ _ _ E) as (Hs & _).
    apply (Hzero _ _ _ Hs).
    destruct Hs as (_ & _ & Hsucc & _).
    rewrite Hsucc in Hnone.
    destruct (latencies (dispatch_tally env url N)); [reflexivity|].
    unfold Py.len in Hnone. simpl in Hnone. lia.
  - intros results total_time Hnil.
    pose proof (process_results_paired results) as Hlen.
    rewrite Hnil in Hlen.
    destruct (summarize_ok url N (process_results results) total_time)
      as (r & Hr).
    { destruct (responses (process_results results)); [reflexivity|].
      discriminate. }
    exists r. split; [assumption|].
    apply summarize_fields in Hr. eauto.
  - intros Hw Hnone.
    destruct (benchmark_exact env url topic N max_workers t) as (added & E & _).
    pose proof (well_served_outcome env url N max_workers Hw) as Ho.
    unfold well_served, bodies in Ho. rewrite Hnone in Ho. simpl in Ho.
    destruct Ho as (r & Ho). rewrite Ho in E.
    exists r. eexists. split; [exact E|].
    apply returned_ending in Ho. unfold dispatch_ending in Ho.
    apply summarize_fields in Ho. apply (Hzero _ _ _ Ho).
    destruct (dispatch_tally_fields env url N) as (Hl & _).
    rewrite Hl, Hnone. reflexivity.
Qed.

(** In the world where every request is refused: four attempts, four
    errors, no success, and all statistics 0. *)
Lemma no_success_gives_zero_statistics_witness :
  (0 < 5)%Z
  /\ successes Worlds.all_refused Worlds.rust_url 4 = []
  /\ exists r t',
       benchmark_service_threaded Worlds.all_refused Worlds.rust_url
                                  Worlds.topic 4 5 []
       = (Returns r, t')
       /\ zero_statistics r.
Proof.
  split; [lia|]. split; [reflexivity|].
  apply (proj2 (proj2 (no_success_gives_zero_statistics
                         Worlds.all_refused Worlds.rust_url Worlds.topic
                         4 5 []))); [lia | reflexivity].
Defined.

(** C7.  The reported throughput is the number of successful requests
    divided by the wall time of the dispatch, and 0 when that time is 0. *)
Theorem throughput_is_successes_per_second
    (env : Env) (url topic : string) (N max_workers : Z)
    (t t' : list Event) (r : BenchmarkResults) :
  benchmark_service_threaded env url topic N max_workers t = (Returns r, t') ->
  total_time_seconds r = wall_time env url
  /\ (0 < total_time_seconds r ->
      throughput_rps r
      == inject_Z (successful_requests r) / total_time_seconds r)
  /\ (total_time_seconds r == 0 -> throughput_rps r == 0).
Proof.
  intro E.
  destruct (benchmark_returns _ _ _ _ _ _ _ _ E) as (Hs & _).
  destruct Hs as (_ & _ & Hsucc & _ & _ & HT & Hthr & _).
  split; [assumption|].
  rewrite Hthr, Hsucc, HT.
  split; intro H.
  - apply Qltb_true in H. rewrite H. reflexivity.
  - destruct (Py.Qltb 0 (wall_time env url)) eqn:Hlt; [|reflexivity].
    apply Qltb_true in Hlt. rewrite H in Hlt.
    exfalso. exact (Qlt_irrefl 0 Hlt).
Qed.

Lemma throughput_is_successes_per_second_witness :
  exists r t',
    benchmark_service_threaded Worlds.healthy Worlds.rust_url Worlds.topic 3 5 []
    = (Returns r, t')
    /\ total_time_seconds r = wall_time Worlds.healthy Worlds.rust_url
    /\ (0 < total_time_seconds r ->
        throughput_rps r
        == inject_Z (successful_requests r) / total_time_seconds r)
    /\ (total_time_seconds r == 0 -> throughput_rps r == 0).
Proof.
  eexists; eexists. split; [vm_compute; reflexivity|].
  eapply (throughput_is_successes_per_second
            Worlds.healthy Worlds.rust_url Worlds.topic 3 5 []).
  vm_compute. reflexivity.
Defined.

(** ** The resource sampler's claims *)

Section SamplerFacts.

Import ResourceMonitor.
Variable names : list string.

Lemma inspect_found p acc acc' :
  inspect names p acc = Ok acc' ->
  (name_matches names p = false /\ acc' = acc)
  \/ (name_matches names p = true
      /\ found_processes acc' = (found_processes acc + 1)%Z).
Proof.
  unfold inspect, matches, name_matches.
  destruct p as [info|e]; [|discriminate].
  destruct names as [|n ns] eqn:En.
  - simpl. intro H; inversion H; subst. left.
    split; auto. destruct (info_name info); reflexivity.
  - destruct (info_name info) as [s|]; [|discriminate].
    generalize (existsb (fun name => Py.contains s name) (n :: ns)).
    intros [|]; simpl.
    + destruct (info_memory_info info); simpl; [|discriminate].
      intro H; inversion H; subst. right. auto.
    + intro H; inversion H; subst. left. auto.
Qed.

(** The counter moves by at most the number of matching processes. *)
Lemma scan_found procs : forall acc acc',
  scan names procs acc = Ok acc' ->
  (found_processes acc <= found_processes acc'
   <= found_processes acc + Py.len (matching names procs))%Z.
Proof.
  unfold Py.len.
  induction procs as [|p procs IH]; intros acc acc' H; simpl in H.
  - inversion H; subst. simpl. lia.
  - simpl matching.
    destruct (inspect names p acc) as [acc1|e] eqn:Ei.
    + apply IH in H.
      destruct (inspect_found _ _ _ Ei) as [(-> & ->)|(-> & Hf)];
        simpl List.length; lia.
    + destruct (per_process_error e); [|discriminate].
      apply IH in H.
      assert (name_matches names p = false \/ name_matches names p = true)
        as [->| ->] by (destruct (name_matches names p); auto);
        simpl List.length; lia.
Qed.

(** One tick leaves the metrics alone or appends one sample. *)
Lemma sample_appends tick metrics metrics' :
  sample names tick metrics = Ok metrics' ->
  metrics' = metrics
  \/ exists procs totals,
       process_iter tick = Ok procs
       /\ scan names procs no_totals = Ok totals
       /\ (0 < found_processes totals)%Z
       /\ metrics' = metrics ++ [ {| cpu_percent := total_cpu totals;
                                     memory_mb := total_memory totals;
                                     threads := total_threads totals |} ].
Proof.
  unfold sample.
  destruct (process_iter tick) as [procs|e]; [|discriminate]. simpl.
  destruct (scan names procs no_totals) as [totals|e] eqn:Es; [|discriminate].
  simpl.
  destruct (Z.gtb_spec (found_processes totals) 0); intro Hs;
    inversion Hs; subst; auto.
  right. exists procs, totals. repeat split; auto; lia.
Qed.

(** A loop that is still alive after [earlier] carries on with [later]. *)
Lemma monitor_loop_app earlier later metrics :
  loop_exit (_monitor_loop names earlier metrics) = StillLooping ->
  let r1 := _monitor_loop names earlier metrics in
  let r2 := _monitor_loop names later (collected r1) in
  _monitor_loop names (earlier ++ later) metrics
  = {| loop_exit := loop_exit r2;
       collected := collected r2;
       ticks_run := (ticks_run r1 + ticks_run r2)%nat |}.
Proof.
  revert metrics.
  induction earlier as [|tick earlier IH]; intros metrics H; simpl in *.
  - destruct (_monitor_loop names later metrics); reflexivity.
  - destruct (monitoring_flag tick); [|discriminate].
    destruct (sample names tick metrics) as [metrics'|e]; [|discriminate].
    simpl in *. rewrite (IH metrics' H). reflexivity.
Qed.

Lemma monitor_loop_alive_ticks schedule metrics :
  loop_exit (_monitor_loop names schedule metrics) = StillLooping ->
  ticks_run (_monitor_loop names schedule metrics) = List.length schedule.
Proof.
  revert metrics.
  induction schedule as [|tick schedule IH]; intros metrics H; simpl in *; auto.
  destruct (monitoring_flag tick); [|discriminate].
  destruct (sample names tick metrics) as [metrics'|e]; [|discriminate].
  simpl in *. now rewrite IH.
Qed.

(** A per-process error only skips that process. *)
Lemma scan_skips_inaccessible e procs acc :
  per_process_error e = true ->
  scan names (Inaccessible e :: procs) acc = scan names procs acc.
Proof. intro H. simpl. now rewrite H. Qed.

End SamplerFacts.

(** C8.  A tick whose process table holds no matching process appends no
    sample; whenever a tick does change the metrics, some process matched
    and exactly one sample was appended. *)
Theorem tick_without_match_appends_nothing
    (names : list string) (tick : Tick) (procs : list ProcEntry)
    (metrics : list ResourceMetrics) :
  process_iter tick = Ok procs ->
  let after :=
    ResourceMonitor.collected
      (ResourceMonitor._monitor_loop names [tick] metrics) in
  (matching names procs = [] -> after = metrics)
  /\ (after <> metrics ->
      matching names procs <> [] /\ exists s, after = metrics ++ [s]).
Proof.
  intros Hprocs after.
  assert (H : after = metrics
              \/ (matching names procs <> []
                  /\ exists s, after = metrics ++ [s])).
  { subst after. simpl.
    destruct (monitoring_flag tick); [|auto].
    destruct (ResourceMonitor.sample names tick metrics) as [metrics'|e] eqn:Es;
      [|auto].
    simpl.
    destruct (sample_appends _ _ _ _ Es)
      as [->|(procs' & totals & Hp & Hscan & Hfound & ->)]; [auto|].
    right. rewrite Hprocs in Hp. inversion Hp; subst procs'.
    split; [|eauto].
    apply scan_found in Hscan. simpl in Hscan.
    intro Hnone. rewrite Hnone in Hscan. unfold Py.len in Hscan.
    simpl in Hscan. lia. }
  split.
  - intro Hnone. destruct H as [H|(Hm & _)]; [assumption | contradiction].
  - intro Hchanged. destruct H as [H|H]; [contradiction | assumption].
Qed.

Lemma tick_without_match_appends_nothing_witness :
  let after :=
    ResourceMonitor.collected
      (ResourceMonitor._monitor_loop ["python"; "uvicorn"]%string
         [Worlds.tick [Worlds.shell_proc; Worlds.rust_proc]] []) in
  (matching ["python"; "uvicorn"]%string [Worlds.shell_proc; Worlds.rust_proc]
   = [] -> after = [])
  /\ (after <> [] ->
      matching ["python"; "uvicorn"]%string
               [Worlds.shell_proc; Worlds.rust_proc] <> []
      /\ exists s, after = [] ++ [s]).
Proof.
  apply (tick_without_match_appends_nothing
           ["python"; "uvicorn"]%string
           (Worlds.tick [Worlds.shell_proc; Worlds.rust_proc])
           [Worlds.shell_proc; Worlds.rust_proc] []).
  reflexivity.
Defined.

(** C10.  Once a tick raises out of its body, the loop is over: whatever
    the rest of the schedule holds, and even with the flag still set, no
    later tick runs and the metrics stay as they were before that tick. *)
Theorem failed_tick_ends_the_loop
    (names : list string) (earlier later : list Tick) (tick : Tick)
    (metrics : list ResourceMetrics) (e : exn) :
  let before := ResourceMonitor._monitor_loop names earlier metrics in
  ResourceMonitor.loop_exit before = ResourceMonitor.StillLooping ->
  monitoring_flag tick = true ->
  ResourceMonitor.sample names tick (ResourceMonitor.collected before)
  = Raise e ->
  ResourceMonitor._monitor_loop names (earlier ++ tick :: later) metrics
  = {| ResourceMonitor.loop_exit := ResourceMonitor.Broke e;
       ResourceMonitor.collected := ResourceMonitor.collected before;
       ResourceMonitor.ticks_run := S (List.length earlier) |}.
Proof.
  intros before Halive Hflag Hraise.
  rewrite monitor_loop_app by assumption.
  fold before. simpl. rewrite Hflag, Hraise. simpl.
  unfold before. rewrite monitor_loop_alive_ticks by assumption.
  f_equal. lia.
Qed.

Lemma failed_tick_ends_the_loop_witness :
  ResourceMonitor._monitor_loop ["python"]%string
    ([Worlds.tick [Worlds.python_proc]]
       ++ Worlds.broken_tick
       :: [Worlds.tick [Worlds.python_proc]; Worlds.tick [Worlds.python_proc]])
    []
  = {| ResourceMonitor.loop_exit := ResourceMonitor.Broke OSError;
       ResourceMonitor.collected :=
         ResourceMonitor.collected
           (ResourceMonitor._monitor_loop ["python"]%string
              [Worlds.tick [Worlds.python_proc]] []);
       ResourceMonitor.ticks_run := 2 |}.
Proof.
  apply (failed_tick_ends_the_loop
           ["python"]%string [Worlds.tick [Worlds.python_proc]]
           [Worlds.tick [Worlds.python_proc]; Worlds.tick [Worlds.python_proc]]
           Worlds.broken_tick [] OSError); reflexivity.
Defined.

(** ** Facts about the reporter *)

Section ReporterFacts.

Import Py.
Variable env : Env.

Local Open Scope monad_scope.

Lemma print_ensures line :
  ensures (print line) (fun o added => o = Returns tt /\ added = [Print line]).
Proof. apply ensures_emit. auto. Qed.

Lemma health_check_ensures service url :
  ensures (health_check env service url)
          (fun o added =>
             o = Returns (healthy env url)
             /\ Forall (fun ev => preflight_event ev = true) added).
Proof.
  intro t.
  unfold health_check, healthy, try_except, bind, print, emit, lift, ret, raise.
  destruct (env_get env (url ++ "/health")) as [status json|e]; simpl.
  - unfold Http.raise_for_status.
    destruct ((200 <=? status) && (status <? 300))%Z; simpl;
      rewrite <- ?app_assoc; simpl app;
      eexists; eexists; (split; [reflexivity|]);
      (split; [reflexivity | repeat constructor]).
  - rewrite <- ?app_assoc; simpl app.
    eexists; eexists; (split; [reflexivity|]).
    split; [reflexivity | repeat constructor].
Qed.

Lemma print_lines_ensures lines :
  ensures (print_lines lines)
          (fun o added => o = Returns tt /\ added = map Print lines).
Proof.
  induction lines as [|l lines IH]; simpl.
  - apply ensures_ret. auto.
  - eapply ensures_bind; [apply print_ensures | | | ].
    + intros [] added1 (_ & ->).
      eapply ensures_weaken; [apply IH|].
      intros o added2 (-> & ->). auto.
    + intros e added (E & _). discriminate.
    + intros added (E & _). discriminate.
Qed.

Lemma save_ensures doc :
  ensures (save env doc ;; print_lines closing_lines) (saved env doc).
Proof.
  intro t. unfold save, saved, closing_lines. cbn [print_lines map].
  unfold bind, print, emit, raise, ret.
  fold results_path.
  destruct (env_open env results_path) as [e|].
  - exists (Raises e), []. now rewrite app_nil_r.
  - destruct (env_dump env) as [e|];
      rewrite <- ?app_assoc; simpl app;
      eexists; eexists; (split; [reflexivity|]); auto.
Qed.

End ReporterFacts.

Section OrderFacts.

Variable env : Env.

Lemma gets_app t1 t2 : gets (t1 ++ t2) = gets t1 ++ gets t2.
Proof. unfold gets. apply flat_map_app. Qed.

Lemma gets_prints lines : gets (map Print lines) = [].
Proof. induction lines; simpl; auto. Qed.

Lemma filter_prints (f : Event -> bool) lines :
  (forall l, f (Print l) = false) -> filter f (map Print lines) = [].
Proof.
  intro H. induction lines as [|l lines IH]; simpl; [reflexivity|].
  now rewrite H.
Qed.


(** One probe: a GET, a line, and whether the reply was a success. *)
Lemma health_check_exact service url t :
  exists line,
    health_check env service url t
    = (Returns (healthy env url),
       t ++ [HttpGet (url ++ "/health"); Print line]).
Proof.
  unfold health_check, healthy, try_except, bind, print, emit, lift, ret, raise.
  destruct (env_get env (url ++ "/health")) as [status json|e]; simpl.
  - unfold Http.raise_for_status.
    destruct ((200 <=? status) && (status <? 300))%Z; simpl;
      rewrite <- ?app_assoc; simpl app; eexists; reflexivity.
  - rewrite <- ?app_assoc; simpl app; eexists; reflexivity.
Qed.

Lemma health_check_probes service url :
  ensures (health_check env service url)
          (fun o added =>
             o = Returns (healthy env url)
             /\ gets added = [(url ++ "/health")%string]
             /\ filter load_event added = []).
Proof.
  intro t. destruct (health_check_exact service url t) as (line & E).
  eexists; eexists. split; [exact E|]. auto.
Qed.

Lemma print_lines_quiet lines :
  ensures (print_lines lines)
          (fun o added =>
             o = Returns tt /\ gets added = [] /\ filter load_event added = []).
Proof.
  eapply ensures_weaken; [apply print_lines_ensures|].
  intros o added (-> & ->). split; [reflexivity|].
  split; [apply gets_prints | now apply filter_prints].
Qed.

Lemma print_quiet line :
  ensures (print line)
          (fun o added =>
             o = Returns tt /\ gets added = [] /\ filter load_event added = []).
Proof. apply ensures_emit. auto. Qed.

End OrderFacts.

Section RunFacts.

Import Py.
Variable env : Env.

Lemma forall_prints (P : Event -> Prop) lines :
  (forall l, P (Print l)) -> Forall P (map Print lines).
Proof. intro H. apply Forall_map. apply Forall_forall. auto. Qed.


(** The table is printed in full, and nothing else with it. *)
Lemma print_results_exact rust_results python_results :
  ensures (print_results rust_results python_results)
          (fun o added =>
             o = Returns tt
             /\ added = map Print (comparison_table rust_results
                                                    python_results)).
Proof.
  intro t. unfold print_results, comparison_table. cbn [print_lines map].
  unfold bind, print, emit, ret.
  rewrite <- ?app_assoc; cbn [app].
  eexists; eexists; (split; [reflexivity|]).
  split; reflexivity.
Qed.

Lemma print_results_prints rust_results python_results :
  ensures (print_results rust_results python_results)
          (fun o added =>
             o = Returns tt /\ Forall (fun ev => is_print ev = true) added).
Proof.
  eapply ensures_weaken; [apply print_results_exact|].
  intros o added (-> & ->). split; [reflexivity|].
  apply Forall_map. apply Forall_forall. reflexivity.
Qed.

Lemma print_resources_prints monitor_resources rust_metrics python_metrics :
  ensures (print_resources monitor_resources rust_metrics python_metrics)
          (fun o added =>
             o = Returns tt /\ Forall (fun ev => is_print ev = true) added).
Proof.
  intro t. unfold print_resources.
  destruct monitor_resources; simpl.
  - destruct rust_metrics as [|r rs]; simpl.
    + unfold bind, print, emit, ret. rewrite <- ?app_assoc; simpl app.
      eexists; eexists; (split; [reflexivity|]).
      split; [reflexivity | repeat constructor].
    + destruct python_metrics as [|p ps]; simpl.
      * unfold bind, print, emit, ret. rewrite <- ?app_assoc; simpl app.
        eexists; eexists; (split; [reflexivity|]).
        split; [reflexivity | repeat constructor].
      * unfold bind, lift, ret, print, emit. simpl.
        rewrite <- ?app_assoc; simpl app.
        eexists; eexists; (split; [reflexivity|]).
        split; [reflexivity | repeat constructor].
  - exists (Returns tt), []. rewrite app_nil_r. auto.
Qed.

(** The task breakdown prints one row per task that has a positive average
    on both sides, and nothing else. *)
Lemma print_tasks_exact tasks rust_results python_results :
  ensures (print_tasks tasks rust_results python_results)
          (fun o added =>
             o = Returns tt
             /\ added
                = map (task_row rust_results python_results)
                      (filter (fun task =>
                                 Qltb 0 (task_avg (task_statistics rust_results)
                                                  task)
                                 && Qltb 0 (task_avg
                                              (task_statistics python_results)
                                              task))
                              tasks)).
Proof.
  induction tasks as [|task tasks IH]; simpl.
  - apply ensures_ret. auto.
  - intro t. unfold bind.
    destruct (Qltb 0 (task_avg (task_statistics rust_results) task)
              && Qltb 0 (task_avg (task_statistics python_results) task)).
    + unfold print, emit.
      destruct (IH (t ++ [task_row rust_results python_results task]))
        as (o & added & E & -> & ->).
      unfold task_row in E at 1. rewrite E.
      eexists; eexists. rewrite <- app_assoc. split; [reflexivity|].
      simpl. auto.
    + unfold ret. destruct (IH t) as (o & added & E & -> & ->).
      rewrite E. eexists; eexists. split; [reflexivity|]. auto.
Qed.

Lemma print_tasks_prints tasks rust_results python_results :
  ensures (print_tasks tasks rust_results python_results)
          (fun o added =>
             o = Returns tt /\ Forall (fun ev => is_print ev = true) added).
Proof.
  eapply ensures_weaken; [apply print_tasks_exact|].
  intros o added (-> & ->). split; [reflexivity|].
  apply Forall_map. apply Forall_forall. reflexivity.
Qed.

(** Saving touches the file and prints; it starts no thread and sends
    nothing, however it ends. *)
Lemma save_quiet doc :
  ensures (save env doc ;; print_lines closing_lines)%monad
          (fun o added =>
             filter load_event added = []
             /\ Forall (fun ev => thread_event ev = false) added).
Proof.
  eapply ensures_weaken; [apply save_ensures|].
  intros o added H. unfold saved in H.
  destruct (env_open env results_path).
  - destruct H as (_ & ->). auto.
  - destruct (env_dump env); destruct H as (_ & ->); simpl.
    + split; [reflexivity | repeat constructor].
    + split; [reflexivity | repeat constructor].
Qed.

(** Kinds of events that exclude one another. *)
Lemma preflight_not_file ev : preflight_event ev = true -> file_event ev = false.
Proof. destruct ev; simpl; congruence. Qed.

Lemma dispatch_not_file ev : dispatch_event ev = true -> file_event ev = false.
Proof. destruct ev; simpl; congruence. Qed.

Lemma print_not_file ev : is_print ev = true -> file_event ev = false.
Proof. destruct ev; simpl; congruence. Qed.

Lemma guard_not_file (b : bool) names :
  Forall (fun ev => file_event ev = false) (guard b [ThreadStart names])
  /\ Forall (fun ev => file_event ev = false) (guard b [ThreadJoin names]).
Proof. destruct b; simpl; split; repeat constructor. Qed.

Lemma start_if_any_exact (monitor_resources : bool) names :
  ensures
    (start_if_any (if monitor_resources
                   then Some (ResourceMonitor.__init__ names) else None))
    (fun o added =>
       o = Returns (if monitor_resources
                    then Some {| ResourceMonitor.process_names := names;
                                 ResourceMonitor.metrics := [];
                                 ResourceMonitor.monitoring := true;
                                 ResourceMonitor.monitor_thread := true |}
                    else None)
       /\ added = guard monitor_resources [ThreadStart names]).
Proof.
  intro t. destruct monitor_resources; simpl.
  - unfold bind, ResourceMonitor.start_monitoring, bind, emit, ret. simpl.
    eexists; eexists; (split; [reflexivity|]). auto.
  - exists (Returns None), []. rewrite app_nil_r. auto.
Qed.

Lemma stop_if_any_exact (monitor_resources : bool) names :
  ensures
    (stop_if_any env
       (if monitor_resources
        then Some {| ResourceMonitor.process_names := names;
                     ResourceMonitor.metrics := [];
                     ResourceMonitor.monitoring := true;
                     ResourceMonitor.monitor_thread := true |}
        else None))
    (fun o added =>
       o = Returns (sampled env monitor_resources names)
       /\ added = guard monitor_resources [ThreadJoin names]).
Proof.
  intro t. unfold sampled. destruct monitor_resources; simpl.
  - unfold bind, ResourceMonitor.stop_monitoring, bind, emit, ret. simpl.
    eexists; eexists; (split; [reflexivity|]). auto.
  - exists (Returns []), []. rewrite app_nil_r. auto.
Qed.


End RunFacts.

Section ComparisonFacts.

Variable env : Env.

Lemma prints_preflight lines :
  Forall (fun ev => preflight_event ev = true) (map Print lines).
Proof. apply Forall_map. apply Forall_forall. reflexivity. Qed.

Ltac printed :=
  eapply ensures_bind;
  [ apply print_ensures
  | intros [] ? (_ & ->)
  | intros ? ? (? & _); discriminate
  | intros ? (? & _); discriminate ].

Ltac printed_lines :=
  eapply ensures_bind;
  [ apply print_lines_ensures
  | intros [] ? (_ & ->)
  | intros ? ? (? & _); discriminate
  | intros ? (? & _); discriminate ].

Ltac returned L :=
  eapply ensures_bind;
  [ apply L
  | idtac
  | intros ? ? (? & _); discriminate
  | intros ? (? & _); discriminate ].

Ltac same_trace :=
  unfold loaded; rewrite <- ?app_assoc; cbn [app]; reflexivity.

(** A comparison that passed its preflight, service by service. *)
Lemma comparison_ensures rust_url python_url topic N max_workers
    monitor_resources :
  healthy env rust_url = true ->
  healthy env python_url = true ->
  ensures (run_comparison_benchmark env rust_url python_url topic N
                                    max_workers monitor_resources)
          (reported env rust_url python_url topic N max_workers
                    monitor_resources).
Proof.
  intros Hrust Hpython. unfold run_comparison_benchmark.
  printed_lines.
  returned (health_check_ensures env). intros rust_up a2 (E & H2).
  inversion E; subst rust_up; clear E. rewrite Hrust. simpl negb. cbv iota.
  returned (health_check_ensures env). intros python_up a3 (E & H3).
  inversion E; subst python_up; clear E. rewrite Hpython. simpl negb. cbv iota.
  printed. printed.
  returned (start_if_any_exact monitor_resources python_names).
  intros pm a6 (E & ->). inversion E; subst pm; clear E.
  set (preflight :=
         map Print (banner topic N max_workers monitor_resources)
         ++ a2 ++ a3
         ++ [Print (Text "Starting benchmarks...");
             Print (Text "Testing Python service...")]).
  assert (Hpre : Forall (fun ev => preflight_event ev = true) preflight).
  { unfold preflight.
    repeat (apply Forall_app; split);
      first [assumption | apply prints_preflight | repeat constructor]. }
  assert (Hfail : forall o added,
            dispatched env python_url topic N max_workers o added ->
            (forall r, o <> Returns r) ->
            forall o' : outcome unit,
              match o with
              | Returns _ => True
              | Raises e => o' = Raises e
              | Hangs => o' = Hangs
              end ->
              reported env rust_url python_url topic N max_workers
                       monitor_resources o'
                       (map Print (banner topic N max_workers monitor_resources)
                        ++ a2 ++ a3
                        ++ [Print (Text "Starting benchmarks...")]
                        ++ [Print (Text "Testing Python service...")]
                        ++ guard monitor_resources [ThreadStart python_names]
                        ++ added)).
  { intros o added (Ho & Hd & Hp) Hnot o' Ho'.
    exists preflight, added. split; [exact Hpre|].
    split; [split; [reflexivity | split; assumption]|].
    rewrite <- Ho.
    destruct o as [r|e|]; [exfalso; exact (Hnot r eq_refl) | |];
      (split; [exact Ho' | unfold preflight; same_trace]). }
  eapply ensures_bind; [apply (benchmark_ensures env) | |
    intros e added H; apply (Hfail _ _ H); [discriminate | reflexivity] |
    intros added H; apply (Hfail _ _ H); [discriminate | reflexivity]].
  clear Hfail.
  intros python_results a7 (Ho7 & Hd7 & Hp7).
  returned (stop_if_any_exact env monitor_resources python_names).
  intros python_metrics a8 (E & ->). inversion E; subst python_metrics; clear E.
  printed. printed.
  returned (start_if_any_exact monitor_resources rust_names).
  intros rm a11 (E & ->). inversion E; subst rm; clear E.
  set (between :=
         [Print (Completed "Python" (successful_requests python_results)
                           (total_requests python_results));
          Print (Text "Testing Rust service...")]).
  assert (Hfail : forall o added,
            dispatched env rust_url topic N max_workers o added ->
            (forall r, o <> Returns r) ->
            forall o' : outcome unit,
              match o with
              | Returns _ => True
              | Raises e => o' = Raises e
              | Hangs => o' = Hangs
              end ->
              reported env rust_url python_url topic N max_workers
                       monitor_resources o'
                       (map Print (banner topic N max_workers monitor_resources)
                        ++ a2 ++ a3
                        ++ [Print (Text "Starting benchmarks...")]
                        ++ [Print (Text "Testing Python service...")]
                        ++ guard monitor_resources [ThreadStart python_names]
                        ++ a7
                        ++ guard monitor_resources [ThreadJoin python_names]
                        ++ [Print (Completed "Python"
                                     (successful_requests python_results)
                                     (total_requests python_results))]
                        ++ [Print (Text "Testing Rust service...")]
                        ++ guard monitor_resources [ThreadStart rust_names]
                        ++ added)).
  { intros o added (Ho & Hd & Hp) Hnot o' Ho'.
    exists preflight, a7. split; [exact Hpre|].
    split; [split; [reflexivity | split; assumption]|].
    rewrite <- Ho7.
    exists between, added. split; [repeat constructor|].
    split; [split; [reflexivity | split; assumption]|].
    cbv zeta. rewrite <- Ho.
    destruct o as [r|e|]; [exfalso; exact (Hnot r eq_refl) | |];
      (split; [exact Ho' | unfold preflight, between; same_trace]). }
  eapply ensures_bind; [apply (benchmark_ensures env) | |
    intros e added H; apply (Hfail _ _ H); [discriminate | reflexivity] |
    intros added H; apply (Hfail _ _ H); [discriminate | reflexivity]].
  clear Hfail.
  intros rust_results a12 (Ho12 & Hd12 & Hp12).
  returned (stop_if_any_exact env monitor_resources rust_names).
  intros rust_metrics a13 (E & ->). inversion E; subst rust_metrics; clear E.
  printed.
  returned (print_results_exact rust_results python_results).
  intros [] a15 (_ & ->).
  returned (print_resources_prints monitor_resources
              (sampled env monitor_resources rust_names)
              (sampled env monitor_resources python_names)).
  intros [] a16 (_ & H16).
  printed_lines.
  returned (print_tasks_prints
              (sorted_union (Dict.keys (task_statistics rust_results))
                            (Dict.keys (task_statistics python_results)))
              rust_results python_results).
  intros [] a18 (_ & H18).
  cbv zeta.
  eapply ensures_weaken; [apply (save_ensures env)|].
  intros o tail Hsaved.
  exists preflight, a7. split; [exact Hpre|].
  split; [split; [reflexivity | split; assumption]|].
  rewrite <- Ho7.
  exists between, a12. split; [repeat constructor|].
  split; [split; [reflexivity | split; assumption]|].
  cbv zeta. rewrite <- Ho12.
  exists (Completed "Rust" (successful_requests rust_results)
                    (total_requests rust_results)).
  exists (a16
          ++ map Print [Text "Task Performance Breakdown:"; Text (times "-" 50)]
          ++ a18).
  exists tail.
  split.
  { repeat (apply Forall_app; split); auto.
    apply Forall_map. apply Forall_forall. reflexivity. }
  split; [unfold preflight, between; same_trace | exact Hsaved].
Qed.

(** A failed probe ends the run on the spot. *)
Lemma preflight_abort_ensures rust_url python_url topic N max_workers
    monitor_resources :
  healthy env rust_url = false \/ healthy env python_url = false ->
  ensures (run_comparison_benchmark env rust_url python_url topic N
                                    max_workers monitor_resources)
          (fun o added =>
             o = Returns tt
             /\ Forall (fun ev => preflight_event ev = true) added).
Proof.
  intros Hdown. unfold run_comparison_benchmark.
  printed_lines.
  returned (health_check_ensures env). intros rust_up a2 (E & H2).
  inversion E; subst rust_up; clear E.
  destruct (healthy env rust_url) eqn:Hrust; simpl negb; cbv iota.
  - returned (health_check_ensures env). intros python_up a3 (E & H3).
    inversion E; subst python_up; clear E.
    destruct Hdown as [Hdown|Hdown]; [discriminate|].
    rewrite Hdown. simpl negb. cbv iota.
    apply ensures_ret. split; [reflexivity|].
    rewrite app_nil_r.
    apply Forall_app; split; [apply prints_preflight|].
    apply Forall_app; auto.
  - apply ensures_ret. split; [reflexivity|].
    rewrite app_nil_r.
    apply Forall_app; split; [apply prints_preflight | assumption].
Qed.

Lemma dumped_app t1 t2 : dumped (t1 ++ t2) = dumped t1 ++ dumped t2.
Proof. unfold dumped. apply flat_map_app. Qed.

Lemma dumped_none trace :
  Forall (fun ev => file_event ev = false) trace -> dumped trace = [].
Proof.
  induction 1 as [|ev trace Hev _ IH]; simpl; auto.
  rewrite IH. destruct ev; simpl in *; congruence.
Qed.

Lemma file_after_app t1 t2 :
  Forall (fun ev => file_event ev = false) t1 ->
  file_after (t1 ++ t2) = file_after t2.
Proof.
  unfold file_after. rewrite fold_left_app. intro H.
  assert (G : forall state,
            fold_left (fun state ev => match ev with
                                       | FileOpen _ => Emptied
                                       | FilePartial _ doc => PartOf doc
                                       | FileDump _ doc => Holds doc
                                       | _ => state
                                       end) t1 state = state).
  { induction H as [|ev t1 Hev _ IH]; intro state; simpl; [reflexivity|].
    destruct ev; simpl in Hev; try discriminate; apply IH. }
  now rewrite G.
Qed.

Lemma metrics_json_samples ms : metrics_json ms = JList (map sample_json ms).
Proof. destruct ms; reflexivity. Qed.

(** What a dispatch returns is what [dispatch_outcome] holds. *)
Lemma returns_outcome url topic N max_workers r :
  returns env url topic N max_workers r
  <-> dispatch_outcome env url N max_workers = Returns r.
Proof.
  unfold returns, run.
  destruct (benchmark_exact env url topic N max_workers [])
    as (added & -> & _).
  reflexivity.
Qed.

(** A comparison whose two dispatches have returned: the table between
    two stretches that touch no file, and then the save. *)
Lemma reported_complete rust_url python_url topic N max_workers
    monitor_resources o added rust_results python_results :
  reported env rust_url python_url topic N max_workers monitor_resources
           o added ->
  dispatch_outcome env python_url N max_workers = Returns python_results ->
  dispatch_outcome env rust_url N max_workers = Returns rust_results ->
  exists before after tail,
    added = before
            ++ map Print (comparison_table rust_results python_results)
            ++ after ++ tail
    /\ Forall (fun ev => file_event ev = false) before
    /\ Forall (fun ev => file_event ev = false) after
    /\ saved env (document env topic N max_workers monitor_resources
                           rust_results python_results)
             o tail.
Proof.
  intros (preflight & python_load & Hpre & (_ & Hpl & _) & H) Hpy Hru.
  rewrite Hpy in H.
  destruct H as (between & rust_load & Hbetween & (_ & Hrl & _) & H).
  cbv zeta in H. rewrite Hru in H.
  destruct H as (line & rest & tail & Hrest & -> & Hsaved).
  exists (preflight
          ++ loaded monitor_resources python_names python_load
          ++ guard monitor_resources [ThreadJoin python_names]
          ++ between
          ++ loaded monitor_resources rust_names rust_load
          ++ guard monitor_resources [ThreadJoin rust_names]
          ++ [Print line]).
  exists rest, tail.
  split; [rewrite <- ?app_assoc; reflexivity|].
  split; [|split; [|exact Hsaved]].
  - repeat (apply Forall_app; split);
      first [ eapply Forall_impl; [apply preflight_not_file | eassumption]
            | eapply Forall_impl; [apply print_not_file | eassumption]
            | eapply Forall_impl; [apply dispatch_not_file | eassumption]
            | apply (proj1 (guard_not_file _ _))
            | apply (proj2 (guard_not_file _ _))
            | repeat constructor ].
  - eapply Forall_impl; [apply print_not_file | eassumption].
Qed.

(** A comparison that passed its preflight and returned has seen both
    dispatches return. *)
Lemma reported_returned rust_url python_url topic N max_workers
    monitor_resources added :
  reported env rust_url python_url topic N max_workers monitor_resources
           (Returns tt) added ->
  exists rust_results python_results,
    dispatch_outcome env python_url N max_workers = Returns python_results
    /\ dispatch_outcome env rust_url N max_workers = Returns rust_results.
Proof.
  intros (preflight & python_load & _ & _ & H).
  destruct (dispatch_outcome env python_url N max_workers)
    as [python_results|e|]; [|destruct H; discriminate..].
  destruct H as (between & rust_load & _ & _ & H). cbv zeta in H.
  destruct (dispatch_outcome env rust_url N max_workers)
    as [rust_results|e|]; [|destruct H; discriminate..].
  eauto.
Qed.

End ComparisonFacts.

(** ** The reporter's claims *)

(** C4.  When either preflight probe fails, the comparison returns at once:
    its whole trace consists of prints and health probes, so no request is
    dispatched, no monitor thread is started and no file is opened or
    written. *)
Theorem failed_preflight_aborts
    (env : Env) (rust_url python_url topic : string) (N max_workers : Z)
    (monitor_resources : bool) :
  healthy env rust_url = false \/ healthy env python_url = false ->
  exists trace,
    run (run_comparison_benchmark env rust_url python_url topic N max_workers
                                  monitor_resources)
    = (Returns tt, trace)
    /\ Forall (fun ev => preflight_event ev = true) trace
    /\ dumped trace = [].
Proof.
  intro Hdown.
  destruct (preflight_abort_ensures env rust_url python_url topic N max_workers
              monitor_resources Hdown []) as (o & added & E & -> & Hpre).
  exists added. split; [exact E|]. split; [assumption|].
  apply dumped_none.
  eapply Forall_impl; [apply preflight_not_file | eassumption].
Qed.

Lemma failed_preflight_aborts_witness :
  (healthy Worlds.python_down Worlds.rust_url = false
   \/ healthy Worlds.python_down Worlds.python_url = false)
  /\ exists trace,
       run (run_comparison_benchmark Worlds.python_down Worlds.rust_url
              Worlds.python_url Worlds.topic 10 5 true)
       = (Returns tt, trace)
       /\ Forall (fun ev => preflight_event ev = true) trace
       /\ dumped trace = [].
Proof.
  split; [right; reflexivity|].
  apply (failed_preflight_aborts Worlds.python_down Worlds.rust_url
           Worlds.python_url Worlds.topic 10 5 true).
  right; reflexivity.
Defined.

(** C5, as the claim states it, fails: with a results file that cannot be
    opened the run ends in the exception and hands nothing back. *)
Lemma write_failure_ends_in_exception :
  fst (Worlds.compare Worlds.disk_full) = Raises OSError
  /\ ~ (exists v, fst (Worlds.compare Worlds.disk_full) = Returns v).
Proof.
  assert (E : fst (Worlds.compare Worlds.disk_full) = Raises OSError)
    by (vm_compute; reflexivity).
  split; [exact E|].
  intros (v & Hv). rewrite E in Hv. discriminate.
Qed.

(** C5, amended.  When both dispatches have returned and saving fails, the
    exception reaches the caller and no report is handed back: the run ends
    in that exception, after the whole comparison table has been printed.
    The complete document is never written.  The file is left untouched
    when it cannot be opened; when the dump fails it has been emptied and
    holds at most a part of the document. *)
Theorem write_failure_is_raised_after_the_table
    (env : Env) (rust_url python_url topic : string) (N max_workers : Z)
    (monitor_resources : bool) (e : exn)
    (rust_results python_results : BenchmarkResults) :
  healthy env rust_url = true ->
  healthy env python_url = true ->
  returns env python_url topic N max_workers python_results ->
  returns env rust_url topic N max_workers rust_results ->
  write_error env = Some e ->
  exists before after,
    run (run_comparison_benchmark env rust_url python_url topic N max_workers
                                  monitor_resources)
    = (Raises e,
       before ++ map Print (comparison_table rust_results python_results)
       ++ after)
    /\ dispatch_result env rust_url N rust_results
    /\ dispatch_result env python_url N python_results
    /\ Forall (fun ev => file_event ev = false) before
    /\ dumped after = []
    /\ file_after after
       = match env_open env results_path with
         | Some _ => Untouched
         | None => PartOf (document env topic N max_workers monitor_resources
                                    rust_results python_results)
         end.
Proof.
  intros Hrust Hpython Hpy Hru Herr.
  apply returns_outcome in Hpy. apply returns_outcome in Hru.
  destruct (comparison_ensures env rust_url python_url topic N max_workers
              monitor_resources Hrust Hpython []) as (o & added & E & H).
  destruct (reported_complete env _ _ _ _ _ _ _ _ _ _ H Hpy Hru)
    as (before & after & tail & -> & Hbefore & Hafter & Hsaved).
  exists before, (after ++ tail).
  unfold saved in Hsaved. unfold write_error in Herr.
  assert (Ho : o = Raises e
               /\ dumped tail = []
               /\ file_after tail
                  = match env_open env results_path with
                    | Some _ => Untouched
                    | None => PartOf (document env topic N max_workers
                                               monitor_resources
                                               rust_results python_results)
                    end).
  { destruct (env_open env results_path) as [e1|].
    - destruct Hsaved as (-> & ->). inversion Herr; subst e1. auto.
    - destruct (env_dump env) as [e2|]; [|discriminate].
      destruct Hsaved as (-> & ->). inversion Herr; subst e2. auto. }
  destruct Ho as (-> & Hdumped & Hfile).
  split; [exact E|].
  split; [eapply returned_dispatch_result; exact Hru|].
  split; [eapply returned_dispatch_result; exact Hpy|].
  split; [exact Hbefore|].
  split.
  - rewrite dumped_app, (dumped_none after Hafter). exact Hdumped.
  - rewrite (file_after_app after tail Hafter). exact Hfile.
Qed.

(** A disk that fills up while the document is written. *)
Lemma write_failure_is_raised_after_the_table_witness :
  exists rust_results python_results before after,
    healthy Scenarios.dump_fails Worlds.rust_url = true
    /\ healthy Scenarios.dump_fails Worlds.python_url = true
    /\ returns Scenarios.dump_fails Worlds.python_url Worlds.topic 2 5
               python_results
    /\ returns Scenarios.dump_fails Worlds.rust_url Worlds.topic 2 5
               rust_results
    /\ write_error Scenarios.dump_fails = Some OSError
    /\ run (run_comparison_benchmark Scenarios.dump_fails Worlds.rust_url
              Worlds.python_url Worlds.topic 2 5 true)
       = (Raises OSError,
          before ++ map Print (comparison_table rust_results python_results)
          ++ after)
    /\ dumped after = []
    /\ file_after after
       = PartOf (document Scenarios.dump_fails Worlds.topic 2 5 true
                          rust_results python_results).
Proof.
  eexists; eexists.
  match goal with
  | |- exists before after, _ /\ _ /\ ?P /\ ?R /\ _ =>
      assert (Hpy : P) by (vm_compute; reflexivity);
      assert (Hru : R) by (vm_compute; reflexivity)
  end.
  destruct (write_failure_is_raised_after_the_table
              Scenarios.dump_fails Worlds.rust_url Worlds.python_url
              Worlds.topic 2 5 true OSError _ _
              eq_refl eq_refl Hpy Hru eq_refl)
    as (before & after & E & _ & _ & _ & Hdumped & Hfile).
  exists before, after.
  split; [reflexivity|]. split; [reflexivity|].
  split; [exact Hpy|]. split; [exact Hru|]. split; [reflexivity|].
  split; [exact E|]. split; [exact Hdumped | exact Hfile].
Defined.

(** C9, as the claim states it, fails: the document a completed comparison
    writes has no [config] field, and the only list inside a per-service
    block is the latency list. *)
Lemma artifact_has_no_config_field :
  match dumped (snd (Worlds.compare Worlds.healthy)) with
  | [doc] =>
      field "config" doc = None
      /\ object_keys doc
         = ["timestamp"; "benchmark_config"; "rust_results"; "python_results";
            "rust_resource_metrics"; "python_resource_metrics"]%string
      /\ match field "rust_results" doc with
         | Some block => list_fields block = ["raw_latencies"%string]
         | None => False
         end
  | _ => False
  end.
Proof. vm_compute. repeat split; reflexivity. Qed.

(** C9, amended.  A completed comparison writes exactly one document.  Its
    top-level fields are [timestamp], [benchmark_config] (holding [topic],
    [num_requests], [max_workers] and [monitor_resources]), the blocks
    [rust_results] and [python_results], each the full results dict of that
    dispatch with its [raw_latencies] list, and the lists
    [rust_resource_metrics] and [python_resource_metrics] of samples with
    fields [cpu_percent], [memory_mb] and [threads].  A comparison does
    complete when it has a permit, every body it takes in is well formed
    and the file can be written. *)
Theorem artifact_layout
    (env : Env) (rust_url python_url topic : string) (N max_workers : Z)
    (monitor_resources : bool) :
  healthy env rust_url = true ->
  healthy env python_url = true ->
  let comparison :=
    run (run_comparison_benchmark env rust_url python_url topic N max_workers
                                  monitor_resources) in
  (forall trace,
     comparison = (Returns tt, trace) ->
     exists rust_results python_results doc,
       dumped trace = [doc]
       /\ returns env rust_url topic N max_workers rust_results
       /\ returns env python_url topic N max_workers python_results
       /\ dispatch_result env rust_url N rust_results
       /\ dispatch_result env python_url N python_results
       /\ object_keys doc
          = ["timestamp"; "benchmark_config"; "rust_results"; "python_results";
             "rust_resource_metrics"; "python_resource_metrics"]%string
       /\ field "timestamp" doc = Some (JNum (env_timestamp env))
       /\ field "benchmark_config" doc
          = Some (JObj [("topic", JStr topic);
                        ("num_requests", JInt N);
                        ("max_workers", JInt max_workers);
                        ("monitor_resources", JBool monitor_resources)]%string)
       /\ field "rust_results" doc = Some (results_json rust_results)
       /\ field "python_results" doc = Some (results_json python_results)
       /\ field "raw_latencies" (results_json rust_results)
          = Some (JList (map JNum (raw_latencies rust_results)))
       /\ field "raw_latencies" (results_json python_results)
          = Some (JList (map JNum (raw_latencies python_results)))
       /\ field "rust_resource_metrics" doc
          = Some (JList (map sample_json
                             (sampled env monitor_resources rust_names)))
       /\ field "python_resource_metrics" doc
          = Some (JList (map sample_json
                             (sampled env monitor_resources python_names))))
  /\ ((0 < max_workers)%Z ->
      well_served env python_url N = true ->
      well_served env rust_url N = true ->
      write_error env = None ->
      exists trace, comparison = (Returns tt, trace)).
Proof.
  intros Hrust Hpython comparison. subst comparison. unfold run.
  destruct (comparison_ensures env rust_url python_url topic N max_workers
              monitor_resources Hrust Hpython []) as (o & added & E & H).
  simpl app in E. rewrite E. split.
  - intros trace Et. injection Et as -> <-.
    destruct (reported_returned env _ _ _ _ _ _ _ H)
      as (rust_results & python_results & Hpy & Hru).
    destruct (reported_complete env _ _ _ _ _ _ _ _ _ _ H Hpy Hru)
      as (before & after & tail & -> & Hbefore & Hafter & Hsaved).
    unfold saved in Hsaved.
    destruct (env_open env results_path) as [e1|];
      [destruct Hsaved; discriminate|].
    destruct (env_dump env) as [e2|]; [destruct Hsaved; discriminate|].
    destruct Hsaved as (_ & ->).
    exists rust_results, python_results. eexists.
    split.
    { rewrite !dumped_app, (dumped_none before Hbefore),
        (dumped_none after Hafter).
      rewrite (dumped_none (map Print _)).
      - reflexivity.
      - apply Forall_map. apply Forall_forall. reflexivity. }
    split; [now apply returns_outcome|].
    split; [now apply returns_outcome|].
    split; [eapply returned_dispatch_result; exact Hru|].
    split; [eapply returned_dispatch_result; exact Hpy|].
    split; [reflexivity|]. split; [reflexivity|]. split; [reflexivity|].
    split; [reflexivity|]. split; [reflexivity|]. split; [reflexivity|].
    split; [reflexivity|].
    split; simpl; now rewrite metrics_json_samples.
  - intros Hw Hpy Hru Herr.
    pose proof (well_served_outcome env python_url N max_workers Hw) as Hp.
    rewrite Hpy in Hp. destruct Hp as (python_results & Hp).
    pose proof (well_served_outcome env rust_url N max_workers Hw) as Hr.
    rewrite Hru in Hr. destruct Hr as (rust_results & Hr).
    destruct (reported_complete env _ _ _ _ _ _ _ _ _ _ H Hp Hr)
      as (before & after & tail & -> & _ & _ & Hsaved).
    unfold saved in Hsaved. unfold write_error in Herr.
    destruct (env_open env results_path) as [e1|]; [discriminate|].
    rewrite Herr in Hsaved. destruct Hsaved as (-> & _).
    eauto.
Qed.

Lemma artifact_layout_witness :
  healthy Worlds.healthy Worlds.rust_url = true
  /\ healthy Worlds.healthy Worlds.python_url = true
  /\ exists trace rust_results python_results doc,
       run (run_comparison_benchmark Worlds.healthy Worlds.rust_url
              Worlds.python_url Worlds.topic 2 5 true)
       = (Returns tt, trace)
       /\ dumped trace = [doc]
       /\ object_keys doc
          = ["timestamp"; "benchmark_config"; "rust_results"; "python_results";
             "rust_resource_metrics"; "python_resource_metrics"]%string
       /\ field "rust_results" doc = Some (results_json rust_results)
       /\ field "python_results" doc = Some (results_json python_results)
       /\ field "rust_resource_metrics" doc
          = Some (JList (map sample_json
                             (sampled Worlds.healthy true rust_names)))
       /\ field "python_resource_metrics" doc
          = Some (JList (map sample_json
                             (sampled Worlds.healthy true python_names))).
Proof.
  split; [reflexivity|]. split; [reflexivity|].
  destruct (artifact_layout Worlds.healthy Worlds.rust_url Worlds.python_url
              Worlds.topic 2 5 true eq_refl eq_refl) as (Hlayout & Hreturns).
  destruct (Hreturns ltac:(lia) eq_refl eq_refl eq_refl) as (trace & E).
  destruct (Hlayout trace E)
    as (rust_results & python_results & doc & Hdoc & _ & _ & _ & _ & Hkeys
        & _ & _ & Hrust & Hpython & _ & _ & Hrm & Hpm).
  exists trace, rust_results, python_results, doc.
  repeat (split; [assumption|]). assumption.
Defined.

(** ** The ratio claim *)




(** ** The percentile claim *)

(** With enough data the clamp of [cut_point] is idle. *)
Lemma cut_point_interpolated values n i :
  (0 < i < n)%Z -> (n <= Py.len values)%Z ->
  Statistics.cut_point (Py.sorted values) (Py.len values) n i
  = interpolated n i values.
Proof.
  intros Hi Hn. unfold Statistics.cut_point, interpolated.
  set (ld := Py.len values) in *.
  assert (Hlo : (1 <= i * (ld + 1) / n)%Z).
  { apply Z.div_le_lower_bound; nia. }
  assert (Hhi : (i * (ld + 1) / n <= ld - 1)%Z).
  { apply Z.lt_succ_r. apply Z.div_lt_upper_bound; nia. }
  destruct (Z.ltb_spec (i * (ld + 1) / n) 1); [lia|].
  destruct (Z.gtb_spec (i * (ld + 1) / n) (ld - 1)); [lia|].
  rewrite (Z.mod_eq (i * (ld + 1)) n) by lia.
  replace (i * (ld + 1) - i * (ld + 1) / n * n)%Z
    with (i * (ld + 1) - n * (i * (ld + 1) / n))%Z by ring.
  reflexivity.
Qed.

(** C2, as the claim states it, fails: for the 150 values [1..150] the
    nearest-rank element is 149, but the reported p99 is the interpolated
    149.49. *)
Lemma p99_of_150_values_is_not_149 :
  nearest_rank 99 100 (upto 150) == 149
  /\ exists r,
       summarize "http://localhost:3000" 150
                 {| latencies := upto 150; error_count := 0; responses := [] |}
                 2
       = Ok r
       /\ p99_latency_ms r == 14949 # 100
       /\ ~ p99_latency_ms r == 149.
Proof.
  split; [vm_compute; reflexivity|].
  eexists. split; [vm_compute; reflexivity|].
  split; vm_compute; [reflexivity | discriminate].
Qed.

(** C2, amended.  For a non-empty list of [N] values, p95 is entry 18 of
    [statistics.quantiles(values, n=20)], the linear interpolation between
    the sorted values of rank [19(N+1)/20] and the next one, when [N > 20],
    and [max(values)] when [N <= 20]; p99 is likewise the interpolation at
    [99(N+1)/100] when [N > 100] and [max(values)] when [N <= 100]. *)
Theorem percentile_rule (values : list Q) :
  values <> [] ->
  ((20 < Py.len values)%Z ->
   percentile95 values = Ok (interpolated 20 19 values))
  /\ ((Py.len values <= 20)%Z -> percentile95 values = Py.max values)
  /\ ((100 < Py.len values)%Z ->
      percentile99 values = Ok (interpolated 100 99 values))
  /\ ((Py.len values <= 100)%Z -> percentile99 values = Py.max values).
Proof.
  intro Hne. apply truthy_nonempty in Hne.
  unfold percentile95, percentile99.
  repeat split; intro H.
  - destruct (Z.gtb_spec (Py.len values) 20); [|lia].
    change 18%nat with (Z.to_nat (19 - 1)).
    rewrite quantiles_getitem by lia.
    now rewrite cut_point_interpolated by lia.
  - destruct (Z.gtb_spec (Py.len values) 20); [lia|].
    now rewrite Hne.
  - destruct (Z.gtb_spec (Py.len values) 100); [|lia].
    change 98%nat with (Z.to_nat (99 - 1)).
    rewrite quantiles_getitem by lia.
    now rewrite cut_point_interpolated by lia.
  - destruct (Z.gtb_spec (Py.len values) 100); [lia|].
    now rewrite Hne.
Qed.

Lemma percentile_rule_witness :
  upto 150 <> []
  /\ (((20 < Py.len (upto 150))%Z ->
       percentile95 (upto 150) = Ok (interpolated 20 19 (upto 150)))
      /\ ((Py.len (upto 150) <= 20)%Z ->
          percentile95 (upto 150) = Py.max (upto 150))
      /\ ((100 < Py.len (upto 150))%Z ->
          percentile99 (upto 150) = Ok (interpolated 100 99 (upto 150)))
      /\ ((Py.len (upto 150) <= 100)%Z ->
          percentile99 (upto 150) = Py.max (upto 150)))
  /\ (100 < Py.len (upto 150))%Z
  /\ interpolated 100 99 (upto 150) == 14949 # 100.
Proof.
  split; [vm_compute; discriminate|].
  split; [apply (percentile_rule (upto 150)); vm_compute; discriminate|].
  split; vm_compute; reflexivity.
Defined.

(** The two instances the specification names: 100 values fall back to the
    maximum, 150 values are interpolated. *)
Example p99_of_100_values :
  percentile99 (upto 100) = Ok 100.
Proof. vm_compute. reflexivity. Qed.

Example p99_of_150_values :
  exists q, percentile99 (upto 150) = Ok q /\ q == 14949 # 100.
Proof. eexists. split; [vm_compute; reflexivity|]. vm_compute. reflexivity. Qed.

(** The median instances the specification names. *)
Example median_of_four : exists q, Statistics.median [10; 20; 30; 40] = Ok q /\ q == 25.
Proof. eexists. split; [vm_compute; reflexivity|]. vm_compute. reflexivity. Qed.

Example median_of_three : Statistics.median [10; 20; 30] = Ok 20.
Proof. vm_compute. reflexivity. Qed.

(** * Further properties *)



(** X2.  With at least one permit a dispatch of [N] requests sends exactly
    [N] POSTs, all to [url/research], request [i] carrying the topic
    followed by [" (request i)"], for [i = 1 .. N] in this order, whether
    or not earlier attempts failed. *)
Theorem dispatch_posts_each_request_once
    (env : Env) (url topic : string) (N max_workers : Z) :
  (0 < max_workers)%Z ->
  let trace :=
    snd (run (benchmark_service_threaded env url topic N max_workers)) in
  posts trace
  = map (fun s => ((url ++ "/research")%string, payload topic s)) (sessions N)
  /\ List.length (posts trace) = Z.to_nat N.
Proof.
  intros Hw trace.
  destruct (benchmark_exact env url topic N max_workers [])
    as (added & E & _ & Hposts).
  assert (Ht : posts trace
               = map (fun s => ((url ++ "/research")%string, payload topic s))
                     (sessions N)).
  { unfold trace, run. rewrite E. simpl. exact (Hposts Hw). }
  split; [exact Ht|].
  rewrite Ht, length_map. apply sessions_length.
Qed.

Lemma dispatch_posts_each_request_once_witness :
  (0 < 2)%Z /\
  posts (snd (run (benchmark_service_threaded Scenarios.mixed "http://a" "ai" 3 2)))
  = [("http://a/research", "ai (request 1)");
     ("http://a/research", "ai (request 2)");
     ("http://a/research", "ai (request 3)")]%string.
Proof.
  split; [lia|].
  exact (proj1 (dispatch_posts_each_request_once
                  Scenarios.mixed "http://a" "ai" 3 2 ltac:(lia))).
Defined.

(** X3.  No two requests of a dispatch carry the same topic: the request
    number is part of the payload. *)
Theorem dispatch_payloads_are_distinct
    (env : Env) (url topic : string) (N max_workers : Z) :
  (0 < max_workers)%Z ->
  NoDup (map snd
             (posts (snd (run (benchmark_service_threaded
                                 env url topic N max_workers))))).
Proof.
  intro Hw.
  destruct (benchmark_exact env url topic N max_workers [])
    as (added & E & _ & Hposts).
  unfold run. rewrite E. simpl. rewrite (Hposts Hw), map_map. simpl.
  apply Injective_map_NoDup; [|apply sessions_NoDup].
  intros a b. apply payload_inj.
Qed.

Lemma dispatch_payloads_are_distinct_witness :
  (0 < 5)%Z /\
  NoDup (map snd
             (posts (snd (run (benchmark_service_threaded
                                 Worlds.healthy Worlds.rust_url Worlds.topic
                                 12 5))))).
Proof.
  split; [lia|].
  apply (dispatch_payloads_are_distinct
           Worlds.healthy Worlds.rust_url Worlds.topic 12 5). lia.
Defined.

(** X4.  Without a permit nothing is sent: a negative [max_workers] makes
    the dispatch raise [ValueError] when the semaphore is built, and with
    [max_workers = 0] a dispatch of at least one request waits for ever. *)
Theorem dispatch_without_permits
    (env : Env) (url topic : string) (N max_workers : Z) :
  let ending := run (benchmark_service_threaded env url topic N max_workers) in
  ((max_workers < 0)%Z ->
   ending = (Raises ValueError, [starting_line N max_workers]))
  /\ (max_workers = 0%Z -> (0 < N)%Z ->
      ending = (Hangs, [starting_line N max_workers])).
Proof.
  intro ending. subst ending.
  unfold run, benchmark_service_threaded, print, emit, Semaphore.
  split.
  - intro Hneg. unfold bind at 1. unfold bind at 1.
    destruct (Z.ltb_spec max_workers 0); [reflexivity | lia].
  - intros -> HN. unfold bind at 1. unfold bind at 1. simpl (0 <? 0)%Z.
    unfold ret at 1. unfold bind at 1.
    pose proof (length_range 0 N) as Hlen.
    destruct (Py.range 0 N) as [|i rest].
    + simpl in Hlen. lia.
    + simpl. unfold bind. reflexivity.
Qed.

Lemma dispatch_without_permits_witness :
  (run (benchmark_service_threaded Worlds.healthy Worlds.rust_url Worlds.topic
                                   3 (-1))
   = (Raises ValueError, [starting_line 3 (-1)]))
  /\ (run (benchmark_service_threaded Worlds.healthy Worlds.rust_url Worlds.topic
                                      3 0)
      = (Hangs, [starting_line 3 0])).
Proof.
  split.
  - apply (proj1 (dispatch_without_permits
                    Worlds.healthy Worlds.rust_url Worlds.topic 3 (-1))). lia.
  - apply (proj2 (dispatch_without_permits
                    Worlds.healthy Worlds.rust_url Worlds.topic 3 0)); lia.
Defined.

(** X5.  A dispatch of no requests ([N <= 0], any non-negative number of
    permits) sends nothing and returns a dict of zeros: no success, no
    error, an error rate of 0 by the guard on [num_requests], no latencies
    and no phase statistics. *)
Theorem dispatch_of_no_requests
    (env : Env) (url topic : string) (N max_workers : Z) :
  (0 <= max_workers)%Z -> (N <= 0)%Z ->
  exists r,
    run (benchmark_service_threaded env url topic N max_workers)
    = (Returns r, [starting_line N max_workers])
    /\ total_requests r = N
    /\ successful_requests r = 0%Z
    /\ errors r = 0%Z
    /\ error_rate r = 0
    /\ throughput_rps r == 0
    /\ raw_latencies r = []
    /\ task_statistics r = []
    /\ zero_statistics r.
Proof.
  intros Hw HN.
  destruct (summarize_ok url N (process_results []) (wall_time env url)
                         eq_refl)
    as (r & Hr).
  exists r. split.
  - unfold run, benchmark_service_threaded, print, emit, Semaphore.
    destruct (Z.ltb_spec max_workers 0); [lia|].
    rewrite (range_empty 0 N) by lia.
    cbn [map gather]. unfold bind, ret. cbn [app].
    fold (wall_time env url). rewrite Hr.
    reflexivity.
  - apply summarize_fields in Hr.
    destruct Hr as (_ & Htot & Hsucc & Herr & Hrate & _ & Hthr & Havg & Hp50
                    & Hp95 & Hp99 & Hmax & Hmin & Htask & Hraw).
    unfold percentile95, percentile99 in *. simpl in *.
    destruct (Z.gtb_spec N 0); [lia|].
    split; [assumption|]. split; [assumption|]. split; [assumption|].
    split; [assumption|].
    split.
    { rewrite Hthr. destruct (Py.Qltb 0 (wall_time env url)); [|reflexivity].
      unfold Qdiv, Qeq. simpl. reflexivity. }
    split; [assumption|]. split; [congruence|].
    unfold zero_statistics. repeat split; congruence.
Qed.

Lemma dispatch_of_no_requests_witness :
  (0 <= 5)%Z /\ (0 <= 0)%Z /\
  exists r,
    run (benchmark_service_threaded Worlds.healthy Worlds.rust_url
                                    Worlds.topic 0 5)
    = (Returns r, [starting_line 0 5])
    /\ total_requests r = 0%Z
    /\ successful_requests r = 0%Z
    /\ errors r = 0%Z
    /\ error_rate r = 0
    /\ throughput_rps r == 0
    /\ raw_latencies r = []
    /\ task_statistics r = []
    /\ zero_statistics r.
Proof.
  split; [lia|]. split; [lia|].
  apply (dispatch_of_no_requests Worlds.healthy Worlds.rust_url Worlds.topic
                                 0 5); lia.
Defined.

(** ** Order between the statistics *)

Section BoundFacts.

Import Py.

Lemma fold_max_spec l : forall x,
  let m := fold_left (fun m y => if Qltb m y then y else m) l x in
  In m (x :: l) /\ forall y, In y (x :: l) -> y <= m.
Proof.
  induction l as [|z l IH]; intro x; cbn [fold_left].
  - split; [left; reflexivity|].
    intros y [<-|[]]. apply Qle_refl.
  - destruct (Qltb x z) eqn:E.
    + destruct (IH z) as (Hin & Hub). split.
      * destruct Hin as [<-|Hin]; [right; left; reflexivity | right; right; exact Hin].
      * intros y [<-|Hy]; [|apply Hub; exact Hy].
        apply Qltb_true in E. apply Qlt_le_weak in E.
        eapply Qle_trans; [exact E|]. apply Hub. left; reflexivity.
    + destruct (IH x) as (Hin & Hub). split.
      * destruct Hin as [<-|Hin]; [left; reflexivity | right; right; exact Hin].
      * intros y [<-|[<-|Hy]].
        -- apply Hub. left; reflexivity.
        -- apply Qltb_false in E.
           eapply Qle_trans; [exact E|]. apply Hub. left; reflexivity.
        -- apply Hub. right; exact Hy.
Qed.

Lemma fold_min_spec l : forall x,
  let m := fold_left (fun m y => if Qltb y m then y else m) l x in
  In m (x :: l) /\ forall y, In y (x :: l) -> m <= y.
Proof.
  induction l as [|z l IH]; intro x; cbn [fold_left].
  - split; [left; reflexivity|].
    intros y [<-|[]]. apply Qle_refl.
  - destruct (Qltb z x) eqn:E.
    + destruct (IH z) as (Hin & Hlb). split.
      * destruct Hin as [<-|Hin]; [right; left; reflexivity | right; right; exact Hin].
      * intros y [<-|Hy]; [|apply Hlb; exact Hy].
        apply Qltb_true in E. apply Qlt_le_weak in E.
        eapply Qle_trans; [|exact E]. apply Hlb. left; reflexivity.
    + destruct (IH x) as (Hin & Hlb). split.
      * destruct Hin as [<-|Hin]; [left; reflexivity | right; right; exact Hin].
      * intros y [<-|[<-|Hy]].
        -- apply Hlb. left; reflexivity.
        -- apply Qltb_false in E.
           eapply Qle_trans; [|exact E]. apply Hlb. left; reflexivity.
        -- apply Hlb. right; exact Hy.
Qed.

(** [max] and [min] pick an element and bound the list. *)
Lemma max_spec l m : max l = Ok m -> In m l /\ forall y, In y l -> y <= m.
Proof.
  destruct l as [|x l]; [discriminate|]. simpl. intro H; inversion H; subst.
  apply fold_max_spec.
Qed.

Lemma min_spec l m : min l = Ok m -> In m l /\ forall y, In y l -> m <= y.
Proof.
  destruct l as [|x l]; [discriminate|]. simpl. intro H; inversion H; subst.
  apply fold_min_spec.
Qed.

Lemma min_max_bounded l lo hi : min l = Ok lo -> max l = Ok hi -> bounded lo hi l.
Proof.
  intros Hlo Hhi x Hx.
  split; [apply (min_spec _ _ Hlo) | apply (max_spec _ _ Hhi)]; exact Hx.
Qed.

Lemma in_insert_sorted x y l : In y (insert_sorted x l) <-> y = x \/ In y l.
Proof.
  induction l as [|z l IH]; simpl.
  - intuition.
  - destruct (Qltb x z); simpl; [intuition|].
    rewrite IH. intuition.
Qed.

Lemma in_sorted_from l : forall acc y,
  In y (fold_left (fun acc x => insert_sorted x acc) l acc) <-> In y l \/ In y acc.
Proof.
  induction l as [|x l IH]; intros acc y; simpl.
  - intuition.
  - rewrite IH, in_insert_sorted. intuition.
Qed.

(** Sorting keeps the elements. *)
Lemma in_sorted l y : In y (sorted l) <-> In y l.
Proof. unfold sorted. rewrite in_sorted_from. simpl. intuition. Qed.

Lemma sorted_bounded lo hi l : bounded lo hi l -> bounded lo hi (sorted l).
Proof. intros H x Hx. apply H. now apply in_sorted. Qed.

Lemma nth_bounded lo hi l k :
  bounded lo hi l -> (k < List.length l)%nat -> lo <= nth k l 0 <= hi.
Proof. intros H Hk. apply H. now apply nth_In. Qed.

Lemma sum_bounded lo hi l :
  bounded lo hi l ->
  lo * inject_Z (len l) <= sum l <= hi * inject_Z (len l).
Proof.
  unfold len. induction l as [|x l IH]; intro H.
  - cbn [List.length sum]. change (inject_Z (Z.of_nat 0)) with 0. lra.
  - assert (Hx : lo <= x <= hi) by (apply H; left; reflexivity).
    assert (Hl : bounded lo hi l) by (intros y Hy; apply H; right; exact Hy).
    specialize (IH Hl).
    replace (Z.of_nat (List.length (x :: l)))
      with (1 + Z.of_nat (List.length l))%Z by (simpl List.length; lia).
    rewrite inject_Z_plus. simpl sum.
    change (inject_Z 1) with 1. lra.
Qed.

Lemma len_positive {A} (l : list A) : l <> [] -> 0 < inject_Z (len l).
Proof.
  intro H. unfold len. destruct l; [congruence|].
  change 0 with (inject_Z 0). rewrite <- Zlt_Qlt. simpl List.length. lia.
Qed.

Lemma mean_bounded lo hi l q :
  bounded lo hi l -> Statistics.mean l = Ok q -> lo <= q <= hi.
Proof.
  intros Hb Hq.
  destruct l as [|x l]; [discriminate|].
  rewrite mean_ok in Hq by discriminate. inversion Hq; subst q; clear Hq.
  pose proof (sum_bounded lo hi _ Hb) as (H1 & H2).
  pose proof (len_positive (x :: l) ltac:(discriminate)) as Hpos.
  split.
  - apply Qle_shift_div_l; assumption.
  - apply Qle_shift_div_r; assumption.
Qed.

Lemma median_bounded lo hi l q :
  bounded lo hi l -> Statistics.median l = Ok q -> lo <= q <= hi.
Proof.
  intros Hb. unfold Statistics.median.
  pose proof (length_sorted l) as Hlen.
  apply sorted_bounded in Hb.
  destruct (List.length (sorted l)) as [|n] eqn:En; [discriminate|].
  rewrite <- En.
  assert (Hhalf : (List.length (sorted l) / 2 < List.length (sorted l))%nat).
  { apply Nat.div_lt; lia. }
  destruct (Nat.odd (List.length (sorted l))); intro H; injection H as <-;
    change (fst (Nat.divmod (List.length (sorted l)) 1 0 1))
      with (List.length (sorted l) / 2)%nat.
  - apply nth_bounded; assumption.
  - pose proof (nth_bounded lo hi (sorted l)
                  (List.length (sorted l) / 2 - 1) Hb ltac:(lia)) as (A1 & A2).
    pose proof (nth_bounded lo hi (sorted l)
                  (List.length (sorted l) / 2) Hb Hhalf) as (B1 & B2).
    split.
    + apply Qle_shift_div_l; lra.
    + apply Qle_shift_div_r; lra.
Qed.

End BoundFacts.

(** X6.  In every returned dict with at least one success,
    [min_latency_ms] and [max_latency_ms] are recorded latencies with all
    the others between them, the average and the median lie between them
    too, and with at most 20 successes p95, with at most 100 successes p99,
    is the maximum itself. *)
Theorem latency_statistics_lie_between_min_and_max
    (env : Env) (url topic : string) (N max_workers : Z)
    (t t' : list Event) (r : BenchmarkResults) :
  benchmark_service_threaded env url topic N max_workers t = (Returns r, t') ->
  (0 < successful_requests r)%Z ->
  In (min_latency_ms r) (raw_latencies r)
  /\ In (max_latency_ms r) (raw_latencies r)
  /\ bounded (min_latency_ms r) (max_latency_ms r) (raw_latencies r)
  /\ min_latency_ms r <= avg_latency_ms r <= max_latency_ms r
  /\ min_latency_ms r <= p50_latency_ms r <= max_latency_ms r
  /\ ((successful_requests r <= 20)%Z -> p95_latency_ms r = max_latency_ms r)
  /\ ((successful_requests r <= 100)%Z -> p99_latency_ms r = max_latency_ms r).
Proof.
  intros E Hpos.
  destruct (benchmark_returns _ _ _ _ _ _ _ _ E) as (Hs & _).
  destruct Hs as (_ & _ & Hsucc & _ & _ & _ & _ & Havg & Hp50 & Hp95 & Hp99
                  & Hmax & Hmin & _ & Hraw).
  rewrite Hraw. rewrite Hsucc in *.
  set (l := latencies (dispatch_tally env url N)) in *.
  assert (Hne : l <> []).
  { intro Hnil. rewrite Hnil in Hpos. unfold Py.len in Hpos. simpl in Hpos. lia. }
  pose proof Hne as Htr. apply truthy_nonempty in Htr.
  rewrite Htr in *.
  pose proof (min_max_bounded _ _ _ Hmin Hmax) as Hb.
  split; [now apply min_spec|]. split; [now apply max_spec|].
  split; [exact Hb|].
  split; [exact (mean_bounded _ _ _ _ Hb Havg)|].
  split; [exact (median_bounded _ _ _ _ Hb Hp50)|].
  split; intro Hfew.
  - unfold percentile95 in Hp95.
    destruct (Z.gtb_spec (Py.len l) 20); [lia|].
    rewrite Htr, Hmax in Hp95. congruence.
  - unfold percentile99 in Hp99.
    destruct (Z.gtb_spec (Py.len l) 100); [lia|].
    rewrite Htr, Hmax in Hp99. congruence.
Qed.

Lemma latency_statistics_lie_between_min_and_max_witness :
  exists r t',
    benchmark_service_threaded Scenarios.mixed Worlds.rust_url Worlds.topic 6 2 []
    = (Returns r, t')
    /\ (0 < successful_requests r)%Z
    /\ In (min_latency_ms r) (raw_latencies r)
    /\ In (max_latency_ms r) (raw_latencies r)
    /\ bounded (min_latency_ms r) (max_latency_ms r) (raw_latencies r)
    /\ min_latency_ms r <= avg_latency_ms r <= max_latency_ms r
    /\ min_latency_ms r <= p50_latency_ms r <= max_latency_ms r
    /\ ((successful_requests r <= 20)%Z -> p95_latency_ms r = max_latency_ms r)
    /\ ((successful_requests r <= 100)%Z -> p99_latency_ms r = max_latency_ms r).
Proof.
  eexists; eexists. split; [vm_compute; reflexivity|].
  split; [reflexivity|].
  eapply (latency_statistics_lie_between_min_and_max
            Scenarios.mixed Worlds.rust_url Worlds.topic 6 2 []).
  - vm_compute. reflexivity.
  - reflexivity.
Defined.

(** ** The error rate *)

Lemma error_count_nonneg results : forall acc,
  (0 <= error_count acc)%Z ->
  (0 <= error_count (fold_left process_result results acc))%Z.
Proof.
  induction results as [|r results IH]; intros acc H; simpl; [assumption|].
  apply IH. destruct r as [[x|]|e]; simpl; lia.
Qed.

(** X7.  In every dict returned for [N > 0] requests the error rate is
    [errors / N], it lies between 0 and 1, and together with the share of
    successes it makes 1. *)
Theorem error_rate_is_the_share_of_errors
    (env : Env) (url topic : string) (N max_workers : Z)
    (t t' : list Event) (r : BenchmarkResults) :
  benchmark_service_threaded env url topic N max_workers t = (Returns r, t') ->
  (0 < N)%Z ->
  error_rate r == inject_Z (errors r) / inject_Z N
  /\ 0 <= error_rate r <= 1
  /\ error_rate r + inject_Z (successful_requests r) / inject_Z N == 1.
Proof.
  intros E HN.
  destruct (benchmark_returns _ _ _ _ _ _ _ _ E) as (Hs & _).
  destruct Hs as (_ & _ & Hsucc & Herr & Hrate & _).
  pose proof (dispatch_tally_len env url N) as Hsum.
  rewrite Z.max_r in Hsum by lia.
  assert (Hnn : (0 <= error_count (dispatch_tally env url N))%Z).
  { unfold dispatch_tally, process_results.
    apply error_count_nonneg. simpl. lia. }
  destruct (Z.gtb_spec N 0); [|lia].
  rewrite Hrate, Hsucc, Herr.
  set (e := error_count (dispatch_tally env url N)) in *.
  set (s := Py.len (latencies (dispatch_tally env url N))) in *.
  assert (Hs0 : (0 <= s)%Z) by (unfold s, Py.len; lia).
  assert (HNq : 0 < inject_Z N).
  { change 0 with (inject_Z 0). rewrite <- Zlt_Qlt. lia. }
  assert (Heq : inject_Z e + inject_Z s == inject_Z N).
  { rewrite <- inject_Z_plus. apply inject_Z_injective. lia. }
  assert (He0 : 0 <= inject_Z e).
  { change 0 with (inject_Z 0). rewrite <- Zle_Qle. lia. }
  assert (Hs0q : 0 <= inject_Z s).
  { change 0 with (inject_Z 0). rewrite <- Zle_Qle. lia. }
  split; [reflexivity|]. split; [split|].
  - apply Qle_shift_div_l; [assumption|]. lra.
  - apply Qle_shift_div_r; [assumption|]. lra.
  - field_simplify_eq; [lra|]. intro H0. rewrite H0 in HNq.
    exact (Qlt_irrefl 0 HNq).
Qed.

Lemma error_rate_is_the_share_of_errors_witness :
  exists r t',
    benchmark_service_threaded Scenarios.mixed Worlds.rust_url Worlds.topic 6 2 []
    = (Returns r, t')
    /\ (0 < 6)%Z
    /\ error_rate r == inject_Z (errors r) / inject_Z 6
    /\ 0 <= error_rate r <= 1
    /\ error_rate r + inject_Z (successful_requests r) / inject_Z 6 == 1.
Proof.
  eexists; eexists. split; [vm_compute; reflexivity|].
  split; [lia|].
  eapply (error_rate_is_the_share_of_errors
            Scenarios.mixed Worlds.rust_url Worlds.topic 6 2 []).
  - vm_compute. reflexivity.
  - lia.
Defined.

(** ** Phase statistics *)

Section PhaseFacts.

(** Looking a key up after [append_to]. *)
Lemma get_append_to {V} key (x : V) d k :
  Dict.get (Dict.append_to key x d) k
  = if String.eqb key k
    then Some (match Dict.get d k with
               | Some v => v ++ [x]
               | None => [x]
               end)
    else Dict.get d k.
Proof.
  induction d as [|[k0 v0] d IH]; simpl.
  - destruct (String.eqb_spec key k); reflexivity.
  - destruct (String.eqb_spec k0 key) as [->|Hk0]; simpl.
    + destruct (String.eqb_spec key k); reflexivity.
    + destruct (String.eqb_spec k0 k) as [->|Hk].
      * destruct (String.eqb_spec key k); [congruence | reflexivity].
      * exact IH.
Qed.

Lemma filed_app {V} (found : option (list V)) a b :
  filed (filed found a) b = filed found (a ++ b).
Proof.
  destruct found as [v|]; destruct a as [|x a]; destruct b as [|y b];
    simpl; rewrite ?app_nil_r, <- ?app_assoc; reflexivity.
Qed.

Lemma get_items {V} task (items : list (string * V)) : forall acc,
  Dict.get (fold_left (fun acc item => Dict.append_to (fst item) (snd item) acc)
                      items acc) task
  = filed (Dict.get acc task)
          (map snd (filter (fun item => String.eqb (fst item) task) items)).
Proof.
  induction items as [|[k x] items IH]; intro acc; simpl.
  - destruct (Dict.get acc task); simpl; rewrite ?app_nil_r; reflexivity.
  - rewrite IH, get_append_to. simpl.
    destruct (String.eqb k task); simpl.
    + destruct (Dict.get acc task); simpl; rewrite <- ?app_assoc; reflexivity.
    + reflexivity.
Qed.

Lemma get_collected task responses : forall acc task_times,
  collect_from responses acc = Ok task_times ->
  Dict.get task_times task
  = filed (Dict.get acc task) (reports task responses).
Proof.
  induction responses as [|r responses IH]; intros acc task_times H;
    simpl in H.
  - injection H as <-.
    destruct (Dict.get acc task); simpl; rewrite ?app_nil_r; reflexivity.
  - unfold reports. cbn [flat_map]. fold (reports task responses).
    unfold entries.
    destruct (task_items r) as [items|]; simpl in H; [|discriminate].
    rewrite (IH _ _ H), get_items, filed_app. reflexivity.
Qed.

(** What was collected for a phase, by lookup. *)
Lemma get_collect_task_times task responses task_times :
  collect_task_times responses = Ok task_times ->
  Dict.get task_times task
  = match reports task responses with
    | [] => None
    | values => Some values
    end.
Proof.
  intro H. unfold collect_task_times in H.
  rewrite (get_collected task _ _ _ H). simpl.
  destruct (reports task responses); reflexivity.
Qed.

(** [task_stats] keeps the keys and summarises the numbers of each list. *)
Lemma get_task_stats task d : forall stats,
  task_stats d = Ok stats ->
  match Dict.get d task with
  | None => Dict.get stats task = None
  | Some values =>
      exists s times,
        Dict.get stats task = Some s
        /\ Statistics.numbers values = Ok times
        /\ Statistics.mean times = Ok (avg_ms s)
        /\ Statistics.median times = Ok (p50_ms s)
        /\ percentile95 times = Ok (p95_ms s)
  end.
Proof.
  induction d as [|[k values] d IH]; intros stats H; simpl in H.
  - inversion H; subst. reflexivity.
  - destruct (Statistics.numbers values) as [times|] eqn:En; simpl in H;
      [|discriminate].
    destruct (Statistics.mean times) as [avg|] eqn:Em; simpl in H; [|discriminate].
    destruct (Statistics.median times) as [p50|] eqn:Ed; simpl in H; [|discriminate].
    destruct (percentile95 times) as [p95|] eqn:Ep; simpl in H; [|discriminate].
    destruct (task_stats d) as [rest|] eqn:Er; simpl in H; [|discriminate].
    inversion H; subst stats; clear H. simpl.
    destruct (String.eqb k task).
    + eexists. exists times. split; [reflexivity|]. simpl. auto.
    + apply IH. reflexivity.
Qed.

(** Values that are all numbers, read as numbers. *)
Lemma numbers_read values : forall times,
  Statistics.numbers values = Ok times ->
  flat_map (fun value => match Statistics.number value with
                         | Ok q => [q]
                         | Raise _ => []
                         end) values = times
  /\ List.length times = List.length values.
Proof.
  induction values as [|v values IH]; intros times H; simpl in H.
  - injection H as <-. auto.
  - destruct (Statistics.number v) as [q|] eqn:Ev; simpl in H; [|discriminate].
    destruct (Statistics.numbers values) as [qs|]; simpl in H; [|discriminate].
    injection H as <-. simpl. rewrite Ev. simpl.
    destruct (IH qs eq_refl) as (-> & ->). auto.
Qed.

End PhaseFacts.

(** X8.  The phase statistics of a returned dict hold exactly the phases
    that some successful response reports: a phase nobody reported has no
    entry (it is not defaulted to 0), and the entry of a reported phase
    summarises all its durations, in request order, by mean, median and the
    p95 rule. *)
Theorem phase_statistics_follow_the_responses
    (env : Env) (url topic task : string) (N max_workers : Z)
    (t t' : list Event) (r : BenchmarkResults) :
  (0 < max_workers)%Z ->
  benchmark_service_threaded env url topic N max_workers t = (Returns r, t') ->
  match durations task (map response (successes env url N)) with
  | [] => Dict.get (task_statistics r) task = None
  | ds =>
      exists s,
        Dict.get (task_statistics r) task = Some s
        /\ Statistics.mean ds = Ok (avg_ms s)
        /\ Statistics.median ds = Ok (p50_ms s)
        /\ percentile95 ds = Ok (p95_ms s)
  end.
Proof.
  intros Hw E.
  destruct (benchmark_returns _ _ _ _ _ _ _ _ E) as (Hs & _).
  destruct Hs as (_ & _ & _ & _ & _ & _ & _ & _ & _ & _ & _ & _ & _ & Htask & _).
  destruct (dispatch_tally_fields env url N) as (_ & Hresp & _).
  rewrite Hresp in Htask. unfold bodies in Htask.
  destruct (collect_task_times (map response (successes env url N)))
    as [task_times|] eqn:Ec; simpl in Htask; [|discriminate].
  pose proof (get_task_stats task _ _ Htask) as H.
  rewrite (get_collect_task_times task _ _ Ec) in H.
  unfold durations.
  destruct (reports task (map response (successes env url N)))
    as [|value values]; [exact H|].
  destruct H as (s & times & Hget & Hnum & Hmean & Hmedian & Hp95).
  destruct (numbers_read _ _ Hnum) as (-> & Hlen).
  destruct times as [|q times]; [discriminate|].
  exists s. auto.
Qed.

Lemma phase_statistics_follow_the_responses_witness :
  exists r t',
    (0 < 2)%Z
    /\ benchmark_service_threaded Scenarios.mixed Worlds.rust_url Worlds.topic
                                  6 2 []
       = (Returns r, t')
    /\ durations "report" (map response (successes Scenarios.mixed
                                                   Worlds.rust_url 6))
       = [30]
    /\ durations "plan" (map response (successes Scenarios.mixed
                                                 Worlds.rust_url 6))
       = []
    /\ Dict.get (task_statistics r) "plan" = None
    /\ exists s,
         Dict.get (task_statistics r) "report" = Some s
         /\ Statistics.mean [30] = Ok (avg_ms s)
         /\ Statistics.median [30] = Ok (p50_ms s)
         /\ percentile95 [30] = Ok (p95_ms s).
Proof.
  eexists; eexists. split; [lia|].
  split; [vm_compute; reflexivity|].
  split; [reflexivity|]. split; [reflexivity|].
  split.
  - eapply (phase_statistics_follow_the_responses
              Scenarios.mixed Worlds.rust_url Worlds.topic "plan" 6 2 []);
      [lia | vm_compute; reflexivity].
  - eapply (phase_statistics_follow_the_responses
              Scenarios.mixed Worlds.rust_url Worlds.topic "report" 6 2 []);
      [lia | vm_compute; reflexivity].
Defined.

(** ** The sampler, tick by tick *)

Section TickFacts.

Import ResourceMonitor.
Variable names : list string.

(** What inspecting one entry does to the totals. *)
Lemma inspect_adds p acc acc' :
  inspect names p acc = Ok acc' ->
  if name_matches names p then
    found_processes acc' = (found_processes acc + 1)%Z
    /\ total_cpu acc' = total_cpu acc + cpu_of p
    /\ total_memory acc' = total_memory acc + memory_of p
    /\ total_threads acc' = (total_threads acc + threads_of p)%Z
  else acc' = acc.
Proof.
  unfold inspect, matches, name_matches.
  destruct p as [info|e]; [|discriminate].
  destruct names as [|n ns] eqn:En.
  - simpl. intro H; inversion H; subst.
    destruct (info_name info); reflexivity.
  - destruct (info_name info) as [s|]; [|discriminate].
    generalize (existsb (fun name => Py.contains s name) (n :: ns)).
    intros [|]; simpl.
    + destruct (info_memory_info info) as [rss|] eqn:Em; simpl; [|discriminate].
      intro H; inversion H; subst; simpl. auto.
    + intro H; inversion H; subst. reflexivity.
Qed.

Lemma inspect_raises p acc e :
  inspect names p acc = Raise e ->
  per_process_error e = true -> name_matches names p = false /\ skipped p = true.
Proof.
  unfold inspect, matches.
  destruct p as [info|e0].
  - destruct names as [|n ns]; [simpl; discriminate|].
    destruct (info_name info) as [s|].
    + generalize (existsb (fun name => Py.contains s name) (n :: ns)).
      intros [|]; simpl; [|discriminate].
      destruct (info_memory_info info); simpl; [discriminate|].
      intro H; inversion H; subst. discriminate.
    + simpl. intro H; inversion H; subst. discriminate.
  - simpl. intro H; inversion H; subst. auto.
Qed.

(** The totals after a scan: the matching processes, summed. *)
Lemma scan_sums procs : forall acc acc',
  scan names procs acc = Ok acc' ->
  found_processes acc' = (found_processes acc + Py.len (matching names procs))%Z
  /\ total_cpu acc' == total_cpu acc + Py.sum (map cpu_of (matching names procs))
  /\ total_memory acc'
     == total_memory acc + Py.sum (map memory_of (matching names procs))
  /\ total_threads acc'
     = (total_threads acc + sumZ (map threads_of (matching names procs)))%Z.
Proof.
  unfold Py.len.
  induction procs as [|p procs IH]; intros acc acc' H; simpl in H.
  - inversion H; subst. simpl. repeat split; try lia; ring.
  - unfold matching. cbn [filter]. fold (matching names procs).
    destruct (inspect names p acc) as [acc1|e] eqn:Ei.
    + apply inspect_adds in Ei. apply IH in H.
      destruct H as (Hf & Hc & Hm & Ht).
      destruct (name_matches names p).
      * destruct Ei as (Ef & Ec & Em & Et).
        cbn [map Py.sum sumZ fold_right List.length].
        rewrite Hf, Hc, Hm, Ht, Ef, Ec, Em, Et.
        repeat split; try lia; try ring.
        fold (sumZ (map threads_of (matching names procs))). lia.
      * subst acc1. auto.
    + destruct (per_process_error e) eqn:Ee; [|discriminate].
      destruct (inspect_raises _ _ _ Ei Ee) as (-> & _).
      apply IH. exact H.
Qed.

(** Skipped entries do not matter to a scan. *)
Lemma scan_without_skipped procs : forall acc,
  scan names procs acc
  = scan names (filter (fun p => negb (skipped p)) procs) acc.
Proof.
  induction procs as [|p procs IH]; intro acc; [reflexivity|].
  destruct p as [info|e]; cbn [filter skipped negb].
  - cbn [scan].
    destruct (inspect names (Inspect info) acc) as [acc1|e1]; [apply IH|].
    destruct (per_process_error e1); [apply IH | reflexivity].
  - destruct (per_process_error e) eqn:Ee; cbn [negb scan inspect].
    + rewrite Ee. apply IH.
    + rewrite Ee. reflexivity.
Qed.

(** No per-process error ever leaves a scan. *)
Lemma scan_raises procs : forall acc e,
  scan names procs acc = Raise e -> per_process_error e = false.
Proof.
  induction procs as [|p procs IH]; intros acc e H; simpl in H; [discriminate|].
  destruct (inspect names p acc) as [acc1|e1]; [eauto|].
  destruct (per_process_error e1) eqn:Ee; [eauto|].
  inversion H; subst. exact Ee.
Qed.

(** A table of readable entries is scanned to the end. *)
Lemma scan_readable procs : forall acc,
  Forall (fun p => readable p = true) procs ->
  exists acc', scan names procs acc = Ok acc'.
Proof.
  induction procs as [|p procs IH]; intros acc H; simpl; [eauto|].
  inversion H as [|? ? Hp Hrest]; subst.
  destruct p as [info|e]; simpl in Hp.
  - unfold inspect, matches.
    destruct (info_name info) as [s|]; [|discriminate].
    destruct (info_memory_info info) as [rss|]; [|discriminate].
    destruct names as [|n ns]; simpl; [apply IH; assumption|].
    destruct (_ || _); simpl; apply IH; assumption.
  - simpl. rewrite Hp. apply IH; assumption.
Qed.

(** An entry the tick cannot work with stops a scan, at that entry or
    before. *)
Lemma scan_unreadable procs info : forall acc,
  names <> [] ->
  In (Inspect info) procs ->
  info_name info = None
  \/ (name_matches names (Inspect info) = true /\ info_memory_info info = None) ->
  exists e, scan names procs acc = Raise e.
Proof.
  intros acc Hnames Hin Hbad. revert acc.
  induction procs as [|p procs IH]; intro acc; [contradiction|].
  simpl.
  destruct (inspect names p acc) as [acc1|e1] eqn:Ei.
  - destruct Hin as [->|Hin]; [|apply IH; assumption].
    exfalso. revert Ei. unfold inspect, matches.
    destruct names as [|n ns]; [congruence|].
    destruct Hbad as [Hname|(Hm & Hmem)].
    + rewrite Hname. discriminate.
    + unfold name_matches in Hm.
      destruct (info_name info) as [s|]; [|discriminate].
      rewrite Hm, Hmem. simpl. discriminate.
  - destruct (per_process_error e1) eqn:Ee; [|eauto].
    destruct Hin as [->|Hin]; [|apply IH; assumption].
    destruct (inspect_raises _ _ _ Ei Ee) as (_ & Hs). discriminate.
Qed.

(** How many samples a loop adds. *)
Lemma monitor_loop_extends schedule : forall metrics,
  exists new,
    collected (_monitor_loop names schedule metrics) = metrics ++ new
    /\ (List.length new <= ticks_run (_monitor_loop names schedule metrics)
        <= List.length schedule)%nat.
Proof.
  induction schedule as [|tick schedule IH]; intro metrics; simpl.
  - exists []. rewrite app_nil_r. simpl. auto.
  - destruct (monitoring_flag tick).
    + destruct (sample names tick metrics) as [metrics'|e] eqn:Es; simpl.
      * destruct (IH metrics') as (new & Hc & Hl).
        destruct (sample_appends _ _ _ _ Es)
          as [->|(procs & totals & _ & _ & _ & ->)].
        -- exists new. split; [exact Hc | lia].
        -- eexists. rewrite Hc, <- app_assoc. split; [reflexivity|].
           simpl. lia.
      * exists []. rewrite app_nil_r. simpl. split; [reflexivity | lia].
    + exists []. rewrite app_nil_r. simpl. split; [reflexivity | lia].
Qed.

(** A loop that has ended runs no later tick. *)
Lemma monitor_loop_ended earlier later : forall metrics,
  loop_exit (_monitor_loop names earlier metrics) <> StillLooping ->
  _monitor_loop names (earlier ++ later) metrics
  = _monitor_loop names earlier metrics.
Proof.
  induction earlier as [|tick earlier IH]; intros metrics H; simpl in *.
  - congruence.
  - destruct (monitoring_flag tick); [|reflexivity].
    destruct (sample names tick metrics) as [metrics'|e]; [|reflexivity].
    simpl in *. now rewrite (IH metrics' H).
Qed.

(** What a loop has collected over its first ticks stays at the head of
    what it collects in all. *)
Lemma monitor_loop_prefix schedule k metrics :
  exists later,
    collected (_monitor_loop names schedule metrics)
    = collected (_monitor_loop names (firstn k schedule) metrics) ++ later.
Proof.
  pose proof (firstn_skipn k schedule) as Hs.
  set (earlier := firstn k schedule) in *.
  set (later := skipn k schedule) in *.
  clearbody earlier later. subst schedule.
  destruct (loop_exit (_monitor_loop names earlier metrics)) eqn:Hexit.
  - exists []. rewrite monitor_loop_ended by congruence.
    now rewrite app_nil_r.
  - exists []. rewrite monitor_loop_ended by congruence.
    now rewrite app_nil_r.
  - rewrite monitor_loop_app by assumption. simpl.
    destruct (monitor_loop_extends later
                (collected (_monitor_loop names earlier metrics)))
      as (new & -> & _).
    eauto.
Qed.

Lemma steady_sample tick metrics :
  steady names tick ->
  exists s, sample names tick metrics = Ok (metrics ++ [s]).
Proof.
  intros (_ & procs & Hp & Hread & Hmatch).
  unfold sample. rewrite Hp. simpl.
  destruct (scan_readable procs no_totals Hread) as (totals & Hscan).
  rewrite Hscan. simpl.
  destruct (scan_sums _ _ _ Hscan) as (Hf & _).
  simpl in Hf.
  destruct (Z.gtb_spec (found_processes totals) 0); [eauto|].
  exfalso. destruct (matching names procs); [congruence|].
  unfold Py.len in Hf. simpl List.length in Hf. lia.
Qed.

End TickFacts.

(** X9.  A tick that finds matching processes appends one sample whose CPU,
    memory and thread figures are the sums over exactly the matching
    processes: a missing CPU or thread figure counts as 0, and the memory
    is the resident size in bytes divided by 1024 * 1024. *)
Theorem sample_sums_the_matching_processes
    (names : list string) (tick : Tick) (procs : list ProcEntry)
    (metrics metrics' : list ResourceMetrics) :
  process_iter tick = Ok procs ->
  ResourceMonitor.sample names tick metrics = Ok metrics' ->
  matching names procs <> [] ->
  exists s,
    metrics' = metrics ++ [s]
    /\ cpu_percent s == Py.sum (map cpu_of (matching names procs))
    /\ memory_mb s == Py.sum (map memory_of (matching names procs))
    /\ threads s = sumZ (map threads_of (matching names procs)).
Proof.
  intros Hp Hs Hmatch.
  unfold ResourceMonitor.sample in Hs. rewrite Hp in Hs. simpl in Hs.
  destruct (ResourceMonitor.scan names procs ResourceMonitor.no_totals)
    as [totals|e] eqn:Hscan; [|discriminate].
  simpl in Hs.
  destruct (scan_sums _ _ _ _ Hscan) as (Hf & Hc & Hm & Ht).
  simpl in Hf, Hc, Hm, Ht.
  destruct (Z.gtb_spec (ResourceMonitor.found_processes totals) 0).
  - inversion Hs; subst. eexists. split; [reflexivity|]. simpl.
    rewrite Hc, Hm, Ht. repeat split; ring.
  - exfalso. destruct (matching names procs); [congruence|].
    unfold Py.len in Hf. simpl List.length in Hf. lia.
Qed.

Lemma sample_sums_the_matching_processes_witness :
  exists s,
    ResourceMonitor.sample ["python"; "rust"]%string
      (Worlds.tick [Worlds.shell_proc; Worlds.python_proc; Worlds.rust_proc]) []
    = Ok [s]
    /\ matching ["python"; "rust"]%string
                [Worlds.shell_proc; Worlds.python_proc; Worlds.rust_proc]
       = [Worlds.python_proc; Worlds.rust_proc]
    /\ cpu_percent s == 15 /\ memory_mb s == 72 /\ threads s = 13%Z.
Proof.
  destruct (sample_sums_the_matching_processes
              ["python"; "rust"]%string
              (Worlds.tick [Worlds.shell_proc; Worlds.python_proc;
                            Worlds.rust_proc])
              [Worlds.shell_proc; Worlds.python_proc; Worlds.rust_proc]
              [] _ eq_refl eq_refl ltac:(discriminate))
    as (s & Hs & Hc & Hm & Ht).
  exists s. change ([] ++ [s]) with [s] in Hs.
  split; [rewrite <- Hs; reflexivity|]. split; [reflexivity|].
  split; [rewrite Hc; reflexivity|].
  split; [rewrite Hm; reflexivity | exact Ht].
Defined.

(** X10.  Processes that vanished or may not be read ([NoSuchProcess],
    [AccessDenied]) do not change a tick: it ends exactly as it would on
    the table without them. *)
Theorem skipped_processes_do_not_change_a_tick
    (names : list string) (flag : bool) (procs : list ProcEntry)
    (metrics : list ResourceMetrics) :
  ResourceMonitor.sample names
    {| monitoring_flag := flag; process_iter := Ok procs |} metrics
  = ResourceMonitor.sample names
      {| monitoring_flag := flag;
         process_iter := Ok (filter (fun p => negb (skipped p)) procs) |}
      metrics.
Proof.
  unfold ResourceMonitor.sample. simpl.
  now rewrite scan_without_skipped.
Qed.

(** X11.  A listed process the tick cannot work with ends the sampler: when
    a process comes without a name, or matches and comes without its memory
    figures, the tick raises an exception that the inner handler does not
    catch, nothing is appended and the loop breaks. *)
Theorem unreadable_process_ends_the_sampler
    (names : list string) (tick : Tick) (later : list Tick)
    (procs : list ProcEntry) (info : ProcInfo)
    (metrics : list ResourceMetrics) :
  names <> [] ->
  monitoring_flag tick = true ->
  process_iter tick = Ok procs ->
  In (Inspect info) procs ->
  info_name info = None
  \/ (name_matches names (Inspect info) = true /\ info_memory_info info = None) ->
  exists e,
    ResourceMonitor.per_process_error e = false
    /\ ResourceMonitor._monitor_loop names (tick :: later) metrics
       = {| ResourceMonitor.loop_exit := ResourceMonitor.Broke e;
            ResourceMonitor.collected := metrics;
            ResourceMonitor.ticks_run := 1 |}.
Proof.
  intros Hnames Hflag Hp Hin Hbad.
  destruct (scan_unreadable names procs info ResourceMonitor.no_totals
              Hnames Hin Hbad) as (e & He).
  exists e. split; [exact (scan_raises _ _ _ _ He)|].
  simpl. rewrite Hflag. unfold ResourceMonitor.sample.
  rewrite Hp. simpl. rewrite He. reflexivity.
Qed.

Lemma unreadable_process_ends_the_sampler_witness :
  exists e,
    ResourceMonitor.per_process_error e = false
    /\ ResourceMonitor._monitor_loop ["python"]%string
         (Worlds.tick [Worlds.shell_proc;
                       Inspect {| info_name := Some "python3"%string;
                                  info_cpu_percent := Some 1;
                                  info_memory_info := None;
                                  info_num_threads := Some 2%Z |}]
          :: [Worlds.tick [Worlds.python_proc]]) []
       = {| ResourceMonitor.loop_exit := ResourceMonitor.Broke e;
            ResourceMonitor.collected := [];
            ResourceMonitor.ticks_run := 1 |}.
Proof.
  eapply (unreadable_process_ends_the_sampler ["python"]%string).
  - discriminate.
  - reflexivity.
  - reflexivity.
  - right. left. reflexivity.
  - right. split; reflexivity.
Defined.

(** X12.  The sampler only appends: what a loop hands back is the metrics
    it started from followed by at most one new sample per tick it ran, and
    it runs at most as many ticks as the schedule holds. *)
Theorem sampler_only_appends
    (names : list string) (schedule : list Tick)
    (metrics : list ResourceMetrics) :
  let r := ResourceMonitor._monitor_loop names schedule metrics in
  exists new,
    ResourceMonitor.collected r = metrics ++ new
    /\ (List.length new <= ResourceMonitor.ticks_run r)%nat
    /\ (ResourceMonitor.ticks_run r <= List.length schedule)%nat.
Proof.
  intro r. subst r.
  destruct (monitor_loop_extends names schedule metrics) as (new & Hc & Hl).
  exists new. split; [exact Hc | lia].
Qed.

(** X13.  While the service is there to be measured (flag set, table
    readable, some process matching) every tick yields a sample: over such
    a schedule the loop stays alive, runs every tick and appends exactly
    one sample per tick. *)
Theorem steady_ticks_give_one_sample_each
    (names : list string) (schedule : list Tick)
    (metrics : list ResourceMetrics) :
  Forall (steady names) schedule ->
  let r := ResourceMonitor._monitor_loop names schedule metrics in
  ResourceMonitor.loop_exit r = ResourceMonitor.StillLooping
  /\ ResourceMonitor.ticks_run r = List.length schedule
  /\ exists new,
       ResourceMonitor.collected r = metrics ++ new
       /\ List.length new = List.length schedule.
Proof.
  intro H. revert metrics.
  induction H as [|tick schedule Htick _ IH]; intro metrics; simpl.
  - repeat split. exists []. now rewrite app_nil_r.
  - destruct (steady_sample names tick metrics Htick) as (s & Hs).
    destruct Htick as (Hflag & _). rewrite Hflag, Hs. simpl.
    destruct (IH (metrics ++ [s])) as (He & Ht & new & Hc & Hl).
    split; [exact He|]. split; [now rewrite Ht|].
    exists (s :: new). rewrite Hc, <- app_assoc. simpl.
    split; [reflexivity | now rewrite Hl].
Qed.

Lemma steady_ticks_give_one_sample_each_witness :
  Forall (steady ["python"]%string)
         [Worlds.tick [Worlds.shell_proc; Worlds.python_proc];
          Worlds.tick [Inaccessible NoSuchProcess; Worlds.python_proc]]
  /\ let r := ResourceMonitor._monitor_loop ["python"]%string
                [Worlds.tick [Worlds.shell_proc; Worlds.python_proc];
                 Worlds.tick [Inaccessible NoSuchProcess; Worlds.python_proc]]
                [] in
     ResourceMonitor.loop_exit r = ResourceMonitor.StillLooping
     /\ ResourceMonitor.ticks_run r = 2%nat
     /\ exists new,
          ResourceMonitor.collected r = [] ++ new /\ List.length new = 2%nat.
Proof.
  assert (H : Forall (steady ["python"]%string)
                [Worlds.tick [Worlds.shell_proc; Worlds.python_proc];
                 Worlds.tick [Inaccessible NoSuchProcess; Worlds.python_proc]]).
  { repeat constructor; eexists; (split; [reflexivity|]);
      (split; [repeat constructor | discriminate]). }
  split; [exact H|].
  exact (steady_ticks_give_one_sample_each ["python"]%string _ [] H).
Defined.

(** X14.  Clearing the flag stops the loop at its next test: the tick that
    reads the cleared flag and all later ticks run nothing, and the samples
    are those collected so far.  A loop whose first test already reads the
    cleared flag hands back what it started from. *)
Theorem cleared_flag_stops_the_loop
    (names : list string) (earlier later : list Tick) (tick : Tick)
    (metrics : list ResourceMetrics) :
  let before := ResourceMonitor._monitor_loop names earlier metrics in
  ResourceMonitor.loop_exit before = ResourceMonitor.StillLooping ->
  monitoring_flag tick = false ->
  ResourceMonitor._monitor_loop names (earlier ++ tick :: later) metrics
  = {| ResourceMonitor.loop_exit := ResourceMonitor.FlagCleared;
       ResourceMonitor.collected := ResourceMonitor.collected before;
       ResourceMonitor.ticks_run := List.length earlier |}.
Proof.
  intros before Halive Hflag.
  rewrite monitor_loop_app by assumption.
  fold before. simpl. rewrite Hflag. simpl.
  unfold before. rewrite monitor_loop_alive_ticks by assumption.
  f_equal. lia.
Qed.

Lemma cleared_flag_stops_the_loop_witness :
  ResourceMonitor._monitor_loop ["python"]%string
    ([Worlds.tick [Worlds.python_proc]] ++ Worlds.last_tick
       :: [Worlds.tick [Worlds.python_proc]]) []
  = {| ResourceMonitor.loop_exit := ResourceMonitor.FlagCleared;
       ResourceMonitor.collected :=
         ResourceMonitor.collected
           (ResourceMonitor._monitor_loop ["python"]%string
              [Worlds.tick [Worlds.python_proc]] []);
       ResourceMonitor.ticks_run := 1 |}.
Proof.
  apply (cleared_flag_stops_the_loop ["python"]%string
           [Worlds.tick [Worlds.python_proc]]
           [Worlds.tick [Worlds.python_proc]] Worlds.last_tick []);
    reflexivity.
Defined.

(** X15.  Starting a monitor that has no thread yet and then stopping it
    hands back what its loop has appended, from an empty list, by the time
    the join returns: samples the object held before are discarded.  The
    join waits for two seconds at most, so these are the first samples of
    the loop and need not be all of them; they are all of them when the
    loop has ended by then.  The object is left with the flag cleared, and
    one thread was started and joined. *)
Theorem stopping_returns_what_the_loop_has_appended
    (env : Env) (self : ResourceMonitor.t) :
  ResourceMonitor.monitor_thread self = false ->
  let names := ResourceMonitor.process_names self in
  let at_join :=
    ResourceMonitor._monitor_loop names
      (ResourceMonitor.joined_ticks env names) [] in
  let in_all :=
    ResourceMonitor._monitor_loop names (env_ticks env names) [] in
  let seen := ResourceMonitor.collected at_join in
  run (bind (ResourceMonitor.start_monitoring self)
            (ResourceMonitor.stop_monitoring env))
  = (Returns ({| ResourceMonitor.process_names := names;
                 ResourceMonitor.metrics := seen;
                 ResourceMonitor.monitoring := false;
                 ResourceMonitor.monitor_thread := true |}, seen),
     [ThreadStart names; ThreadJoin names])
  /\ (exists later, ResourceMonitor.collected in_all = seen ++ later)
  /\ (ResourceMonitor.loop_exit at_join <> ResourceMonitor.StillLooping ->
      in_all = at_join).
Proof.
  intros _ names at_join in_all seen. split; [reflexivity|]. split.
  - apply monitor_loop_prefix.
  - intro Hended. unfold in_all, at_join, ResourceMonitor.joined_ticks in *.
    pose proof (firstn_skipn (env_joined env names) (env_ticks env names))
      as Hs.
    rewrite <- Hs at 1.
    now apply monitor_loop_ended.
Qed.

(** A monitor whose join gives up after the first of four ticks hands back
    one sample of the two its loop collects. *)
Lemma stopping_returns_what_the_loop_has_appended_witness :
  ResourceMonitor.monitor_thread (ResourceMonitor.__init__ python_names)
  = false
  /\ exists first second,
       snd (run (bind (ResourceMonitor.start_monitoring
                         (ResourceMonitor.__init__ python_names))
                      (ResourceMonitor.stop_monitoring Scenarios.slow_ticks)))
       = [ThreadStart python_names; ThreadJoin python_names]
       /\ ResourceMonitor.collected
            (ResourceMonitor._monitor_loop python_names
               (ResourceMonitor.joined_ticks Scenarios.slow_ticks python_names)
               [])
          = [first]
       /\ ResourceMonitor.collected
            (ResourceMonitor._monitor_loop python_names
               (env_ticks Scenarios.slow_ticks python_names) [])
          = [first] ++ [second].
Proof.
  split; [reflexivity|].
  destruct (stopping_returns_what_the_loop_has_appended
              Scenarios.slow_ticks (ResourceMonitor.__init__ python_names)
              eq_refl)
    as (E & (later & Hlater) & _).
  eexists; eexists. split; [rewrite E; reflexivity|].
  split; [vm_compute; reflexivity|]. vm_compute. reflexivity.
Defined.

Section OrderOfARun.

Import Py.
Variable env : Env.

Lemma ensures_bind_forall {A B} (P : Event -> Prop) (m : M A) (f : A -> M B)
    (Q1 : outcome A -> list Event -> Prop) :
  ensures m Q1 ->
  (forall o added, Q1 o added -> Forall P added) ->
  (forall a added1, Q1 (Returns a) added1 ->
     ensures (f a) (fun _ added => Forall P added)) ->
  ensures (bind m f) (fun _ added => Forall P added).
Proof.
  intros Hm HP Hf.
  eapply ensures_bind; [exact Hm | | | ].
  - intros a added1 H1.
    eapply ensures_weaken; [exact (Hf a added1 H1)|].
    intros o added2 H2. apply Forall_app. split; [eapply HP; exact H1 | exact H2].
  - intros e added H. eapply HP; exact H.
  - intros added H. eapply HP; exact H.
Qed.


Lemma rust_down_probes rust_url python_url topic N max_workers
    monitor_resources :
  healthy env rust_url = false ->
  ensures (run_comparison_benchmark env rust_url python_url topic N
                                    max_workers monitor_resources)
          (fun o added =>
             o = Returns tt /\ gets added = [(rust_url ++ "/health")%string]).
Proof.
  intro Hdown. unfold run_comparison_benchmark.
  eapply ensures_bind; [apply print_lines_quiet | |
    intros ? ? (? & _); discriminate | intros ? (? & _); discriminate].
  intros [] a1 (_ & G1 & _).
  eapply ensures_bind; [apply health_check_probes | |
    intros ? ? (? & _); discriminate | intros ? (? & _); discriminate].
  intros up a2 (E & G2 & _). inversion E; subst up; clear E.
  rewrite Hdown. simpl negb. cbv iota.
  apply ensures_ret. split; [reflexivity|].
  rewrite app_nil_r, gets_app, G1, G2. reflexivity.
Qed.

Lemma python_down_probes rust_url python_url topic N max_workers
    monitor_resources :
  healthy env rust_url = true ->
  healthy env python_url = false ->
  ensures (run_comparison_benchmark env rust_url python_url topic N
                                    max_workers monitor_resources)
          (fun o added =>
             o = Returns tt
             /\ gets added = [(rust_url ++ "/health")%string;
                              (python_url ++ "/health")%string]).
Proof.
  intros Hup Hdown. unfold run_comparison_benchmark.
  eapply ensures_bind; [apply print_lines_quiet | |
    intros ? ? (? & _); discriminate | intros ? (? & _); discriminate].
  intros [] a1 (_ & G1 & _).
  eapply ensures_bind; [apply health_check_probes | |
    intros ? ? (? & _); discriminate | intros ? (? & _); discriminate].
  intros up a2 (E & G2 & _). inversion E; subst up; clear E.
  rewrite Hup. simpl negb. cbv iota.
  eapply ensures_bind; [apply health_check_probes | |
    intros ? ? (? & _); discriminate | intros ? (? & _); discriminate].
  intros up a3 (E & G3 & _). inversion E; subst up; clear E.
  rewrite Hdown. simpl negb. cbv iota.
  apply ensures_ret. split; [reflexivity|].
  rewrite app_nil_r, !gets_app, G1, G2, G3. reflexivity.
Qed.

Ltac lines_step Hprints :=
  eapply ensures_bind_forall;
  [ apply print_lines_ensures
  | intros ? ? (_ & ->); apply Hprints
  | intros [] ? _ ].
Ltac line_step :=
  eapply ensures_bind_forall;
  [ apply print_ensures
  | intros ? ? (_ & ->); repeat constructor
  | intros [] ? _ ].


(** With monitoring off no step of a comparison touches a thread. *)
Lemma unmonitored_run rust_url python_url topic N max_workers :
  ensures (run_comparison_benchmark env rust_url python_url topic N
                                    max_workers false)
          (fun _ added => Forall (fun ev => thread_event ev = false) added).
Proof.
  unfold run_comparison_benchmark.
  pose proof (fun lines => forall_prints (fun ev => thread_event ev = false)
                             lines (fun l => eq_refl)) as Hprints.
  assert (Hpre : forall l, Forall (fun ev => preflight_event ev = true) l ->
                           Forall (fun ev => thread_event ev = false) l).
  { intros l H. eapply Forall_impl; [|exact H].
    intros [| | | | | | |]; simpl; congruence. }
  assert (Hdis : forall l, Forall (fun ev => dispatch_event ev = true) l ->
                           Forall (fun ev => thread_event ev = false) l).
  { intros l H. eapply Forall_impl; [|exact H].
    intros [| | | | | | |]; simpl; congruence. }
  assert (Hpr : forall l, Forall (fun ev => is_print ev = true) l ->
                          Forall (fun ev => thread_event ev = false) l).
  { intros l H. eapply Forall_impl; [|exact H].
    intros [| | | | | | |]; simpl; congruence. }
  lines_step Hprints.
  eapply ensures_bind_forall;
    [apply health_check_ensures | intros ? ? (_ & H); auto | intros up1 ? _].
  destruct (negb up1); [apply ensures_ret; constructor|].
  eapply ensures_bind_forall;
    [apply health_check_ensures | intros ? ? (_ & H); auto | intros up2 ? _].
  destruct (negb up2); [apply ensures_ret; constructor|].
  line_step. line_step.
  eapply ensures_bind_forall;
    [apply (start_if_any_exact false python_names)
    | intros ? ? (_ & ->); constructor
    | intros pm ? (E & _); inversion E; subst pm; clear E].
  eapply ensures_bind_forall;
    [apply benchmark_ensures | intros ? ? (_ & H & _); auto
    | intros python_results ? _].
  eapply ensures_bind_forall;
    [apply (stop_if_any_exact env false python_names)
    | intros ? ? (_ & ->); constructor
    | intros python_metrics ? _].
  line_step. line_step.
  eapply ensures_bind_forall;
    [apply (start_if_any_exact false rust_names)
    | intros ? ? (_ & ->); constructor
    | intros rm ? (E & _); inversion E; subst rm; clear E].
  eapply ensures_bind_forall;
    [apply benchmark_ensures | intros ? ? (_ & H & _); auto
    | intros rust_results ? _].
  eapply ensures_bind_forall;
    [apply (stop_if_any_exact env false rust_names)
    | intros ? ? (_ & ->); constructor
    | intros rust_metrics ? _].
  line_step.
  eapply ensures_bind_forall;
    [apply print_results_prints | intros ? ? (_ & H); auto | intros [] ? _].
  eapply ensures_bind_forall;
    [apply print_resources_prints | intros ? ? (_ & H); auto | intros [] ? _].
  lines_step Hprints.
  eapply ensures_bind_forall;
    [apply print_tasks_prints | intros ? ? (_ & H); auto | intros [] ? _].
  cbv zeta.
  eapply ensures_weaken; [apply (save_quiet env)|].
  intros o added (_ & H). exact H.
Qed.





End OrderOfARun.

(** X16.  The preflight probes the Rust service first and stops at the
    first failure: when Rust is down its health URL is the only GET of the
    run and the Python service is never probed; when Rust is up and Python
    is down both are probed once, in this order. *)
Theorem preflight_probes_rust_first
    (env : Env) (rust_url python_url topic : string) (N max_workers : Z)
    (monitor_resources : bool) :
  let ending :=
    run (run_comparison_benchmark env rust_url python_url topic N max_workers
                                  monitor_resources) in
  (healthy env rust_url = false ->
   fst ending = Returns tt
   /\ gets (snd ending) = [(rust_url ++ "/health")%string])
  /\ (healthy env rust_url = true -> healthy env python_url = false ->
      fst ending = Returns tt
      /\ gets (snd ending) = [(rust_url ++ "/health")%string;
                              (python_url ++ "/health")%string]).
Proof.
  intro ending. subst ending. unfold run. split.
  - intro Hdown.
    destruct (rust_down_probes env rust_url python_url topic N max_workers
                monitor_resources Hdown []) as (o & added & E & -> & Hg).
    rewrite E. auto.
  - intros Hup Hdown.
    destruct (python_down_probes env rust_url python_url topic N max_workers
                monitor_resources Hup Hdown []) as (o & added & E & -> & Hg).
    rewrite E. auto.
Qed.

Lemma preflight_probes_rust_first_witness :
  gets (snd (run (run_comparison_benchmark Worlds.python_down Worlds.rust_url
                    Worlds.python_url Worlds.topic 10 5 true)))
  = ["http://localhost:3000/health"; "http://localhost:3001/health"]%string.
Proof.
  apply (proj2 (preflight_probes_rust_first Worlds.python_down Worlds.rust_url
                  Worlds.python_url Worlds.topic 10 5 true));
    reflexivity.
Defined.

(** X17.  Run from the command line with [--no-resource-monitoring], the
    driver never starts or joins a monitor thread, whatever the services,
    the arguments and the file system do. *)
Theorem no_monitoring_flag_means_no_thread
    (env : Env) (args : Cli.Namespace) :
  Cli.no_resource_monitoring args = true ->
  Forall (fun ev => thread_event ev = false) (snd (run (Cli.main env args))).
Proof.
  intro Hflag. unfold Cli.main, run. rewrite Hflag. simpl negb.
  destruct (unmonitored_run env (Cli.rust_url args) (Cli.python_url args)
              (Cli.topic args) (Cli.num_requests args) (Cli.max_workers args)
              []) as (o & added & E & H).
  rewrite E. exact H.
Qed.

Lemma no_monitoring_flag_means_no_thread_witness :
  Forall (fun ev => thread_event ev = false)
         (snd (run (Cli.main Worlds.healthy
                      {| Cli.rust_url := Cli.rust_url Cli.defaults;
                         Cli.python_url := Cli.python_url Cli.defaults;
                         Cli.topic := Cli.topic Cli.defaults;
                         Cli.num_requests := 3;
                         Cli.max_workers := 2;
                         Cli.no_resource_monitoring := true |}))).
Proof.
  apply no_monitoring_flag_means_no_thread. reflexivity.
Defined.



(** ** The task breakdown *)

Section BreakdownFacts.

Lemma in_insert_name x y l : In y (insert_name x l) <-> y = x \/ In y l.
Proof.
  induction l as [|z l IH]; simpl.
  - intuition.
  - destruct (String.ltb x z); simpl; [intuition|].
    rewrite IH. intuition.
Qed.

Lemma NoDup_insert_name x l : ~ In x l -> NoDup l -> NoDup (insert_name x l).
Proof.
  induction l as [|z l IH]; simpl; intros Hx Hl.
  - constructor; [intros []|constructor].
  - destruct (String.ltb x z).
    + constructor; [simpl; exact Hx | exact Hl].
    + inversion Hl as [|? ? Hz Hl']; subst.
      constructor.
      * rewrite in_insert_name. intros [->|Hin]; [apply Hx; now left | contradiction].
      * apply IH; [intro Hin; apply Hx; now right | assumption].
Qed.

Lemma sorted_names_from l : forall acc,
  NoDup l -> NoDup acc -> (forall x, In x l -> ~ In x acc) ->
  let r := fold_left (fun acc x => insert_name x acc) l acc in
  NoDup r /\ forall y, In y r <-> In y l \/ In y acc.
Proof.
  induction l as [|x l IH]; intros acc Hl Hacc Hdis; simpl.
  - split; [assumption | intuition].
  - inversion Hl as [|? ? Hx Hl']; subst.
    destruct (IH (insert_name x acc) Hl') as (Hnd & Hin).
    + apply NoDup_insert_name; [apply Hdis; now left | assumption].
    + intros y Hy. rewrite in_insert_name. intros [->|Hya]; [contradiction|].
      apply (Hdis y); [now right | assumption].
    + split; [exact Hnd|].
      intro y. rewrite Hin, in_insert_name. intuition.
Qed.

(** [sorted_union] lists each name of either side once. *)
Lemma sorted_union_spec a b :
  NoDup (sorted_union a b)
  /\ forall y, In y (sorted_union a b) <-> In y a \/ In y b.
Proof.
  unfold sorted_union.
  destruct (sorted_names_from (nodup string_dec (a ++ b)) [])
    as (Hnd & Hin).
  - apply NoDup_nodup.
  - constructor.
  - intros x _ [].
  - split; [exact Hnd|].
    intro y. rewrite Hin, nodup_In, in_app_iff. simpl. intuition.
Qed.

Lemma get_in_keys {V} (d : Dict.t V) k v :
  Dict.get d k = Some v -> In k (Dict.keys d).
Proof.
  induction d as [|[k0 v0] d IH]; simpl; [discriminate|].
  destruct (String.eqb_spec k0 k); [auto | intro H; right; auto].
Qed.

Lemma positive_avg_in_keys d task :
  0 < task_avg d task -> In task (Dict.keys d).
Proof.
  unfold task_avg. destruct (Dict.get d task) eqn:E.
  - intros _. eapply get_in_keys; exact E.
  - intro H. exfalso. exact (Qlt_irrefl 0 H).
Qed.

End BreakdownFacts.

(** X19.  The task breakdown prints the row of a task exactly when the task
    has a positive average in the statistics of both services, and prints
    it once; a task that only one service reports gets no row. *)
Theorem task_rows_need_both_averages
    (rust_results python_results : BenchmarkResults) (task : string) :
  let trace :=
    snd (run (print_tasks
                (sorted_union (Dict.keys (task_statistics rust_results))
                              (Dict.keys (task_statistics python_results)))
                rust_results python_results)) in
  (In (task_row rust_results python_results task) trace
   <-> 0 < task_avg (task_statistics rust_results) task
       /\ 0 < task_avg (task_statistics python_results) task)
  /\ NoDup trace.
Proof.
  intro trace. subst trace. unfold run.
  destruct (print_tasks_exact
              (sorted_union (Dict.keys (task_statistics rust_results))
                            (Dict.keys (task_statistics python_results)))
              rust_results python_results [])
    as (o & added & E & _ & ->).
  rewrite E. simpl.
  destruct (sorted_union_spec (Dict.keys (task_statistics rust_results))
                              (Dict.keys (task_statistics python_results)))
    as (Hnd & Hin).
  assert (Hinj : forall a b,
            task_row rust_results python_results a
            = task_row rust_results python_results b -> a = b).
  { intros a b H. unfold task_row in H. now inversion H. }
  split.
  - rewrite in_map_iff. split.
    + intros (task' & Ht & Hf). apply Hinj in Ht. subst task'.
      apply filter_In in Hf. destruct Hf as (_ & Hf).
      apply andb_true_iff in Hf. destruct Hf as (H1 & H2).
      split; now apply Qltb_true.
    + intros (H1 & H2). exists task. split; [reflexivity|].
      apply filter_In. split.
      * apply Hin. left. now apply positive_avg_in_keys.
      * apply andb_true_iff. split; now apply Qltb_true.
  - apply Injective_map_NoDup; [exact Hinj|].
    now apply NoDup_filter.
Qed.

(** ** The rate-driven dispatcher *)

Section RateFacts.

Import RateBenchmark.

Variables (url topic : string) (requests_per_second duration : Z) (start : Q).

Lemma rate_posts_app l1 l2 :
  rate_posts (l1 ++ l2) = rate_posts l1 ++ rate_posts l2.
Proof. apply flat_map_app. Qed.

Lemma sleeps_app l1 l2 : sleeps (l1 ++ l2) = sleeps l1 ++ sleeps l2.
Proof. apply flat_map_app. Qed.

(** What one [try] statement does to the local variables. *)
Lemma request_spec a st :
  let st' := request url topic a st in
  latencies st'
  = latencies st ++ (if accepted a then [latency_of a] else [])
  /\ error_count st'
     = (error_count st + (if unparsed a then 1 else 0))%Z
  /\ request_count st' = request_count st
  /\ rate_posts (effects st')
     = rate_posts (effects st) ++ [((url ++ "/research")%string, topic)]
  /\ sleeps (effects st') = sleeps (effects st).
Proof.
  unfold request, accepted, unparsed, succeeded, latency_of, failed, did,
    Http.send, Http.raise_for_status, Http.json.
  destruct (reply a) as [status [data|]|e];
    try destruct ((200 <=? status) && (status <? 300))%Z;
    cbn [latencies error_count request_count effects];
    rewrite ?rate_posts_app, ?sleeps_app, ?app_nil_r, ?Z.add_0_r;
    cbn [rate_posts sleeps flat_map app];
    rewrite ?app_nil_r, <- ?app_assoc; cbn [app];
    repeat split; reflexivity.
Qed.

(** What the loop has done when it ends because the time is up. *)
Lemma loop_time_up rs st st' :
  loop url topic requests_per_second duration start rs st = (TimeUp, st') ->
  let attempts := map attempt (played start duration rs) in
  latencies st' = latencies st ++ map latency_of (filter accepted attempts)
  /\ error_count st'
     = (error_count st + Py.len (filter unparsed attempts))%Z
  /\ request_count st' = (request_count st + Py.len attempts)%Z
  /\ rate_posts (effects st')
     = rate_posts (effects st)
       ++ repeat ((url ++ "/research")%string, topic) (List.length attempts)
  /\ List.length (sleeps (effects st'))
     = (List.length (sleeps (effects st)) + List.length attempts)%nat
  /\ (Forall (fun s => 0 <= s) (sleeps (effects st)) ->
      Forall (fun s => 0 <= s) (sleeps (effects st'))).
Proof.
  revert st. induction rs as [|r later IH]; intros st H; cbn [loop] in H.
  - discriminate.
  - cbn [played].
    destruct (Py.Qltb (test_clock r - start) (inject_Z duration)) eqn:Et.
    + destruct (sleep_time requests_per_second
                  (after_clock r - request_start (attempt r)))
        as [seconds|] eqn:Es; [|discriminate].
      apply IH in H. clear IH.
      destruct (request_spec (attempt r) st) as (Hl & He & Hc & Hp & Hs).
      cbv zeta in Hl, He, Hc, Hp, Hs.
      cbn [latencies error_count request_count effects] in H.
      destruct H as (Hl' & He' & Hc' & Hp' & Hs' & Hn').
      rewrite rate_posts_app in Hp'. rewrite sleeps_app in Hs', Hn'.
      cbn [rate_posts sleeps flat_map app] in Hp', Hs', Hn'.
      rewrite app_nil_r in Hp'.
      rewrite Hl in Hl'. rewrite He in He'. rewrite Hc in Hc'.
      rewrite Hp in Hp'. rewrite Hs in Hs', Hn'.
      cbn [map filter].
      assert (Hsec : 0 <= seconds).
      { unfold sleep_time in Es.
        destruct (requests_per_second =? 0)%Z; [discriminate|].
        injection Es as <-.
        destruct (Py.Qltb 0 _) eqn:Ew.
        - apply Qltb_true in Ew. now apply Qlt_le_weak.
        - apply Qle_refl. }
      repeat split.
      * rewrite Hl'. rewrite <- app_assoc.
        destruct (accepted (attempt r)); reflexivity.
      * rewrite He'. unfold Py.len.
        destruct (unparsed (attempt r)); cbn [List.length]; lia.
      * rewrite Hc'. unfold Py.len. cbn [List.length]. lia.
      * rewrite Hp'. rewrite <- app_assoc. reflexivity.
      * rewrite Hs'. rewrite length_app. cbn [List.length]. lia.
      * intro H0. apply Hn'. apply Forall_app. split; [assumption|].
        constructor; [assumption | constructor].
    + injection H as <-. cbn [map filter repeat List.length].
      unfold Py.len. cbn [List.length].
      rewrite !app_nil_r, Nat.add_0_r.
      repeat split; auto; lia.
Qed.




(** What a returned dict holds of the state after the loop. *)
Lemma rate_summarize_fields st r :
  summarize url st = Ok r ->
  total_requests r = request_count st
  /\ successful_requests r = Py.len (latencies st)
  /\ errors r = error_count st
  /\ raw_latencies r = latencies st.
Proof.
  unfold summarize. intro H.
  repeat match type of H with
         | rbind ?x _ = Ok _ =>
             let E := fresh "E" in
             destruct x eqn:E; simpl in H; [|discriminate]
         end.
  injection H as <-. simpl. auto.
Qed.



(** For each attempt: accepted or unparsed, and both when garbled. *)
Lemma garbled_counts attempts :
  (Py.len (filter accepted attempts) + Py.len (filter unparsed attempts)
   = Py.len attempts + Py.len (filter garbled attempts))%Z.
Proof.
  unfold Py.len.
  induction attempts as [|a attempts IH]; [reflexivity|].
  cbn [filter]. unfold garbled at 1.
  assert (H : accepted a = true \/ unparsed a = true).
  { unfold accepted, unparsed, succeeded.
    destruct (reply a) as [status [data|]|e]; auto.
    destruct ((200 <=? status) && (status <? 300))%Z; auto. }
  destruct H as [H|H]; rewrite H;
    [destruct (unparsed a) | destruct (accepted a)];
    cbn [andb List.length]; lia.
Qed.

End RateFacts.

(** X20.  The rate-driven dispatcher counts every round played as one
    request, every reply with a success status as a success, and every
    attempt without a parsed body as an error.  The latency is recorded
    before the body is parsed, so a success status with a body that is not
    JSON is counted on both sides: successes plus errors exceed the total
    by the number of such replies. *)
Theorem garbled_reply_counts_as_success_and_error
    (world : RateBenchmark.World) (url topic : string)
    (requests_per_second duration : Z)
    (r : RateBenchmark.Results) (trace : list RateBenchmark.Effect) :
  RateBenchmark.benchmark_service world url topic requests_per_second duration
  = (RateBenchmark.Returned r, trace) ->
  let attempts :=
    map RateBenchmark.attempt
        (played (RateBenchmark.start_time world) duration
                (RateBenchmark.rounds world)) in
  RateBenchmark.total_requests r = Py.len attempts
  /\ RateBenchmark.successful_requests r = Py.len (filter accepted attempts)
  /\ RateBenchmark.errors r = Py.len (filter unparsed attempts)
  /\ RateBenchmark.raw_latencies r
     = map latency_of (filter accepted attempts)
  /\ (RateBenchmark.successful_requests r + RateBenchmark.errors r
      = RateBenchmark.total_requests r + Py.len (filter garbled attempts))%Z.
Proof.
  intros H attempts. unfold RateBenchmark.benchmark_service in H.
  destruct (RateBenchmark.loop _ _ _ _ _ _ _) as [[| |] st] eqn:El;
    [|discriminate|discriminate].
  destruct (RateBenchmark.summarize url st) as [r'|] eqn:Er;
    [|discriminate].
  injection H as <- _.
  destruct (rate_summarize_fields url st r' Er) as (Ht & Hs & He & Hraw).
  apply loop_time_up in El. fold attempts in El.
  cbn [RateBenchmark.latencies RateBenchmark.error_count
         RateBenchmark.request_count app] in El.
  destruct El as (Hl & Hec & Hc & _).
  rewrite Ht, Hs, He, Hraw, Hl, Hec, Hc.
  assert (Hlen : Py.len (map latency_of (filter accepted attempts))
                 = Py.len (filter accepted attempts)).
  { unfold Py.len. now rewrite length_map. }
  rewrite Hlen.
  repeat split; try reflexivity.
  rewrite !Z.add_0_l. apply garbled_counts.
Qed.

Lemma garbled_reply_counts_as_success_and_error_witness :
  exists r trace,
    RateBenchmark.benchmark_service RateScenarios.busy Worlds.rust_url
                                    Worlds.topic 2 2
    = (RateBenchmark.Returned r, trace)
    /\ RateBenchmark.total_requests r = 3%Z
    /\ RateBenchmark.successful_requests r = 2%Z
    /\ RateBenchmark.errors r = 2%Z.
Proof.
  eexists; eexists.
  match goal with
  | |- ?E /\ _ => assert (H : E) by (vm_compute; reflexivity)
  end.
  split; [exact H|].
  destruct (garbled_reply_counts_as_success_and_error
              RateScenarios.busy Worlds.rust_url Worlds.topic 2 2 _ _ H)
    as (Ht & Hs & He & _).
  split; [exact Ht|]. split; [exact Hs | exact He].
Defined.

(** X21.  Every round of the rate-driven dispatcher posts the same payload,
    the bare topic, to [url/research], and is followed by one sleep; no
    sleep is negative, however long the request took. *)
Theorem rate_dispatch_posts_and_sleeps_once_a_round
    (world : RateBenchmark.World) (url topic : string)
    (requests_per_second duration : Z)
    (r : RateBenchmark.Results) (trace : list RateBenchmark.Effect) :
  RateBenchmark.benchmark_service world url topic requests_per_second duration
  = (RateBenchmark.Returned r, trace) ->
  let n := List.length (played (RateBenchmark.start_time world) duration
                               (RateBenchmark.rounds world)) in
  rate_posts trace = repeat ((url ++ "/research")%string, topic) n
  /\ List.length (sleeps trace) = n
  /\ Forall (fun seconds => 0 <= seconds) (sleeps trace).
Proof.
  intros H n. unfold RateBenchmark.benchmark_service in H.
  destruct (RateBenchmark.loop _ _ _ _ _ _ _) as [[| |] st] eqn:El;
    [|discriminate|discriminate].
  destruct (RateBenchmark.summarize url st) as [r'|] eqn:Er;
    [|discriminate].
  injection H as _ <-.
  apply loop_time_up in El.
  cbn [RateBenchmark.effects rate_posts sleeps flat_map app List.length] in El.
  rewrite length_map in El. fold n in El.
  destruct El as (_ & _ & _ & Hp & Hs & Hn).
  repeat split; [exact Hp | exact Hs | apply Hn; constructor].
Qed.

Lemma rate_dispatch_posts_and_sleeps_once_a_round_witness :
  exists r trace,
    RateBenchmark.benchmark_service RateScenarios.busy Worlds.rust_url
                                    Worlds.topic 2 2
    = (RateBenchmark.Returned r, trace)
    /\ rate_posts trace
       = repeat ((Worlds.rust_url ++ "/research")%string, Worlds.topic) 3
    /\ List.length (sleeps trace) = 3%nat
    /\ Forall (fun seconds => 0 <= seconds) (sleeps trace).
Proof.
  eexists; eexists.
  match goal with
  | |- ?E /\ _ => assert (H : E) by (vm_compute; reflexivity)
  end.
  split; [exact H|].
  exact (rate_dispatch_posts_and_sleeps_once_a_round
           RateScenarios.busy Worlds.rust_url Worlds.topic 2 2 _ _ H).
Defined.



(** X23.  A rate of zero makes the rate-driven dispatcher raise
    [ZeroDivisionError] once the loop is entered: the division is outside
    the [try], so the call ends after one request was posted, without a
    sleep and without results. *)
Theorem zero_rate_raises_after_one_request
    (world : RateBenchmark.World) (url topic : string) (duration : Z)
    (first : RateBenchmark.Round) (later : list RateBenchmark.Round) :
  RateBenchmark.rounds world = first :: later ->
  RateBenchmark.test_clock first - RateBenchmark.start_time world
  < inject_Z duration ->
  exists trace,
    RateBenchmark.benchmark_service world url topic 0 duration
    = (RateBenchmark.ZeroDivisionError, trace)
    /\ rate_posts trace = [((url ++ "/research")%string, topic)]
    /\ sleeps trace = [].
Proof.
  intros Hr Ht. unfold RateBenchmark.benchmark_service.
  rewrite Hr. cbn [RateBenchmark.loop].
  apply Qltb_true in Ht. rewrite Ht.
  cbn [RateBenchmark.sleep_time Z.eqb].
  eexists. split; [reflexivity|].
  cbn [RateBenchmark.effects].
  match goal with
  | |- context [RateBenchmark.request url topic ?a ?st] =>
      destruct (request_spec url topic a st) as (_ & _ & _ & Hp & Hs)
  end.
  cbv zeta in Hp, Hs. rewrite Hp, Hs.
  split; reflexivity.
Qed.

Lemma zero_rate_raises_after_one_request_witness :
  RateBenchmark.rounds RateScenarios.busy
  = RateScenarios.round 0 (Responded 200 (Some Worlds.body)) (1 # 10)
    :: tl (RateBenchmark.rounds RateScenarios.busy)
  /\ 0 - RateBenchmark.start_time RateScenarios.busy < inject_Z 2
  /\ exists trace,
       RateBenchmark.benchmark_service RateScenarios.busy Worlds.rust_url
                                       Worlds.topic 0 2
       = (RateBenchmark.ZeroDivisionError, trace)
       /\ rate_posts trace
          = [((Worlds.rust_url ++ "/research")%string, Worlds.topic)]
       /\ sleeps trace = [].
Proof.
  split; [reflexivity|]. split; [reflexivity|].
  apply (zero_rate_raises_after_one_request
           RateScenarios.busy Worlds.rust_url Worlds.topic 2
           (RateScenarios.round 0 (Responded 200 (Some Worlds.body)) (1 # 10))
           (tl (RateBenchmark.rounds RateScenarios.busy)));
    reflexivity.
Defined.

(** X24.  When the first loop test already finds the duration used up (a
    duration of zero, say), the rate-driven dispatcher posts nothing and
    returns zero counts, an error rate of zero, zero latency statistics and
    no phase statistics, whatever the rate, zero included. *)
Theorem expired_rate_dispatch_sends_nothing
    (world : RateBenchmark.World) (url topic : string)
    (requests_per_second duration : Z)
    (first : RateBenchmark.Round) (later : list RateBenchmark.Round) :
  RateBenchmark.rounds world = first :: later ->
  time_is_up (RateBenchmark.start_time world) duration first ->
  exists r trace,
    RateBenchmark.benchmark_service world url topic requests_per_second
                                    duration
    = (RateBenchmark.Returned r, trace)
    /\ rate_posts trace = []
    /\ sleeps trace = []
    /\ RateBenchmark.total_requests r = 0%Z
    /\ RateBenchmark.successful_requests r = 0%Z
    /\ RateBenchmark.errors r = 0%Z
    /\ RateBenchmark.error_rate r = 0
    /\ RateBenchmark.avg_latency_ms r = 0
    /\ RateBenchmark.p50_latency_ms r = 0
    /\ RateBenchmark.p95_latency_ms r = 0
    /\ RateBenchmark.p99_latency_ms r = 0
    /\ RateBenchmark.task_statistics r = []
    /\ RateBenchmark.raw_latencies r = [].
Proof.
  intros Hr Hup. unfold RateBenchmark.benchmark_service.
  rewrite Hr. cbn [RateBenchmark.loop].
  unfold time_is_up in Hup. apply Qltb_false in Hup. rewrite Hup.
  eexists; eexists. split; [reflexivity|].
  repeat split.
Qed.

Lemma expired_rate_dispatch_sends_nothing_witness :
  time_is_up (RateBenchmark.start_time RateScenarios.busy) 0
             (RateScenarios.round 0 (Responded 200 (Some Worlds.body)) (1 # 10))
  /\ exists r trace,
       RateBenchmark.benchmark_service RateScenarios.busy Worlds.rust_url
                                       Worlds.topic 0 0
       = (RateBenchmark.Returned r, trace)
       /\ rate_posts trace = []
       /\ RateBenchmark.total_requests r = 0%Z.
Proof.
  assert (H : time_is_up (RateBenchmark.start_time RateScenarios.busy) 0
                (RateScenarios.round 0 (Responded 200 (Some Worlds.body))
                                     (1 # 10))).
  { unfold time_is_up. simpl. discriminate. }
  split; [exact H|].
  destruct (expired_rate_dispatch_sends_nothing
              RateScenarios.busy Worlds.rust_url Worlds.topic 0 0
              (RateScenarios.round 0 (Responded 200 (Some Worlds.body))
                                   (1 # 10))
              (tl (RateBenchmark.rounds RateScenarios.busy))
              eq_refl H)
    as (r & trace & E & Hp & _ & Ht & _).
  exists r, trace. split; [exact E|]. split; [exact Hp | exact Ht].
Defined.
